(** * Olist e-commerce pipeline: the loader and the CSV analysis script

    A shallow embedding of [scripts/enhanced_olist_loader.py] and
    [scripts/data_field_and_types_raw.py].  Both scripts are short sequences
    of pandas and SQL calls, so the development has two layers:

    - a model of the pandas / numpy / SQL operations the scripts call:
      binary64 numbers, the type inference of [read_csv] (its int64,
      uint64, float64 and bool passes), [to_numeric], [fillna], [astype],
      [replace], [to_datetime], the division of numpy scalars, [to_sql]
      with [if_exists='replace'], [CREATE INDEX IF NOT EXISTS],
      [COMMENT ON] and [CREATE OR REPLACE VIEW] on PostgreSQL;
    - the scripts themselves, transcribed call by call on top of that
      model: [coerce_column], [load_table], [load_step], [load_csv_files],
      [create_foreign_key_documentation], [create_summary_views], [main],
      and [suggested_type], [analyze_column], [analyze_csv_files],
      [print_detailed_analysis].

    The model follows pandas 2.x with the C parser on a 64-bit platform,
    SQLAlchemy 2.x and PostgreSQL.  A source is taken after tokenisation (a
    header and the raw text of the cells of each column).  Kept abstract
    (record [pylib]): the float64 that the two string-to-double converters
    of pandas make of a literal (neither is correctly rounded), the text
    of floats and of timestamps, and the timestamp grammar.  The store
    holds tables, indexes, views and comments; the server is taken to
    store the rows of every frame and to build every index, and whether it
    accepts the query of a view is a parameter of the run. *)

From Stdlib Require Import ZArith List Bool Lia.
From Stdlib Require Import Strings.String Strings.Ascii.
From Stdlib Require Import Numbers.DecimalString.
From stdpp Require Import base option list gmap strings.

Local Open Scope Z_scope.

(* ===================================================================== *)
(** ** Exceptions and results *)
(* ===================================================================== *)

(** The exceptions that the modelled calls can raise. *)
Inductive exn :=
| ParserError            (* read_csv: the source cannot be tokenised *)
| MissingDateColumn      (* read_csv: a parse_dates name is not in the header *)
| IntCastingNaNError     (* astype(int): a non-finite float *)
| OverflowError          (* astype(int): an integer beyond the C long *)
| ValueError             (* astype(int): a text that is no integer, a NaN *)
| TypeError              (* astype(int): None *)
| ZeroDivisionError      (* int / int with a zero divisor *)
| DependentObjectsStillExist   (* DROP TABLE: a view depends on the table *)
| WrongObjectType        (* the name is that of a relation of another kind *)
| DuplicateTable         (* CREATE TABLE: the name is that of an index *)
| SyntaxError            (* a statement PostgreSQL cannot read *)
| UndefinedTable         (* a relation that does not exist *)
| UndefinedColumn        (* a column that does not exist *)
| InvalidQuery.          (* the query of a view is not accepted *)

Inductive result (A : Type) :=
| Ok (a : A)
| Raise (e : exn).
Arguments Ok {A} a.
Arguments Raise {A} e.

Definition rbind {A B} (r : result A) (k : A -> result B) : result B :=
  match r with
  | Ok a => k a
  | Raise e => Raise e
  end.

Notation "x <- r ;; k" := (rbind r (fun x => k))
  (at level 100, r at next level, right associativity).

(** [for x in l: acc = body(x, acc)] where the body may raise. *)
Fixpoint foldM {A S} (body : A -> S -> result S) (l : list A) (s : S) : result S :=
  match l with
  | [] => Ok s
  | x :: l' => s' <- body x s ;; foldM body l' s'
  end.

Fixpoint mapM {A B} (f : A -> result B) (l : list A) : result (list B) :=
  match l with
  | [] => Ok []
  | x :: l' => y <- f x ;; ys <- mapM f l' ;; Ok (y :: ys)
  end.

(* ===================================================================== *)
(** ** Binary64 numbers *)
(* ===================================================================== *)

(** A float64: NaN, an infinity, or the finite value [m * 2^e].  The sign
    of zero is not represented. *)
Inductive f64 :=
| Fnan
| Finf (neg : bool)
| Ffin (m e : Z).

Definition f64_zero : f64 := Ffin 0 0.

Definition f64_is_nan (x : f64) : bool :=
  match x with Fnan => true | _ => false end.

Definition f64_is_finite (x : f64) : bool :=
  match x with Ffin _ _ => true | _ => false end.

(** Nearest integer to [n / d], ties to even ([0 <= n], [0 < d]). *)
Definition round_half_even (n d : Z) : Z :=
  let q := n / d in
  let r := n mod d in
  if (d <? 2 * r) || ((2 * r =? d) && Z.odd q) then q + 1 else q.

(** [floor (log2 (a / d))] for [0 < a], [0 < d]. *)
Definition ilog2_ratio (a d : Z) : Z :=
  let l0 := Z.log2 a - Z.log2 d in
  let below := if 0 <=? l0 then a <? d * 2 ^ l0 else a * 2 ^ (- l0) <? d in
  if below then l0 - 1 else l0.

(** The float64 nearest to the rational [n / d] ([0 < d]): 53 significant
    bits, least exponent -1074, overflow to infinity at [2^1024]. *)
Definition f64_of_ratio (n d : Z) : f64 :=
  if n =? 0 then f64_zero
  else
    let a := Z.abs n in
    let et := Z.max (ilog2_ratio a d - 52) (-1074) in
    let m := if 0 <=? et then round_half_even a (d * 2 ^ et)
             else round_half_even (a * 2 ^ (- et)) d in
    if 1024 <=? Z.log2 m + et then Finf (n <? 0)
    else Ffin (Z.sgn n * m) et.

(** The conversion of an integer to float64 (a C cast). *)
Definition f64_of_Z (z : Z) : f64 := f64_of_ratio z 1.

(** Rounding of the exact value [m * 2^e]. *)
Definition f64_of_dyadic (m e : Z) : f64 :=
  if 0 <=? e then f64_of_ratio (m * 2 ^ e) 1 else f64_of_ratio m (2 ^ (- e)).

(** Truncation toward zero of a finite value. *)
Definition f64_trunc (m e : Z) : Z :=
  if 0 <=? e then m * 2 ^ e else Z.quot m (2 ^ (- e)).

Definition int64_min : Z := - 2 ^ 63.
Definition int64_max : Z := 2 ^ 63 - 1.
Definition uint64_max : Z := 2 ^ 64 - 1.

Definition in_int64 (z : Z) : bool := (int64_min <=? z) && (z <=? int64_max).

(** The C conversion double -> int64 that numpy's [astype] performs on a
    finite value.  Out of range the result is the "integer indefinite"
    value of x86-64. *)
Definition f64_to_int64 (m e : Z) : Z :=
  let t := f64_trunc m e in
  if in_int64 t then t else int64_min.

(** The C conversion uint64 -> int64: the same 64 bits. *)
Definition wrap64 (z : Z) : Z := (z + 2 ^ 63) mod 2 ^ 64 - 2 ^ 63.

Definition sign_neg (m : Z) : bool := m <? 0.

(** IEEE division. *)
Definition f64_div (x y : f64) : f64 :=
  match x, y with
  | Fnan, _ | _, Fnan => Fnan
  | Finf _, Finf _ => Fnan
  | Finf s, Ffin m _ => Finf (xorb s (sign_neg m))
  | Ffin _ _, Finf _ => f64_zero
  | Ffin m1 e1, Ffin m2 e2 =>
      if m2 =? 0 then
        if m1 =? 0 then Fnan else Finf (sign_neg m1)
      else
        let n := Z.sgn m2 * m1 * 2 ^ Z.max 0 (e1 - e2) in
        let d := Z.abs m2 * 2 ^ Z.max 0 (e2 - e1) in
        f64_of_ratio n d
  end.

(** IEEE multiplication. *)
Definition f64_mul (x y : f64) : f64 :=
  match x, y with
  | Fnan, _ | _, Fnan => Fnan
  | Finf s, Finf t => Finf (xorb s t)
  | Finf s, Ffin m _ | Ffin m _, Finf s =>
      if m =? 0 then Fnan else Finf (xorb s (sign_neg m))
  | Ffin m1 e1, Ffin m2 e2 => f64_of_dyadic (m1 * m2) (e1 + e2)
  end.

(** IEEE subtraction. *)
Definition f64_sub (x y : f64) : f64 :=
  match x, y with
  | Fnan, _ | _, Fnan => Fnan
  | Finf s, Finf t => if Bool.eqb s t then Fnan else Finf s
  | Finf s, Ffin _ _ => Finf s
  | Ffin _ _, Finf t => Finf (negb t)
  | Ffin m1 e1, Ffin m2 e2 =>
      let e := Z.min e1 e2 in
      f64_of_dyadic (m1 * 2 ^ (e1 - e) - m2 * 2 ^ (e2 - e)) e
  end.

(** Equality of values ([==] of Python; NaN differs from itself). *)
Definition f64_eqb (x y : f64) : bool :=
  match x, y with
  | Finf s, Finf t => Bool.eqb s t
  | Ffin m1 e1, Ffin m2 e2 =>
      let e := Z.min e1 e2 in
      m1 * 2 ^ (e1 - e) =? m2 * 2 ^ (e2 - e)
  | _, _ => false
  end.

(* ===================================================================== *)
(** ** Numeric literals *)
(* ===================================================================== *)

Definition is_digit (c : ascii) : bool :=
  let n := nat_of_ascii c in ((48 <=? n) && (n <=? 57))%nat.

Definition digit_val (c : ascii) : Z := Z.of_nat (nat_of_ascii c) - 48.

(** [isspace_ascii] of the tokenizer. *)
Definition is_space (c : ascii) : bool :=
  let n := nat_of_ascii c in ((n =? 32) || ((9 <=? n) && (n <=? 13)))%nat.

Definition lower (c : ascii) : ascii :=
  let n := nat_of_ascii c in
  if ((65 <=? n) && (n <=? 90))%nat then ascii_of_nat (n + 32) else c.

Fixpoint lowercase (s : string) : string :=
  match s with
  | EmptyString => EmptyString
  | String c s' => String (lower c) (lowercase s')
  end.

Fixpoint ltrim (s : string) : string :=
  match s with
  | String c s' => if is_space c then ltrim s' else s
  | EmptyString => s
  end.

Fixpoint rtrim (s : string) : string :=
  match s with
  | EmptyString => EmptyString
  | String c s' =>
      match rtrim s' with
      | EmptyString => if is_space c then EmptyString else String c EmptyString
      | t => String c t
      end
  end.

Definition strip (s : string) : string := rtrim (ltrim s).

(** Only blanks are left. *)
Definition blank (s : string) : bool :=
  match ltrim s with
  | EmptyString => true
  | _ => false
  end.

(** Reads a run of digits: accumulated value, number of digits, rest. *)
Fixpoint span_digits (s : string) (acc : Z) (n : Z) : Z * Z * string :=
  match s with
  | String c s' =>
      if is_digit c then span_digits s' (10 * acc + digit_val c) (n + 1)
      else (acc, n, s)
  | EmptyString => (acc, n, s)
  end.

(** Reads an optional sign: [true] for a minus. *)
Definition read_sign (s : string) : bool * string :=
  match s with
  | String "-"%char s' => (true, s')
  | String "+"%char s' => (false, s')
  | _ => (false, s)
  end.

Definition signed (neg : bool) (z : Z) : Z := if neg then - z else z.

(** A decimal literal: an integer written with digits only, or a number
    with a fraction or an exponent, of value [m * 10^k]. *)
Inductive literal :=
| LInt (z : Z)
| LDec (m k : Z).

(** The exponent part ([e], optional sign, digits) of a literal whose
    mantissa is [m * 10^k]. *)
Definition read_exponent (m k : Z) (s : string) : option literal :=
  match s with
  | String c s' =>
      if (lower c =? "e")%char then
        let '(neg, s1) := read_sign s' in
        let '(ex, nx, rest) := span_digits s1 0 0 in
        match rest with
        | EmptyString => if 0 <? nx then Some (LDec m (k + signed neg ex)) else None
        | _ => None
        end
      else None
  | EmptyString => Some (LDec m k)
  end.

(** The literal grammar of the two string-to-double converters
    ([precise_xstrtod] of [read_csv], [xstrtod] of [to_numeric]): blanks,
    sign, digits, optional fraction, optional exponent, blanks. *)
Definition parse_literal (s : string) : option literal :=
  let '(neg, s1) := read_sign (strip s) in
  let '(ip, ni, s2) := span_digits s1 0 0 in
  match s2 with
  | EmptyString => if 0 <? ni then Some (LInt (signed neg ip)) else None
  | String "."%char s3 =>
      let '(m, nf, s4) := span_digits s3 ip 0 in
      if 0 <? ni + nf then read_exponent (signed neg m) (- nf) s4 else None
  | _ => if 0 <? ni then read_exponent (signed neg ip) 0 s2 else None
  end.

(** The spellings of infinity that both parsers compare the whole text
    with, whatever the case: [inf] and [infinity] with an optional sign. *)
Definition parse_infinity (s : string) : option f64 :=
  let '(neg, s1) := read_sign (lowercase s) in
  if (s1 =? "inf")%string || (s1 =? "infinity")%string then Some (Finf neg) else None.

(** [str_to_int64] of the tokenizer: blanks, sign, digits, blanks.  The
    range is checked while the digits are read, before what follows
    them. *)
Inductive int_token :=
| TokInt (z : Z)
| TokOverflow
| TokInvalid.

Definition str_to_int64 (s : string) : int_token :=
  let '(neg, s1) := read_sign (ltrim s) in
  let '(v, n, rest) := span_digits s1 0 0 in
  if n =? 0 then TokInvalid
  else if negb (in_int64 (signed neg v)) then TokOverflow
  else if blank rest then TokInt (signed neg v) else TokInvalid.

(** [str_to_uint64]: a minus sign is noted and ends the reading of the
    cell without an error. *)
Inductive uint_token :=
| UTokNegative
| UTokInt (z : Z)
| UTokOverflow
| UTokInvalid.

Definition str_to_uint64 (s : string) : uint_token :=
  match ltrim s with
  | String "-"%char _ => UTokNegative
  | s0 =>
      let s1 := match s0 with String "+"%char s' => s' | _ => s0 end in
      let '(v, n, rest) := span_digits s1 0 0 in
      if n =? 0 then UTokInvalid
      else if uint64_max <? v then UTokOverflow
      else if blank rest then UTokInt v else UTokInvalid
  end.

(** An integer literal of at most 17 characters and of magnitude at most
    [2^53]: both converters read its digits one by one without rounding
    (beyond 17 digits [precise_xstrtod] drops the digits). *)
Definition short_integer (s : string) : option Z :=
  match parse_literal s with
  | Some (LInt z) =>
      if (String.length s <=? 17)%nat && (Z.abs z <=? 2 ^ 53) then Some z else None
  | _ => None
  end.

(** A string-to-double converter on a text: an error when the text is
    not a literal; a short integer is read exactly; otherwise the finite
    value is the converter's own ([None]: out of range, an error too). *)
Definition strtod (conv : string -> option (Z * Z)) (s : string) : option f64 :=
  match parse_literal s with
  | None => None
  | Some _ =>
      match short_integer s with
      | Some z => Some (f64_of_Z z)
      | None => (fun v : Z * Z => Ffin v.1 v.2) <$> conv s
      end
  end.

(* ===================================================================== *)
(** ** Series and the cells of a CSV source *)
(* ===================================================================== *)

(** What pandas leaves abstract for this development: the finite value
    that [precise_xstrtod] (the converter of [read_csv]) and [xstrtod]
    (that of [to_numeric]) make of a literal, the text of a finite float
    ([repr]), the text of a timestamp, the timestamp grammar of
    [to_datetime] on text (nanoseconds since the epoch), and the timestamp
    that [to_datetime] makes of a finite float and of an unsigned
    integer. *)
Record pylib := {
  csv_strtod : string -> option (Z * Z);
  numeric_strtod : string -> option (Z * Z);
  float_repr : Z -> Z -> string;
  timestamp_repr : Z -> string;
  parse_timestamp : string -> option Z;
  timestamp_of_float : Z -> Z -> option Z;
  timestamp_of_uint : Z -> option Z
}.

(** An element of an object column. *)
Inductive pyobj :=
| OStr (s : string)
| OBool (b : bool)
| OInt (z : Z)
| ONaN
| ONone.

(** A column with its storage type.  [SDatetime] holds nanoseconds since
    the epoch, [None] being NaT. *)
Inductive Series :=
| SInt (l : list Z)
| SUInt (l : list Z)
| SFloat (l : list f64)
| SBool (l : list bool)
| SObject (l : list pyobj)
| SDatetime (l : list (option Z)).

Definition series_len (s : Series) : nat :=
  match s with
  | SInt l => length l
  | SUInt l => length l
  | SFloat l => length l
  | SBool l => length l
  | SObject l => length l
  | SDatetime l => length l
  end.

(** [str(series.dtype)] *)
Definition dtype_name (s : Series) : string :=
  match s with
  | SInt _ => "int64"
  | SUInt _ => "uint64"
  | SFloat _ => "float64"
  | SBool _ => "bool"
  | SObject _ => "object"
  | SDatetime _ => "datetime64[ns]"
  end.

Definition str_in (s : string) (l : list string) : bool := existsb (String.eqb s) l.

(** The default [na_values] of [read_csv]. *)
Definition na_values : list string :=
  [ EmptyString; "#N/A"; "#N/A N/A"; "#NA"; "-1.#IND"; "-1.#QNAN"; "-NaN"; "-nan";
    "1.#IND"; "1.#QNAN"; "<NA>"; "N/A"; "NA"; "NULL"; "NaN"; "None"; "n/a";
    "nan"; "null" ].

Definition is_na (cell : string) : bool := str_in cell na_values.

(** The default [true_values] / [false_values] of [read_csv]. *)
Definition csv_bool (cell : string) : option bool :=
  if str_in cell ["True"; "TRUE"; "true"] then Some true
  else if str_in cell ["False"; "FALSE"; "false"] then Some false
  else None.

(** What the float64 pass of [read_csv] reads in a cell: the value of
    the converter, or on its error an infinity when the cell is one of
    its spellings. *)
Definition csv_double (py : pylib) (cell : string) : option f64 :=
  match strtod (csv_strtod py) cell with
  | Some x => Some x
  | None => parse_infinity cell
  end.

Definition int_of_cell (cell : string) : Z :=
  match str_to_int64 cell with
  | TokInt z => z
  | _ => 0
  end.

Definition uint_of_cell (cell : string) : Z :=
  match str_to_uint64 cell with
  | UTokInt z => z
  | _ => 0
  end.

(** A cell of an int64 column that is cast to float64 because the column
    has missing cells. *)
Definition upcast_cell (cell : string) : f64 :=
  if is_na cell then Fnan else f64_of_Z (int_of_cell cell).

Definition double_of_cell (py : pylib) (cell : string) : f64 :=
  if is_na cell then Fnan
  else match csv_double py cell with
       | Some x => x
       | None => Fnan
       end.

Definition bool_of_cell (cell : string) : bool :=
  match csv_bool cell with
  | Some b => b
  | None => false
  end.

Definition bool_obj_of_cell (cell : string) : pyobj :=
  if is_na cell then ONaN else OBool (bool_of_cell cell).

Definition text_of_cell (cell : string) : pyobj :=
  if is_na cell then ONaN else OStr cell.

(** The int64 pass over a column stops at the first cell that is neither
    missing nor an integer of the signed range. *)
Inductive int64_pass :=
| Int64Done
| Int64Overflow
| Int64Invalid.

Fixpoint try_int64 (cells : list string) : int64_pass :=
  match cells with
  | [] => Int64Done
  | c :: cells' =>
      if is_na c then try_int64 cells'
      else match str_to_int64 c with
           | TokInt _ => try_int64 cells'
           | TokOverflow => Int64Overflow
           | TokInvalid => Int64Invalid
           end
  end.

(** What the uint64 pass has seen: an integer above the signed range, a
    minus sign, a missing cell. *)
Record uint_state := {
  seen_uint : bool;
  seen_sint : bool;
  seen_null : bool
}.

Inductive uint64_pass :=
| UInt64Done (state : uint_state)
| UInt64Overflow
| UInt64Invalid.

Fixpoint try_uint64 (cells : list string) (state : uint_state) : uint64_pass :=
  match cells with
  | [] => UInt64Done state
  | c :: cells' =>
      if is_na c then
        try_uint64 cells'
          {| seen_uint := seen_uint state; seen_sint := seen_sint state;
             seen_null := true |}
      else match str_to_uint64 c with
           | UTokNegative =>
               try_uint64 cells'
                 {| seen_uint := seen_uint state; seen_sint := true;
                    seen_null := seen_null state |}
           | UTokInt z =>
               try_uint64 cells'
                 {| seen_uint := seen_uint state || (int64_max <? z);
                    seen_sint := seen_sint state; seen_null := seen_null state |}
           | UTokOverflow => UInt64Overflow
           | UTokInvalid => UInt64Invalid
           end
  end.

(** [uint64_conflict]: no storage holds the column. *)
Definition uint64_conflict (state : uint_state) : bool :=
  seen_uint state && (seen_sint state || seen_null state).

(** The float64 pass, then the bool pass, then text: a column every
    present cell of which the converter reads is float64; one whose
    present cells are all boolean tokens is bool, or an object column of
    booleans and NaN when a cell is missing. *)
Definition try_double (py : pylib) (cells : list string) : Series :=
  let present := filter (fun c => negb (is_na c)) cells in
  if forallb (fun c => bool_decide (is_Some (csv_double py c))) present then
    SFloat (map (double_of_cell py) cells)
  else if forallb (fun c => bool_decide (is_Some (csv_bool c))) present then
    if existsb is_na cells then SObject (map bool_obj_of_cell cells)
    else SBool (map bool_of_cell cells)
  else SObject (map text_of_cell cells).

(** The storage type [read_csv] gives a column that is not a date column
    (C parser, no [dtype] argument).  A column of a source without rows is
    an empty object column.  The int64 pass comes first; missing cells
    turn its integers into floats.  When it stops on an integer beyond the
    signed range the uint64 pass runs: an integer beyond the unsigned
    range, or a minus sign without an integer above the signed range,
    leaves the column as text; a conflict leaves it as text in which the
    missing cells keep their text; otherwise the column is uint64.  A pass
    that stops on a cell that is no integer hands over to the float64
    pass. *)
Definition read_csv_column (py : pylib) (cells : list string) : Series :=
  match cells with
  | [] => SObject []
  | _ =>
      match try_int64 cells with
      | Int64Done =>
          if existsb is_na cells then SFloat (map upcast_cell cells)
          else SInt (map int_of_cell cells)
      | Int64Invalid => try_double py cells
      | Int64Overflow =>
          match try_uint64 cells
                  {| seen_uint := false; seen_sint := false; seen_null := false |} with
          | UInt64Overflow => SObject (map text_of_cell cells)
          | UInt64Invalid => try_double py cells
          | UInt64Done state =>
              if uint64_conflict state then SObject (map OStr cells)
              else if seen_sint state then SObject (map text_of_cell cells)
              else SUInt (map uint_of_cell cells)
          end
      end
  end.

(** A column named in [parse_dates]: read as text, then converted when
    every value present parses; left as text otherwise. *)
Definition read_date_column (py : pylib) (cells : list string) : Series :=
  let present := filter (fun c => negb (is_na c)) cells in
  if forallb (fun c => bool_decide (is_Some (parse_timestamp py c))) present then
    SDatetime (map (fun c => if is_na c then None else parse_timestamp py c) cells)
  else SObject (map text_of_cell cells).

(* ===================================================================== *)
(** ** to_numeric, fillna, astype, replace, to_datetime *)
(* ===================================================================== *)

(** One element of an object column as [to_numeric(errors='coerce')]
    sees it ([maybe_convert_numeric]): a null, an integer of the signed or
    unsigned range with the float the converter made of its text, a float,
    a boolean. *)
Inductive scanned :=
| ScNull
| ScInt (z : Z) (x : f64)
| ScFloat (x : f64)
| ScBool (b : bool).

(** A text ([floatify]): the converter reads it, or it is a spelling of
    infinity, or it is unparseable and coerced to a null.  An integer
    literal outside both 64-bit ranges counts as a float. *)
Definition scan_text (py : pylib) (s : string) : scanned :=
  match strtod (numeric_strtod py) s with
  | Some x =>
      match parse_literal s with
      | Some (LInt z) =>
          if (int64_min <=? z) && (z <=? uint64_max) then ScInt z x else ScFloat x
      | _ => ScFloat x
      end
  | None =>
      match parse_infinity s with
      | Some x => ScFloat x
      | None => ScNull
      end
  end.

Definition scan_obj (py : pylib) (o : pyobj) : scanned :=
  match o with
  | OStr s => scan_text py s
  | OBool b => ScBool b
  | OInt z =>
      if (int64_min <=? z) && (z <=? uint64_max) then ScInt z (f64_of_Z z)
      else ScFloat (f64_of_Z z)
  | ONaN | ONone => ScNull
  end.

Definition is_ScNull (c : scanned) : bool :=
  match c with ScNull => true | _ => false end.

Definition forces_float (c : scanned) : bool :=
  match c with ScNull | ScFloat _ => true | _ => false end.

Definition is_ScInt (c : scanned) : bool :=
  match c with ScInt _ _ => true | _ => false end.

Definition is_ScBool (c : scanned) : bool :=
  match c with ScBool _ => true | _ => false end.

(** An integer above the signed range; a negative integer. *)
Definition is_uint (c : scanned) : bool :=
  match c with ScInt z _ => int64_max <? z | _ => false end.

Definition is_sint (c : scanned) : bool :=
  match c with ScInt z _ => z <? 0 | _ => false end.

Definition Z_of_bool (b : bool) : Z := if b then 1 else 0.

Definition float_of_scanned (c : scanned) : f64 :=
  match c with
  | ScNull => Fnan
  | ScInt _ x => x
  | ScFloat x => x
  | ScBool b => f64_of_Z (Z_of_bool b)
  end.

Definition int_of_scanned (c : scanned) : Z :=
  match c with
  | ScInt z _ => z
  | ScBool b => Z_of_bool b
  | _ => 0
  end.

Definition bool_of_scanned (c : scanned) : bool :=
  match c with ScBool b => b | _ => false end.

Definition int_of_timestamp (t : option Z) : Z :=
  match t with Some z => z | None => int64_min end.

(** [Seen.check_uint64_conflict]: an integer above the signed range
    beside a null or a negative integer. *)
Definition scan_conflict (sc : list scanned) : bool :=
  existsb is_uint sc && (existsb is_ScNull sc || existsb is_sint sc).

(** [pd.to_numeric(series, errors='coerce')]: numeric storage is returned
    as it is, timestamps as their int64 view, and an object column is
    scanned.  On a conflict the column is returned as it came, unparseable
    texts included.  Otherwise a null, a float or an unparseable text
    makes the result float64 (unparseable text becoming NaN), else
    integers make it uint64 or int64, else booleans make it bool. *)
Definition to_numeric_coerce (py : pylib) (s : Series) : Series :=
  match s with
  | SDatetime l => SInt (map int_of_timestamp l)
  | SObject l =>
      let sc := map (scan_obj py) l in
      if scan_conflict sc then SObject l
      else if existsb forces_float sc then SFloat (map float_of_scanned sc)
      else if existsb is_ScInt sc then
        if existsb is_uint sc then SUInt (map int_of_scanned sc)
        else SInt (map int_of_scanned sc)
      else if existsb is_ScBool sc then SBool (map bool_of_scanned sc)
      else SInt []
  | _ => s
  end.

(** [.fillna(0)] *)
Definition fillna_zero (s : Series) : Series :=
  match s with
  | SFloat l => SFloat (map (fun x => if f64_is_nan x then f64_zero else x) l)
  | SObject l => SObject (map (fun o => match o with
                                        | ONaN | ONone => OInt 0
                                        | _ => o
                                        end) l)
  | _ => s
  end.

Definition int_of_float (x : f64) : Z :=
  match x with
  | Ffin m e => f64_to_int64 m e
  | _ => int64_min
  end.

(** [str.isspace] on a character of the Latin-1 range. *)
Definition py_isspace (c : ascii) : bool :=
  let n := nat_of_ascii c in
  (((9 <=? n) && (n <=? 13)) || ((28 <=? n) && (n <=? 32)) || (n =? 133) || (n =? 160))%nat.

Fixpoint py_lstrip (s : string) : string :=
  match s with
  | String c s' => if py_isspace c then py_lstrip s' else s
  | EmptyString => s
  end.

Fixpoint py_rstrip (s : string) : string :=
  match s with
  | EmptyString => EmptyString
  | String c s' =>
      match py_rstrip s' with
      | EmptyString => if py_isspace c then EmptyString else String c EmptyString
      | t => String c t
      end
  end.

(** [s.strip()] *)
Definition py_strip (s : string) : string := py_rstrip (py_lstrip s).

(** The digits of an integer literal of Python: single underscores may
    separate them. *)
Fixpoint py_digits (s : string) (acc : Z) (after_digit : bool) : option Z :=
  match s with
  | EmptyString => if after_digit then Some acc else None
  | String c s' =>
      if is_digit c then py_digits s' (10 * acc + digit_val c) true
      else if (c =? "_")%char && after_digit then py_digits s' acc false
      else None
  end.

(** [int(s)] stored in an int64. *)
Definition python_int (s : string) : result Z :=
  let '(neg, s1) := read_sign (py_strip s) in
  match py_digits s1 0 false with
  | Some v => if in_int64 (signed neg v) then Ok (signed neg v) else Raise OverflowError
  | None => Raise ValueError
  end.

(** The int64 that numpy makes of an element of an object array. *)
Definition int_of_obj (o : pyobj) : result Z :=
  match o with
  | OStr s => python_int s
  | OBool b => Ok (Z_of_bool b)
  | OInt z => if in_int64 z then Ok z else Raise OverflowError
  | ONaN => Raise ValueError
  | ONone => Raise TypeError
  end.

(** [.astype(int)]: a float column with a non-finite value raises; an
    unsigned column keeps its bits; the elements of an object column are
    converted one by one. *)
Definition astype_int (s : Series) : result (list Z) :=
  match s with
  | SInt l => Ok l
  | SUInt l => Ok (map wrap64 l)
  | SBool l => Ok (map Z_of_bool l)
  | SFloat l =>
      if forallb f64_is_finite l then Ok (map int_of_float l)
      else Raise IntCastingNaNError
  | SObject l => mapM int_of_obj l
  | SDatetime l => Ok (map int_of_timestamp l)
  end.

(** [str(z)] for an integer. *)
Definition string_of_Z (z : Z) : string := NilZero.string_of_int (Z.to_int z).

Definition string_of_bool (b : bool) : string := if b then "True" else "False".

Definition string_of_float (py : pylib) (x : f64) : string :=
  match x with
  | Fnan => "nan"
  | Finf false => "inf"
  | Finf true => "-inf"
  | Ffin m e => float_repr py m e
  end.

Definition string_of_obj (o : pyobj) : string :=
  match o with
  | OStr s => s
  | OBool b => string_of_bool b
  | OInt z => string_of_Z z
  | ONaN => "nan"
  | ONone => "None"
  end.

Definition string_of_timestamp (py : pylib) (t : option Z) : string :=
  match t with
  | Some z => timestamp_repr py z
  | None => "NaT"
  end.

(** [.astype(str)]: every element becomes its text, nulls included. *)
Definition astype_str (py : pylib) (s : Series) : list string :=
  match s with
  | SInt l => map string_of_Z l
  | SUInt l => map string_of_Z l
  | SFloat l => map (string_of_float py) l
  | SBool l => map string_of_bool l
  | SObject l => map string_of_obj l
  | SDatetime l => map (string_of_timestamp py) l
  end.

(** [.replace('nan', None)] on a column of text. *)
Definition replace_nan (l : list string) : list pyobj :=
  map (fun s => if (s =? "nan")%string then ONone else OStr s) l.

Definition timestamp_of_int (z : Z) : option Z :=
  if z =? int64_min then None else Some z.

(** [pd.to_datetime(series, errors='coerce')] *)
Definition to_datetime_coerce (py : pylib) (s : Series) : list (option Z) :=
  match s with
  | SDatetime l => l
  | SInt l => map timestamp_of_int l
  | SUInt l => map (timestamp_of_uint py) l
  | SFloat l => map (fun x => match x with
                              | Ffin m e => timestamp_of_float py m e
                              | _ => None
                              end) l
  | SBool l => map (fun _ => None) l
  | SObject l => map (fun o => match o with
                               | OStr s => parse_timestamp py s
                               | OInt z => timestamp_of_int z
                               | _ => None
                               end) l
  end.

(* ===================================================================== *)
(** ** Values, counts and the numbers of Python and numpy *)
(* ===================================================================== *)

(** A value taken out of a column ([tolist]). *)
Inductive scalar :=
| XInt (z : Z)
| XFloat (x : f64)
| XBool (b : bool)
| XStr (s : string)
| XTime (t : Z)
| XNull.

Definition scalar_of_float (x : f64) : scalar :=
  if f64_is_nan x then XNull else XFloat x.

Definition scalar_of_obj (o : pyobj) : scalar :=
  match o with
  | OStr s => XStr s
  | OBool b => XBool b
  | OInt z => XInt z
  | ONaN | ONone => XNull
  end.

Definition scalar_of_timestamp (t : option Z) : scalar :=
  match t with Some z => XTime z | None => XNull end.

Definition series_items (s : Series) : list scalar :=
  match s with
  | SInt l => map XInt l
  | SUInt l => map XInt l
  | SFloat l => map scalar_of_float l
  | SBool l => map XBool l
  | SObject l => map scalar_of_obj l
  | SDatetime l => map scalar_of_timestamp l
  end.

Definition is_null (v : scalar) : bool :=
  match v with XNull => true | _ => false end.

(** [series.dropna()] as a list of values. *)
Definition dropna (s : Series) : list scalar :=
  filter (fun v => negb (is_null v)) (series_items s).

Definition scalar_eqb (a b : scalar) : bool :=
  match a, b with
  | XInt x, XInt y => x =? y
  | XFloat x, XFloat y => f64_eqb x y
  | XBool x, XBool y => Bool.eqb x y
  | XStr x, XStr y => (x =? y)%string
  | XTime x, XTime y => x =? y
  | _, _ => false
  end.

Fixpoint distinct (l : list scalar) : list scalar :=
  match l with
  | [] => []
  | v :: l' => v :: filter (fun w => negb (scalar_eqb v w)) (distinct l')
  end.

(** The numbers that meet in the report: Python integers ([len],
    [nunique]) and numpy scalars (what the reductions [count] and [sum] of
    a Series return). *)
Inductive pynum :=
| PyInt (z : Z)
| PyFloat (x : f64)
| NpInt64 (z : Z)
| NpFloat64 (x : f64).

(** [series.count()], [series.isnull().sum()], [series.nunique()] *)
Definition series_count (s : Series) : pynum :=
  NpInt64 (Z.of_nat (length (dropna s))).

Definition isnull_sum (s : Series) : pynum :=
  NpInt64 (Z.of_nat (length (filter is_null (series_items s)))).

Definition nunique (s : Series) : pynum :=
  PyInt (Z.of_nat (length (distinct (dropna s)))).

Definition float_of_pynum (a : pynum) : f64 :=
  match a with
  | PyInt z | NpInt64 z => f64_of_Z z
  | PyFloat x | NpFloat64 x => x
  end.

Definition is_numpy (a : pynum) : bool :=
  match a with
  | NpInt64 _ | NpFloat64 _ => true
  | _ => false
  end.

Definition pynum_is_zero (a : pynum) : bool :=
  match a with
  | PyInt z | NpInt64 z => z =? 0
  | PyFloat x | NpFloat64 x => f64_eqb x f64_zero
  end.

(** [a / b].  With a numpy scalar on either side the division is numpy's:
    the operands become float64 and a zero divisor gives NaN or an
    infinity (and a RuntimeWarning), not an exception.  Between Python
    numbers a zero divisor raises. *)
Definition truediv (a b : pynum) : result pynum :=
  if is_numpy a || is_numpy b then
    Ok (NpFloat64 (f64_div (float_of_pynum a) (float_of_pynum b)))
  else if pynum_is_zero b then Raise ZeroDivisionError
  else
    match a, b with
    | PyInt x, PyInt y => Ok (PyFloat (f64_of_ratio (Z.sgn y * x) (Z.abs y)))
    | _, _ => Ok (PyFloat (f64_div (float_of_pynum a) (float_of_pynum b)))
    end.

Definition retag (a b : pynum) (x : f64) : pynum :=
  if is_numpy a || is_numpy b then NpFloat64 x else PyFloat x.

(** [a * b] and [a - b] where one side is a float. *)
Definition times (a b : pynum) : pynum :=
  retag a b (f64_mul (float_of_pynum a) (float_of_pynum b)).

Definition minus (a b : pynum) : pynum :=
  retag a b (f64_sub (float_of_pynum a) (float_of_pynum b)).

(* ===================================================================== *)
(** ** Data frames and sources *)
(* ===================================================================== *)

Record DataFrame := {
  df_len : nat;                            (* len(df) *)
  df_columns : list (string * Series)      (* df.columns with their data *)
}.

(** [df[col]]; [None] when [col not in df.columns]. *)
Fixpoint col_get (cols : list (string * Series)) (col : string) : option Series :=
  match cols with
  | [] => None
  | (name, s) :: cols' => if (name =? col)%string then Some s else col_get cols' col
  end.

(** [df[col] = s] for a column that exists. *)
Fixpoint col_set (cols : list (string * Series)) (col : string) (s : Series)
  : list (string * Series) :=
  match cols with
  | [] => []
  | (name, old) :: cols' =>
      if (name =? col)%string then (name, s) :: cols'
      else (name, old) :: col_set cols' col s
  end.

Definition df_get (df : DataFrame) (col : string) : option Series :=
  col_get (df_columns df) col.

Definition df_set (df : DataFrame) (col : string) (s : Series) : DataFrame :=
  {| df_len := df_len df; df_columns := col_set (df_columns df) col s |}.

Definition df_names (df : DataFrame) : list string := map fst (df_columns df).

(** [col in df.columns] *)
Definition df_has (df : DataFrame) (col : string) : bool := str_in col (df_names df).

(** A source after tokenisation: the header names, each with the raw text
    of its cells, and the number of data rows. *)
Record raw_table := {
  rt_len : nat;
  rt_columns : list (string * list string)
}.

Inductive file_content :=
| Unreadable                       (* not a delimited text the tokenizer accepts *)
| Tokenised (t : raw_table).

(** [pd.read_csv(path, parse_dates=..., low_memory=False)] *)
Definition read_csv (py : pylib) (content : file_content) (parse_dates : list string)
  : result DataFrame :=
  match content with
  | Unreadable => Raise ParserError
  | Tokenised t =>
      if forallb (fun d => str_in d (map fst (rt_columns t))) parse_dates then
        Ok {| df_len := rt_len t;
              df_columns :=
                map (fun '(name, cells) =>
                       (name, if str_in name parse_dates
                              then read_date_column py cells
                              else read_csv_column py cells))
                    (rt_columns t) |}
      else Raise MissingDateColumn
  end.

(* ===================================================================== *)
(** ** enhanced_olist_loader.py: the table configurations *)
(* ===================================================================== *)

Record table_config := {
  table_name : string;
  schema : string;
  dtypes : list (string * string);
  date_columns : list string;
  primary_key : option string;
  indexes : list string
}.

(** [self.table_configs], in the insertion order of the dict. *)
Definition table_configs : list (string * table_config) :=
  [ ("olist_customers_dataset.csv",
     {| table_name := "customers"; schema := "raw_data";
        dtypes := [ ("customer_id", "string");
                    ("customer_unique_id", "string");
                    ("customer_zip_code_prefix", "string");
                    ("customer_city", "string");
                    ("customer_state", "string") ];
        date_columns := [];
        primary_key := Some "customer_id";
        indexes := ["customer_unique_id"; "customer_state"; "customer_zip_code_prefix"] |});
    ("olist_geolocation_dataset.csv",
     {| table_name := "geolocation"; schema := "raw_data";
        dtypes := [ ("geolocation_zip_code_prefix", "string");
                    ("geolocation_lat", "float");
                    ("geolocation_lng", "float");
                    ("geolocation_city", "string");
                    ("geolocation_state", "string") ];
        date_columns := [];
        primary_key := None;
        indexes := ["geolocation_zip_code_prefix"; "geolocation_state"] |});
    ("olist_orders_dataset.csv",
     {| table_name := "orders"; schema := "raw_data";
        dtypes := [ ("order_id", "string");
                    ("customer_id", "string");
                    ("order_status", "string");
                    ("order_purchase_timestamp", "datetime");
                    ("order_approved_at", "datetime");
                    ("order_delivered_carrier_date", "datetime");
                    ("order_delivered_customer_date", "datetime");
                    ("order_estimated_delivery_date", "datetime") ];
        date_columns := [ "order_purchase_timestamp";
                          "order_approved_at";
                          "order_delivered_carrier_date";
                          "order_delivered_customer_date";
                          "order_estimated_delivery_date" ];
        primary_key := Some "order_id";
        indexes := ["customer_id"; "order_status"; "order_purchase_timestamp"] |});
    ("olist_order_items_dataset.csv",
     {| table_name := "order_items"; schema := "raw_data";
        dtypes := [ ("order_id", "string");
                    ("order_item_id", "int");
                    ("product_id", "string");
                    ("seller_id", "string");
                    ("shipping_limit_date", "datetime");
                    ("price", "float");
                    ("freight_value", "float") ];
        date_columns := ["shipping_limit_date"];
        primary_key := None;
        indexes := ["order_id"; "product_id"; "seller_id"] |});
    ("olist_order_payments_dataset.csv",
     {| table_name := "order_payments"; schema := "raw_data";
        dtypes := [ ("order_id", "string");
                    ("payment_sequential", "int");
                    ("payment_type", "string");
                    ("payment_installments", "int");
                    ("payment_value", "float") ];
        date_columns := [];
        primary_key := None;
        indexes := ["order_id"; "payment_type"] |});
    ("olist_order_reviews_dataset.csv",
     {| table_name := "order_reviews"; schema := "raw_data";
        dtypes := [ ("review_id", "string");
                    ("order_id", "string");
                    ("review_score", "int");
                    ("review_comment_title", "string");
                    ("review_comment_message", "string");
                    ("review_creation_date", "datetime");
                    ("review_answer_timestamp", "datetime") ];
        date_columns := ["review_creation_date"; "review_answer_timestamp"];
        primary_key := Some "review_id";
        indexes := ["order_id"; "review_score"; "review_creation_date"] |});
    ("olist_products_dataset.csv",
     {| table_name := "products"; schema := "raw_data";
        dtypes := [ ("product_id", "string");
                    ("product_category_name", "string");
                    ("product_name_lenght", "float");
                    ("product_description_lenght", "float");
                    ("product_photos_qty", "float");
                    ("product_weight_g", "float");
                    ("product_length_cm", "float");
                    ("product_height_cm", "float");
                    ("product_width_cm", "float") ];
        date_columns := [];
        primary_key := Some "product_id";
        indexes := ["product_category_name"] |});
    ("olist_sellers_dataset.csv",
     {| table_name := "sellers"; schema := "raw_data";
        dtypes := [ ("seller_id", "string");
                    ("seller_zip_code_prefix", "string");
                    ("seller_city", "string");
                    ("seller_state", "string") ];
        date_columns := [];
        primary_key := Some "seller_id";
        indexes := ["seller_state"; "seller_zip_code_prefix"] |});
    ("product_category_name_translation.csv",
     {| table_name := "product_category_translation"; schema := "raw_data";
        dtypes := [ ("product_category_name", "string");
                    ("product_category_name_english", "string") ];
        date_columns := [];
        primary_key := Some "product_category_name";
        indexes := [] |}) ].


(* ===================================================================== *)
(** ** enhanced_olist_loader.py: cleaning and type conversion *)
(* ===================================================================== *)

(** [df[col].astype(str).replace('nan', None)] *)
Definition coerce_string (py : pylib) (s : Series) : Series :=
  SObject (replace_nan (astype_str py s)).

(** [pd.to_numeric(df[col], errors='coerce').fillna(0).astype(int)] *)
Definition coerce_int (py : pylib) (s : Series) : result Series :=
  l <- astype_int (fillna_zero (to_numeric_coerce py s)) ;; Ok (SInt l).

(** [pd.to_numeric(df[col], errors='coerce')] *)
Definition coerce_float (py : pylib) (s : Series) : Series :=
  to_numeric_coerce py s.

(** [pd.to_datetime(df[col], errors='coerce')] *)
Definition coerce_datetime (py : pylib) (s : Series) : Series :=
  SDatetime (to_datetime_coerce py s).

(** The body of [for col, dtype in config["dtypes"].items()]. *)
Definition coerce_column (py : pylib) (config : table_config)
    (entry : string * string) (df : DataFrame) : result DataFrame :=
  let '(col, dtype) := entry in
  match df_get df col with
  | None => Ok df                                        (* col not in df.columns *)
  | Some s =>
      if (dtype =? "string")%string then
        Ok (df_set df col (coerce_string py s))
      else if (dtype =? "int")%string then
        s' <- coerce_int py s ;; Ok (df_set df col s')
      else if (dtype =? "float")%string then
        Ok (df_set df col (coerce_float py s))
      else if (dtype =? "datetime")%string then
        if negb (str_in col (date_columns config)) then
          Ok (df_set df col (coerce_datetime py s))
        else Ok df
      else Ok df
  end.

Definition coerce_frame (py : pylib) (config : table_config) (df : DataFrame)
  : result DataFrame :=
  foldM (coerce_column py config) (dtypes config) df.

(** Reading one column of a source and converting it under a declared
    type: the path a declared column that is not a date column takes. *)
Definition load_string_column (py : pylib) (cells : list string) : Series :=
  coerce_string py (read_csv_column py cells).

Definition load_int_column (py : pylib) (cells : list string) : result Series :=
  coerce_int py (read_csv_column py cells).

(* ===================================================================== *)
(** ** The relational store *)
(* ===================================================================== *)

Record index_def := {
  ix_table : string;
  ix_column : string
}.

(** A relation of a schema: a table with its rows, an index on a column
    of a table of the schema, or a view, kept as the relations that its
    query selects from. *)
Inductive relation :=
| Table (df : DataFrame)
| Index (ix : index_def)
| View (rels : list (string * string)).

(** Tables, indexes and views share the names of their schema: the
    relations are keyed by (schema, name).  Comments hang on a table or on
    a column of a table. *)
Record store := {
  st_relations : gmap (string * string) relation;
  st_table_comments : gmap (string * string) string;
  st_column_comments : gmap (string * string * string) string
}.

Definition as_table (r : relation) : option DataFrame :=
  match r with Table df => Some df | _ => None end.

Definition as_index (r : relation) : option index_def :=
  match r with Index ix => Some ix | _ => None end.

Definition as_view (r : relation) : option (list (string * string)) :=
  match r with View rels => Some rels | _ => None end.

(** The tables, the indexes and the views of the store. *)
Definition st_tables (st : store) : gmap (string * string) DataFrame :=
  omap as_table (st_relations st).

Definition st_indexes (st : store) : gmap (string * string) index_def :=
  omap as_index (st_relations st).

Definition st_views (st : store) : gmap (string * string) (list (string * string)) :=
  omap as_view (st_relations st).

(** The entry is an index on the table [tbl] of the schema [sch]. *)
Definition index_on (sch tbl : string) (entry : (string * string) * relation) : Prop :=
  match entry.2 with
  | Index ix => entry.1.1 = sch ∧ ix_table ix = tbl
  | _ => False
  end.

Global Instance index_on_dec sch tbl entry : Decision (index_on sch tbl entry).
Proof. unfold index_on. destruct (entry.2); apply _. Defined.

(** The relation is a view that selects from [key]. *)
Definition selects_from (key : string * string) (r : relation) : Prop :=
  match r with
  | View rels => key ∈ rels
  | _ => False
  end.

Global Instance selects_from_dec key r : Decision (selects_from key r).
Proof. unfold selects_from. destruct r; apply _. Defined.

Definition has_dependent_view (key : string * string) (st : store) : bool :=
  bool_decide (map_Exists (fun _ r => selects_from key r) (st_relations st)).

(** [DROP TABLE sch.tbl]: the table goes, and its indexes and comments
    with it. *)
Definition drop_table (sch tbl : string) (st : store) : store :=
  {| st_relations :=
       delete (sch, tbl)
         (filter (fun entry => ¬ index_on sch tbl entry) (st_relations st));
     st_table_comments := delete (sch, tbl) (st_table_comments st);
     st_column_comments :=
       filter (fun entry => entry.1.1 ≠ (sch, tbl)) (st_column_comments st) |}.

(** [CREATE TABLE sch.name] with the rows of the frame. *)
Definition create_table (df : DataFrame) (name sch : string) (st : store) : store :=
  {| st_relations := <[(sch, name) := Table df]> (st_relations st);
     st_table_comments := st_table_comments st;
     st_column_comments := st_column_comments st |}.

(** [df.to_sql(name, schema=sch, if_exists='replace', index=False)], in
    one transaction: when a table or a view of that name exists it is
    dropped with [DROP TABLE], which PostgreSQL refuses for a view and
    while a view depends on the table; then the table is created from the
    frame, which fails when an index has the name. *)
Definition to_sql (df : DataFrame) (name sch : string) (st : store) : result store :=
  match st_relations st !! (sch, name) with
  | None => Ok (create_table df name sch st)
  | Some (Table _) =>
      if has_dependent_view (sch, name) st then Raise DependentObjectsStillExist
      else Ok (create_table df name sch (drop_table sch name st))
  | Some (View _) => Raise WrongObjectType
  | Some (Index _) => Raise DuplicateTable
  end.

(** [CREATE INDEX IF NOT EXISTS index_name ON sch.tbl (col)]: nothing is
    done when a relation of that name exists. *)
Definition create_index_if_not_exists (index_name sch tbl col : string) (st : store)
  : store :=
  match st_relations st !! (sch, index_name) with
  | Some _ => st
  | None =>
      {| st_relations :=
           <[(sch, index_name) := Index {| ix_table := tbl; ix_column := col |}]>
             (st_relations st);
         st_table_comments := st_table_comments st;
         st_column_comments := st_column_comments st |}
  end.

(** [SELECT COUNT( * ) FROM sch.tbl] *)
Definition select_count (sch tbl : string) (st : store) : option nat :=
  df_len <$> st_tables st !! (sch, tbl).

(** The names of the indexes of the store. *)
Definition index_names (st : store) : gset (string * string) := dom (st_indexes st).

(* ===================================================================== *)
(** ** enhanced_olist_loader.py: load_csv_files *)
(* ===================================================================== *)

(** [f"idx_{config['table_name']}_{index_col}"] *)
Definition index_name (config : table_config) (index_col : string) : string :=
  "idx_" +:+ table_name config +:+ "_" +:+ index_col.

(** The body of [for index_col in config["indexes"]]. *)
Definition create_index_step (config : table_config) (df : DataFrame)
    (st : store) (index_col : string) : store :=
  if df_has df index_col then
    create_index_if_not_exists (index_name config index_col)
      (schema config) (table_name config) index_col st
  else st.

Definition create_indexes (config : table_config) (df : DataFrame) (st : store) : store :=
  fold_left (create_index_step config df) (indexes config) st.

(** What the [try] block writes to the store once a frame is read and
    converted: the table is replaced, then its indexes are created.  (The
    guard [if config["indexes"]] only skips an empty loop, and the count
    read back for the log changes nothing.) *)
Definition write_table (config : table_config) (df : DataFrame) (st : store)
  : result store :=
  st' <- to_sql df (table_name config) (schema config) st ;;
  Ok (create_indexes config df st').

(** Lines 281-287: for each column that has nulls, the count and the
    percentage that are logged. *)
Definition has_null (s : Series) : bool := existsb is_null (series_items s).

Definition null_line (df : DataFrame) (entry : string * Series)
  : result (string * pynum * pynum) :=
  let '(col, s) := entry in
  let count := isnull_sum s in
  q <- truediv count (PyInt (Z.of_nat (df_len df))) ;;
  Ok (col, count, times q (PyInt 100)).

Definition null_profile (df : DataFrame) : result (list (string * pynum * pynum)) :=
  mapM (null_line df) (filter (fun entry => Is_true (has_null entry.2)) (df_columns df)).

(** The [try] block of one table: an exception of the reading, of the
    conversion or of [to_sql] leaves the store as it was. *)
Definition load_table (py : pylib) (content : file_content) (config : table_config)
    (st : store) : result store :=
  df <- read_csv py content (date_columns config) ;;
  df' <- coerce_frame py config df ;;
  _ <- null_profile df' ;;
  write_table config df' st.

Record load_state := {
  db : store;
  successful_loads : list string;
  failed_loads : list string
}.

(** The files under [data_path]: [None] when [file_path.exists()] is
    false. *)
Abbreviation directory := (gmap string file_content).

(** The body of [for csv_file, config in self.table_configs.items()]. *)
Definition load_step (py : pylib) (files : directory) (st : load_state)
    (entry : string * table_config) : load_state :=
  let '(csv_file, config) := entry in
  match files !! csv_file with
  | None =>
      {| db := db st;
         successful_loads := successful_loads st;
         failed_loads := failed_loads st ++ [csv_file] |}
  | Some content =>
      match load_table py content config (db st) with
      | Ok db' =>
          {| db := db';
             successful_loads := successful_loads st ++ [table_name config];
             failed_loads := failed_loads st |}
      | Raise _ =>
          {| db := db st;
             successful_loads := successful_loads st;
             failed_loads := failed_loads st ++ [csv_file] |}
      end
  end.

Definition load_loop (py : pylib) (files : directory)
    (configs : list (string * table_config)) (target : store) : load_state :=
  fold_left (load_step py files) configs
    {| db := target; successful_loads := []; failed_loads := [] |}.

(** [load_csv_files]: the state after the loop; its return value is
    [len(successful_loads) > 0]. *)
Definition load_csv_files (py : pylib) (files : directory) (target : store) : load_state :=
  load_loop py files table_configs target.

Definition loaded_any (st : load_state) : bool :=
  match successful_loads st with
  | [] => false
  | _ => true
  end.

(* ===================================================================== *)
(** ** enhanced_olist_loader.py: the two SQL scripts *)
(* ===================================================================== *)

(** [s.split(sep)] for a separator of one character. *)
Fixpoint split_on (sep : ascii) (s : string) : list string :=
  match s with
  | EmptyString => [EmptyString]
  | String c s' =>
      if Ascii.eqb c sep then EmptyString :: split_on sep s'
      else match split_on sep s' with
           | piece :: pieces => String c piece :: pieces
           | [] => [String c EmptyString]
           end
  end.

(** The statements that the loops
    [for statement in sql.split(';'): if statement.strip(): ...]
    of [create_foreign_key_documentation] and [create_summary_views] hand
    to the connection. *)
Definition statements (sql : string) : list string :=
  filter (fun statement => py_strip statement <> EmptyString) (split_on ";" sql).

(** The two scripts of the loader, as they stand in the source. *)
Definition relationship_sql : string :=
  "
        -- Document table relationships (not enforced due to data quality)
        
        COMMENT ON TABLE raw_data.orders IS 
            'Core orders table - central fact table connecting customers, payments, reviews, and items';
        
        COMMENT ON TABLE raw_data.order_items IS 
            'Order line items - each row is a product in an order (order_id -> orders, product_id -> products, seller_id -> sellers)';
        
        COMMENT ON TABLE raw_data.customers IS 
            'Customer dimension - unique customer_id per order, customer_unique_id identifies repeat customers';
        
        COMMENT ON TABLE raw_data.sellers IS 
            'Seller dimension - marketplace sellers fulfilling orders';
        
        COMMENT ON TABLE raw_data.products IS 
            'Product dimension - catalog of products sold on platform';
        
        COMMENT ON TABLE raw_data.order_reviews IS 
            'Customer reviews - one review per order (order_id -> orders)';
        
        COMMENT ON TABLE raw_data.order_payments IS 
            'Payment transactions - can have multiple payments per order (order_id -> orders)';
        
        COMMENT ON TABLE raw_data.geolocation IS 
            'Geographic coordinates for Brazilian zip codes - join on zip_code_prefix';
        
        COMMENT ON TABLE raw_data.product_category_translation IS 
            'Translation table for product categories from Portuguese to English';
        
        -- Column-level documentation for key fields
        COMMENT ON COLUMN raw_data.customers.customer_unique_id IS 
            'Identifies same customer across multiple orders - use for repeat purchase analysis';
        
        COMMENT ON COLUMN raw_data.orders.order_status IS 
            'Order lifecycle: created -> approved -> invoiced -> shipped -> delivered (or cancelled/unavailable)';
        
        COMMENT ON COLUMN raw_data.order_items.order_item_id IS 
            'Sequential number of item within the order (1, 2, 3...)';
        
        COMMENT ON COLUMN raw_data.order_payments.payment_sequential IS 
            'Sequential number for multiple payments on same order';
        ".

Definition views_sql : string :=
  "
        -- Order summary view
        CREATE OR REPLACE VIEW raw_data.v_order_summary AS
        SELECT 
            o.order_id,
            o.customer_id,
            c.customer_unique_id,
            c.customer_city,
            c.customer_state,
            o.order_status,
            o.order_purchase_timestamp,
            o.order_delivered_customer_date,
            EXTRACT(EPOCH FROM (o.order_delivered_customer_date - o.order_purchase_timestamp))/86400 as delivery_days,
            COUNT(DISTINCT oi.product_id) as product_count,
            SUM(oi.price) as total_product_value,
            SUM(oi.freight_value) as total_freight_value,
            SUM(oi.price + oi.freight_value) as total_order_value
        FROM raw_data.orders o
        LEFT JOIN raw_data.customers c ON o.customer_id = c.customer_id
        LEFT JOIN raw_data.order_items oi ON o.order_id = oi.order_id
        GROUP BY o.order_id, o.customer_id, c.customer_unique_id, 
                 c.customer_city, c.customer_state, o.order_status,
                 o.order_purchase_timestamp, o.order_delivered_customer_date;
        
        -- Product performance view
        CREATE OR REPLACE VIEW raw_data.v_product_performance AS
        SELECT 
            p.product_id,
            p.product_category_name,
            pt.product_category_name_english,
            COUNT(DISTINCT oi.order_id) as times_ordered,
            SUM(oi.price) as total_revenue,
            AVG(oi.price) as avg_price,
            AVG(r.review_score) as avg_review_score
        FROM raw_data.products p
        LEFT JOIN raw_data.order_items oi ON p.product_id = oi.product_id
        LEFT JOIN raw_data.order_reviews r ON oi.order_id = r.order_id
        LEFT JOIN raw_data.product_category_translation pt 
            ON p.product_category_name = pt.product_category_name
        GROUP BY p.product_id, p.product_category_name, pt.product_category_name_english;
        
        -- Seller performance view
        CREATE OR REPLACE VIEW raw_data.v_seller_performance AS
        SELECT 
            s.seller_id,
            s.seller_city,
            s.seller_state,
            COUNT(DISTINCT oi.order_id) as total_orders,
            COUNT(DISTINCT oi.product_id) as unique_products_sold,
            SUM(oi.price) as total_revenue,
            AVG(oi.price) as avg_product_price,
            AVG(oi.freight_value) as avg_freight_value,
            AVG(r.review_score) as avg_review_score
        FROM raw_data.sellers s
        LEFT JOIN raw_data.order_items oi ON s.seller_id = oi.seller_id
        LEFT JOIN raw_data.order_reviews r ON oi.order_id = r.order_id
        GROUP BY s.seller_id, s.seller_city, s.seller_state;
        ".

(* ===================================================================== *)
(** ** PostgreSQL's reading of the statements of the two scripts *)
(* ===================================================================== *)

Inductive statement :=
| CommentOnTable (sch tbl text : string)
| CommentOnColumn (sch tbl col text : string)
| CreateOrReplaceView (sch name : string) (relations : list (string * string)).

Definition newline : ascii := ascii_of_nat 10.

Definition quote : ascii := ascii_of_nat 39.

(** A statement without its [--] comments; a quoted text is kept as it
    is. *)
Fixpoint uncomment (in_quote in_comment : bool) (s : string) : string :=
  match s with
  | EmptyString => EmptyString
  | String c s' =>
      if in_comment then
        if Ascii.eqb c newline then String c (uncomment false false s')
        else uncomment false true s'
      else if in_quote then String c (uncomment (negb (Ascii.eqb c quote)) false s')
      else if Ascii.eqb c quote then String c (uncomment true false s')
      else
        match s' with
        | String c' s'' =>
            if Ascii.eqb c "-" && Ascii.eqb c' "-" then uncomment false true s''
            else String c (uncomment false false s')
        | EmptyString => String c EmptyString
        end
  end.

(** The words of a statement: runs of characters between blanks, a
    quoted text being part of one word. *)
Fixpoint words (in_quote : bool) (word : string) (s : string) : list string :=
  match s with
  | EmptyString => if (word =? EmptyString)%string then [] else [word]
  | String c s' =>
      if in_quote then
        words (negb (Ascii.eqb c quote)) (word +:+ String c EmptyString) s'
      else if Ascii.eqb c quote then words true (word +:+ String c EmptyString) s'
      else if py_isspace c then
        if (word =? EmptyString)%string then words false EmptyString s'
        else word :: words false EmptyString s'
      else words false (word +:+ String c EmptyString) s'
  end.

(** The text of a quoted literal that has no quote inside. *)
Definition unquote (w : string) : option string :=
  match w with
  | String c w' =>
      if Ascii.eqb c quote then
        match split_on quote w' with
        | [text; EmptyString] => Some text
        | _ => None
        end
      else None
  | EmptyString => None
  end.

Definition is_identifier_char (c : ascii) : bool :=
  let n := nat_of_ascii c in
  (((97 <=? n) && (n <=? 122)) || ((48 <=? n) && (n <=? 57)) || (n =? 95))%nat.

Fixpoint all_chars (p : ascii -> bool) (s : string) : bool :=
  match s with
  | EmptyString => true
  | String c s' => p c && all_chars p s'
  end.

(** An unquoted identifier, folded to lower case. *)
Definition identifier (w : string) : option string :=
  let w' := lowercase w in
  if negb (w' =? EmptyString)%string && all_chars is_identifier_char w' then Some w' else None.

(** A name qualified by its schema. *)
Definition qualified (w : string) : option (string * string) :=
  match split_on "." w with
  | [sch; name] =>
      match identifier sch, identifier name with
      | Some s, Some n => Some (s, n)
      | _, _ => None
      end
  | _ => None
  end.

Definition qualified_column (w : string) : option (string * string * string) :=
  match split_on "." w with
  | [sch; tbl; col] =>
      match identifier sch, identifier tbl, identifier col with
      | Some s, Some t, Some c => Some (s, t, c)
      | _, _, _ => None
      end
  | _ => None
  end.

Definition keyword (k w : string) : bool := (lowercase w =? k)%string.

(** The relations of a query: the qualified names that follow [FROM] or
    [JOIN]. *)
Fixpoint relations (ws : list string) : list (string * string) :=
  match ws with
  | [] => []
  | w :: ws' =>
      if keyword "from" w || keyword "join" w then
        match ws' with
        | name :: _ =>
            match qualified name with
            | Some r => r :: relations ws'
            | None => relations ws'
            end
        | [] => []
        end
      else relations ws'
  end.

(** The three forms of statement that the scripts hold. *)
Definition read_statement (sql : string) : option statement :=
  match words false EmptyString (uncomment false false sql) with
  | [c; o; t; name; i; text] =>
      if keyword "comment" c && keyword "on" o && keyword "is" i then
        match unquote text with
        | Some txt =>
            if keyword "table" t then
              match qualified name with
              | Some (sch, tbl) => Some (CommentOnTable sch tbl txt)
              | None => None
              end
            else if keyword "column" t then
              match qualified_column name with
              | Some (sch, tbl, col) => Some (CommentOnColumn sch tbl col txt)
              | None => None
              end
            else None
        | None => None
        end
      else None
  | c :: o :: r :: v :: name :: a :: query =>
      if keyword "create" c && keyword "or" o && keyword "replace" r &&
         keyword "view" v && keyword "as" a then
        match qualified name with
        | Some (sch, nm) => Some (CreateOrReplaceView sch nm (relations query))
        | None => None
        end
      else None
  | _ => None
  end.

(* ===================================================================== *)
(** ** enhanced_olist_loader.py: documentation, views and main *)
(* ===================================================================== *)

(** What a run meets: whether [connect_database] and [create_schemas]
    succeed, the files under the data path, the store before the run, and
    whether PostgreSQL accepts the query of a [CREATE OR REPLACE VIEW]
    statement whose relations all exist (its columns and their types, and
    the columns of the view it replaces). *)
Record world := {
  connect_ok : bool;
  schemas_ok : bool;
  files : directory;
  target : store;
  accepts : string -> store -> bool
}.

Definition relation_exists (st : store) (key : string * string) : bool :=
  match st_relations st !! key with
  | Some (Table _) | Some (View _) => true
  | _ => false
  end.

(** [conn.execute(text(statement))] for a statement of the scripts. *)
Definition execute (w : world) (sql : string) (st : store) : result store :=
  match read_statement sql with
  | None => Raise SyntaxError
  | Some (CommentOnTable sch tbl text) =>
      match st_relations st !! (sch, tbl) with
      | Some (Table _) =>
          Ok {| st_relations := st_relations st;
                st_table_comments := <[(sch, tbl) := text]> (st_table_comments st);
                st_column_comments := st_column_comments st |}
      | Some _ => Raise WrongObjectType
      | None => Raise UndefinedTable
      end
  | Some (CommentOnColumn sch tbl col text) =>
      match st_relations st !! (sch, tbl) with
      | Some (Table df) =>
          if df_has df col then
            Ok {| st_relations := st_relations st;
                  st_table_comments := st_table_comments st;
                  st_column_comments := <[(sch, tbl, col) := text]> (st_column_comments st) |}
          else Raise UndefinedColumn
      | Some _ => Raise WrongObjectType
      | None => Raise UndefinedTable
      end
  | Some (CreateOrReplaceView sch name rels) =>
      if negb (forallb (relation_exists st) rels) then Raise UndefinedTable
      else
        match st_relations st !! (sch, name) with
        | Some (Table _) | Some (Index _) => Raise WrongObjectType
        | _ =>
            if accepts w sql st then
              Ok {| st_relations := <[(sch, name) := View rels]> (st_relations st);
                    st_table_comments := st_table_comments st;
                    st_column_comments := st_column_comments st |}
            else Raise InvalidQuery
        end
  end.

(** The [try] block of both functions: the statements on one connection,
    then [conn.commit()].  An exception leaves the block before the commit
    and what the connection did is rolled back; the [except] branch logs a
    warning. *)
Definition run_script (w : world) (sql : string) (st : store) : store :=
  match foldM (execute w) (statements sql) st with
  | Ok st' => st'
  | Raise _ => st
  end.

Definition create_foreign_key_documentation (w : world) (st : store) : store :=
  run_script w relationship_sql st.

Definition create_summary_views (w : world) (st : store) : store :=
  run_script w views_sql st.

(** [main]: the exit status of the process, the state of the load when
    it was attempted, and the store that the run leaves.
    [verify_data_quality], the last step of a run that loaded a table,
    only reads and catches its own errors. *)
Record run := {
  status : Z;
  load : option load_state;
  final : store
}.

Definition main (py : pylib) (w : world) : run :=
  if negb (connect_ok w) then
    {| status := 1; load := None; final := target w |}
  else if negb (schemas_ok w) then
    {| status := 1; load := None; final := target w |}
  else
    let st := load_csv_files py (files w) (target w) in
    if loaded_any st then
      {| status := 0; load := Some st;
         final := create_summary_views w (create_foreign_key_documentation w (db st)) |}
    else {| status := 1; load := Some st; final := db st |}.

Definition exit_status (py : pylib) (w : world) : Z := status (main py w).

(* ===================================================================== *)
(** ** data_field_and_types_raw.py: analyze_csv_files *)
(* ===================================================================== *)

(** Whether [pd.to_datetime(sample, errors='raise')] returns on a sample
    of an object column that [read_csv] made (texts and booleans): every
    value of the sample is a text that the timestamp grammar accepts. *)
Definition to_datetime_raises_not (py : pylib) (sample : list scalar) : bool :=
  forallb (fun v => match v with
                    | XStr s => bool_decide (is_Some (parse_timestamp py s))
                    | _ => false
                    end) sample.

(** Whether [pd.to_numeric(sample, errors='raise')] returns on a sample of
    an object column: every text is read by the converter or spells an
    infinity, an integer literal lies in the signed or the unsigned 64-bit
    range ("Integer out of range" otherwise); booleans pass. *)
Definition to_numeric_raises_not (py : pylib) (sample : list scalar) : bool :=
  forallb (fun v => match v with
                    | XStr s =>
                        match strtod (numeric_strtod py) s with
                        | Some _ =>
                            match parse_literal s with
                            | Some (LInt z) => (int64_min <=? z) && (z <=? uint64_max)
                            | _ => true
                            end
                        | None => bool_decide (is_Some (parse_infinity s))
                        end
                    | _ => true
                    end) sample.

(** Lines 51-67: the suggested type of a column. *)
Definition suggested_type (py : pylib) (s : Series) : string :=
  if (dtype_name s =? "object")%string then
    if to_datetime_raises_not py (take 100 (dropna s)) then "datetime"
    else if to_numeric_raises_not py (take 100 (dropna s)) then "numeric"
    else "string"
  else if str_in (dtype_name s) ["int64"; "float64"] then "numeric"
  else dtype_name s.

Record column_info := {
  ci_dtype : string;
  non_null_count : pynum;
  null_count : pynum;
  unique_count : pynum;
  sample_values : list scalar;
  ci_suggested_type : string
}.

(** Lines 43-67: the profile of one column. *)
Definition analyze_column (py : pylib) (s : Series) : column_info :=
  {| ci_dtype := dtype_name s;
     non_null_count := series_count s;
     null_count := isnull_sum s;
     unique_count := nunique s;
     sample_values := if negb (Nat.eqb (series_len s) 0) then take 3 (dropna s) else [];
     ci_suggested_type := suggested_type py s |}.

(** The type inference of the analysis on the raw cells of a column: the
    column is read by [read_csv] and then profiled. *)
Definition infer (py : pylib) (cells : list string) : string :=
  suggested_type py (read_csv_column py cells).

Record file_info := {
  file_name : string;
  total_rows : pynum;
  total_columns : pynum;
  columns : list (string * column_info)
}.

Inductive analysis :=
| AnalysisError (msg : exn)
| Analysed (info : file_info).

(** The [try] block of one file.  The source is taken to fit one chunk
    of the parser, so that each column has the storage type that
    [read_csv_column] gives it. *)
Definition analyze_file (py : pylib) (csv_file : string) (content : file_content)
  : analysis :=
  match read_csv py content [] with
  | Raise e => AnalysisError e
  | Ok df =>
      Analysed
        {| file_name := csv_file;
           total_rows := PyInt (Z.of_nat (df_len df));
           total_columns := PyInt (Z.of_nat (length (df_columns df)));
           columns := map (fun '(name, s) => (name, analyze_column py s)) (df_columns df) |}
  end.

Fixpoint ends_with (suffix s : string) : bool :=
  (s =? suffix)%string ||
  match s with
  | EmptyString => false
  | String _ s' => ends_with suffix s'
  end.

(** [analyze_csv_files]: one entry per [.csv] file of the listing. *)
Definition analyze_csv_files (py : pylib) (listing : list (string * file_content))
  : list (string * analysis) :=
  map (fun '(name, content) => (name, analyze_file py name content))
      (filter (fun entry => Is_true (ends_with ".csv" entry.1)) listing).

(* ===================================================================== *)
(** ** data_field_and_types_raw.py: print_detailed_analysis *)
(* ===================================================================== *)

(** What is printed. *)
Inductive printed :=
| PrintError (filename : string) (msg : exn)
| PrintFile (filename : string) (rows columns : pynum)
| PrintColumn (col_name dtype suggested : string) (non_null non_null_pct unique : pynum)
              (samples : list scalar).

(** The body of [for col_name, col_info in file_info['columns'].items()]. *)
Definition print_column (info : file_info) (entry : string * column_info)
  : result printed :=
  let '(col_name, col_info) := entry in
  q <- truediv (null_count col_info) (total_rows info) ;;
  let null_percentage := times q (PyInt 100) in
  Ok (PrintColumn col_name (ci_dtype col_info) (ci_suggested_type col_info)
        (non_null_count col_info) (minus (PyInt 100) null_percentage)
        (unique_count col_info) (sample_values col_info)).

(** The body of [for filename, file_info in results.items()]. *)
Definition print_file (entry : string * analysis) : result (list printed) :=
  let '(filename, a) := entry in
  match a with
  | AnalysisError msg => Ok [PrintError filename msg]
  | Analysed info =>
      cols <- mapM (print_column info) (columns info) ;;
      Ok (PrintFile filename (total_rows info) (total_columns info) :: cols)
  end.

(** [print_detailed_analysis]: the lines printed, or the exception that
    ends the function. *)
Definition print_detailed_analysis (results : list (string * analysis))
  : result (list printed) :=
  blocks <- mapM print_file results ;; Ok (concat blocks).

(* ===================================================================== *)
(** ** Vocabulary of the statements *)
(* ===================================================================== *)

(** The float64 nearest to the decimal [m * 10^k], when it is finite. *)
Definition f64_of_decimal (m k : Z) : f64 :=
  if 0 <=? k then f64_of_ratio (m * 10 ^ k) 1 else f64_of_ratio m (10 ^ (- k)).

Definition nearest_double (s : string) : option (Z * Z) :=
  match parse_literal s with
  | Some l =>
      match (match l with LInt z => f64_of_Z z | LDec m k => f64_of_decimal m k end) with
      | Ffin m e => Some (m, e)
      | _ => None
      end
  | None => None
  end.

(** An instance of the abstract library for the closed examples: its
    converters round to the nearest float64.  None of the examples reaches
    the text of a float or of a timestamp, and none depends on which
    texts the timestamp grammar accepts. *)
Definition bare_lib : pylib :=
  {| csv_strtod := nearest_double;
     numeric_strtod := nearest_double;
     float_repr := fun _ _ => EmptyString;
     timestamp_repr := fun _ => EmptyString;
     parse_timestamp := fun _ => None;
     timestamp_of_float := fun _ _ => None;
     timestamp_of_uint := fun _ => None |}.

Definition is_infinite (x : f64) : bool :=
  match x with Finf _ => true | _ => false end.

(** A cell that spells an infinity. *)
Definition infinite_cell (c : string) : bool :=
  bool_decide (is_Some (parse_infinity c)).

(** A cell that is an integer literal above the signed 64-bit range and
    within the unsigned one. *)
Definition wide_cell (c : string) : bool :=
  match parse_literal c with
  | Some (LInt z) => (int64_max <? z) && (z <=? uint64_max)
  | _ => false
  end.

(** [fillna(0)] on one value. *)
Definition fill (x : f64) : f64 := if f64_is_nan x then f64_zero else x.

Definition fill_obj (o : pyobj) : pyobj :=
  match o with
  | ONaN | ONone => OInt 0
  | _ => o
  end.

Definition no_uint_state : uint_state :=
  {| seen_uint := false; seen_sint := false; seen_null := false |}.

(** The column is one that [read_csv] leaves as text with its missing
    cells kept as text: the int64 pass stopped on an integer beyond the
    signed range and the uint64 pass ended in a conflict. *)
Definition conflict_column (cells : list string) : bool :=
  match cells, try_int64 cells, try_uint64 cells no_uint_state with
  | _ :: _, Int64Overflow, UInt64Done state => uint64_conflict state
  | _, _, _ => false
  end.

(** The storage cases of [read_csv_column], with what each says about
    the cells. *)
Inductive column_case (py : pylib) (cells : list string) : Series -> Prop :=
| CaseEmpty : cells = [] -> column_case py cells (SObject [])
| CaseInt :
    Forall (fun c => is_na c = false /\ exists z, str_to_int64 c = TokInt z) cells ->
    column_case py cells (SInt (map int_of_cell cells))
| CaseUpcast :
    Forall (fun c => is_na c = true \/ exists z, str_to_int64 c = TokInt z) cells ->
    column_case py cells (SFloat (map upcast_cell cells))
| CaseUInt :
    Forall (fun c => is_na c = false /\ exists z, str_to_uint64 c = UTokInt z) cells ->
    column_case py cells (SUInt (map uint_of_cell cells))
| CaseDouble :
    Forall (fun c => is_na c = true \/ is_Some (csv_double py c)) cells ->
    column_case py cells (SFloat (map (double_of_cell py) cells))
| CaseBoolObj :
    Forall (fun c => is_na c = true \/ is_Some (csv_bool c)) cells ->
    column_case py cells (SObject (map bool_obj_of_cell cells))
| CaseBool :
    Forall (fun c => is_na c = false /\ is_Some (csv_bool c)) cells ->
    column_case py cells (SBool (map bool_of_cell cells))
| CaseText :
    conflict_column cells = false ->
    column_case py cells (SObject (map text_of_cell cells))
| CaseVerbatim :
    conflict_column cells = true ->
    column_case py cells (SObject (map OStr cells)).

(** What the int conversion owes a cell: a missing cell and a literal
    zero both come out as 0. *)
Definition zero_cell (c : string) : Prop := is_na c = true \/ c = "0".

Definition owes_zero (c : string) (z : Z) : Prop := zero_cell c -> z = 0.

(** An element of an object column that [read_csv] made of a cell: its
    text, a NaN for a missing cell, or a boolean for a boolean token. *)
Definition read_as (c : string) (o : pyobj) : Prop :=
  o = OStr c \/ (o = ONaN /\ is_na c = true) \/
  (exists b, o = OBool b /\ is_na c = false /\ is_Some (csv_bool c)).

(** [self.table_configs[csv_file]] *)
Fixpoint lookup_config (configs : list (string * table_config)) (csv_file : string)
  : option table_config :=
  match configs with
  | [] => None
  | (name, config) :: configs' =>
      if (name =? csv_file)%string then Some config else lookup_config configs' csv_file
  end.

Definition empty_store : store :=
  {| st_relations := ∅; st_table_comments := ∅; st_column_comments := ∅ |}.

(** A PostgreSQL that accepts the query of every view whose relations
    exist. *)
Definition lenient : string -> store -> bool := fun _ _ => true.

(** A sellers source of one row whose zip code prefix starts with a
    zero. *)
Definition sellers_source : file_content :=
  Tokenised {| rt_len := 1;
               rt_columns := [ ("seller_id", ["3442f8959a84dea7ee197c632cb2df15"]);
                               ("seller_zip_code_prefix", ["01310"]);
                               ("seller_city", ["sao paulo"]);
                               ("seller_state", ["SP"]) ] |}.

(** A payments source of three rows, one of them with an infinite number
    of installments. *)
Definition payments_source : file_content :=
  Tokenised {| rt_len := 3;
               rt_columns := [ ("order_id", ["a1"; "a2"; "a3"]);
                               ("payment_sequential", ["1"; "1"; "1"]);
                               ("payment_type", ["credit_card"; "boleto"; "voucher"]);
                               ("payment_installments", ["3"; "inf"; "5"]);
                               ("payment_value", ["99.33"; "24.39"; "65.71"]) ] |}.

(** The texts that [astype(str)] can make of a cell that is present: the
    cell itself when its column is text, else the text of the integer, of
    the float or of the boolean that [read_csv] read in it. *)
Definition rendering (py : pylib) (c t : string) : Prop :=
  t = c \/ t = string_of_Z (int_of_cell c) \/ t = string_of_Z (uint_of_cell c) \/
  t = string_of_float py (upcast_cell c) \/
  t = string_of_float py (double_of_cell py c) \/
  t = string_of_bool (bool_of_cell c).

(** The frame that the [try] block of a table hands to the store: the
    source read and converted. *)
Definition prepare (py : pylib) (content : file_content) (config : table_config)
  : result DataFrame :=
  df <- read_csv py content (date_columns config) ;; coerce_frame py config df.

(** A run that connects and creates its schemas but finds no file. *)
Definition world_without_files : world :=
  {| connect_ok := true; schemas_ok := true; files := ∅; target := empty_store;
     accepts := lenient |}.

(** A run that finds the sellers source only. *)
Definition world_with_sellers : world :=
  {| connect_ok := true; schemas_ok := true;
     files := {[ "olist_sellers_dataset.csv" := sellers_source ]};
     target := empty_store; accepts := lenient |}.

(** A run that cannot connect, and one that cannot create its schemas,
    with the sellers source in place. *)
Definition world_without_connection : world :=
  {| connect_ok := false; schemas_ok := true;
     files := {[ "olist_sellers_dataset.csv" := sellers_source ]};
     target := empty_store; accepts := lenient |}.

Definition world_without_schemas : world :=
  {| connect_ok := true; schemas_ok := false;
     files := {[ "olist_sellers_dataset.csv" := sellers_source ]};
     target := empty_store; accepts := lenient |}.

(** The right-hand side of the assignment [df[col] = ...] for a column
    declared with [dtype]; the column itself where no branch assigns. *)
Definition converted (py : pylib) (config : table_config) (col dtype : string)
    (s : Series) : result Series :=
  if (dtype =? "string")%string then Ok (coerce_string py s)
  else if (dtype =? "int")%string then coerce_int py s
  else if (dtype =? "float")%string then Ok (coerce_float py s)
  else if (dtype =? "datetime")%string then
    if negb (str_in col (date_columns config)) then Ok (coerce_datetime py s)
    else Ok s
  else Ok s.

(** The header of a source. *)
Definition header (t : raw_table) : list string := map fst (rt_columns t).

(** The configuration without the declaration of the column [col] in its
    [dtypes]. *)
Definition undeclare (col : string) (config : table_config) : table_config :=
  {| table_name := table_name config;
     schema := schema config;
     dtypes := filter (fun entry => entry.1 <> col) (dtypes config);
     date_columns := date_columns config;
     primary_key := primary_key config;
     indexes := indexes config |}.

(** The configurations of the sellers and of the orders table. *)
Definition sellers_config : table_config :=
  {| table_name := "sellers"; schema := "raw_data";
     dtypes := [ ("seller_id", "string"); ("seller_zip_code_prefix", "string");
                 ("seller_city", "string"); ("seller_state", "string") ];
     date_columns := []; primary_key := Some "seller_id";
     indexes := ["seller_state"; "seller_zip_code_prefix"] |}.

Definition orders_config : table_config :=
  {| table_name := "orders"; schema := "raw_data";
     dtypes := [ ("order_id", "string"); ("customer_id", "string");
                 ("order_status", "string");
                 ("order_purchase_timestamp", "datetime");
                 ("order_approved_at", "datetime");
                 ("order_delivered_carrier_date", "datetime");
                 ("order_delivered_customer_date", "datetime");
                 ("order_estimated_delivery_date", "datetime") ];
     date_columns := [ "order_purchase_timestamp"; "order_approved_at";
                       "order_delivered_carrier_date"; "order_delivered_customer_date";
                       "order_estimated_delivery_date" ];
     primary_key := Some "order_id";
     indexes := ["customer_id"; "order_status"; "order_purchase_timestamp"] |}.

(** A sellers source without the declared column [seller_state]. *)
Definition sellers_without_state : raw_table :=
  {| rt_len := 1;
     rt_columns := [ ("seller_id", ["3442f8959a84dea7ee197c632cb2df15"]);
                     ("seller_zip_code_prefix", ["13023"]);
                     ("seller_city", ["campinas"]) ] |}.

(** An orders source of two rows without the declared date column
    [order_estimated_delivery_date]. *)
Definition orders_without_estimate : raw_table :=
  {| rt_len := 2;
     rt_columns :=
       [ ("order_id", ["e481f51cbdc54678b7cc49136f2d6af7";
                       "53cdb2fc8bc7dce0b6741e2150273451"]);
         ("customer_id", ["9ef432eb6251297304e76186b10a928d";
                          "b0830fb4747a6c6d20dea0b8c802d7ef"]);
         ("order_status", ["delivered"; "delivered"]);
         ("order_purchase_timestamp", ["2017-10-02 10:56:33"; "2018-07-24 20:41:37"]);
         ("order_approved_at", ["2017-10-02 11:07:15"; "2018-07-26 03:24:27"]);
         ("order_delivered_carrier_date", ["2017-10-04 19:55:00"; "2018-07-26 14:31:00"]);
         ("order_delivered_customer_date",
          ["2017-10-10 21:25:13"; "2018-08-07 15:27:45"]) ] |}.

(** The two sources in their files. *)
Definition incomplete_sources : directory :=
  {[ "olist_sellers_dataset.csv" := Tokenised sellers_without_state;
     "olist_orders_dataset.csv" := Tokenised orders_without_estimate ]}.

(** What the analysis samples of a column: the first 100 values
    present. *)
Definition sample (s : Series) : list scalar := take 100 (dropna s).

(** A column stored as a numeric machine type. *)
Definition numeric_storage (s : Series) : bool :=
  match s with
  | SInt _ | SUInt _ | SFloat _ => true
  | _ => false
  end.

(** The inference in the words of the specification: a column already
    stored as a numeric machine type is numeric; otherwise a strict
    timestamp parse of all sampled values is attempted, then a strict
    numeric parse, and the column is a string column only if both fail. *)
Definition first_match (py : pylib) (s : Series) : string :=
  if numeric_storage s then "numeric"
  else if to_datetime_raises_not py (sample s) then "datetime"
  else if to_numeric_raises_not py (sample s) then "numeric"
  else "string".

(** A sampled value that the strict timestamp parse accepts. *)
Definition timestamp_value (py : pylib) (v : scalar) : Prop :=
  exists t, v = XStr t /\ is_Some (parse_timestamp py t).

(** A sampled value that the strict numeric parse accepts: a boolean, or
    a text that the converter reads (an integer literal within the 64-bit
    ranges) or that spells an infinity. *)
Definition numeric_value (py : pylib) (v : scalar) : Prop :=
  match v with
  | XStr t =>
      match strtod (numeric_strtod py) t with
      | Some _ =>
          match parse_literal t with
          | Some (LInt z) => int64_min <= z <= uint64_max
          | _ => True
          end
      | None => is_Some (parse_infinity t)
      end
  | _ => True
  end.

(** A listing with one source that has a header and no row. *)
Definition header_only_listing : list (string * file_content) :=
  [ ("olist_orders_dataset.csv",
     Tokenised {| rt_len := 0;
                  rt_columns := [ ("order_id", []); ("order_status", []) ] |}) ].

(** The line printed for a column of a source without rows. *)
Definition header_only_line (col : string * list string) : printed :=
  PrintColumn col.1 "object" "datetime" (NpInt64 0) (NpFloat64 Fnan) (PyInt 0) [].

(** The frame with which an entry of the configuration is loaded, when
    its file exists and reading and converting raise nothing. *)
Definition loads (py : pylib) (files : directory) (entry : string * table_config)
  : option DataFrame :=
  match files !! entry.1 with
  | Some content =>
      match prepare py content entry.2 with
      | Ok df => Some df
      | Raise _ => None
      end
  | None => None
  end.

(** The writes that a run attempts, in order: one per entry that
    loads. *)
Fixpoint plan (py : pylib) (files : directory) (configs : list (string * table_config))
  : list (table_config * DataFrame) :=
  match configs with
  | [] => []
  | entry :: configs' =>
      match loads py files entry with
      | Some df => (entry.2, df) :: plan py files configs'
      | None => plan py files configs'
      end
  end.

(** The attempt of a write: an exception of [to_sql] leaves the store as
    it was. *)
Definition write_entry (st : store) (w : table_config * DataFrame) : store :=
  match write_table w.1 w.2 st with
  | Ok st' => st'
  | Raise _ => st
  end.

(** The table a write replaces. *)
Definition write_key (w : table_config * DataFrame) : string * string :=
  (schema w.1, table_name w.1).

(** The index that a write of [config] with the frame [df] creates under
    the name [key], when the name is free: that of the first declared index
    column present in the frame whose index has that name. *)
Fixpoint claims_in (config : table_config) (df : DataFrame) (cols : list string)
    (key : string * string) : option index_def :=
  match cols with
  | [] => None
  | col :: cols' =>
      if df_has df col && bool_decide ((schema config, index_name config col) = key)
      then Some {| ix_table := table_name config; ix_column := col |}
      else claims_in config df cols' key
  end.

Definition claims (w : table_config * DataFrame) (key : string * string) : option index_def :=
  claims_in w.1 w.2 (indexes w.1) key.

(** The index [ix] named [key] hangs on the table of the write [w]. *)
Definition hangs_on (w : table_config * DataFrame) (key : string * string)
    (ix : index_def) : Prop :=
  key.1 = schema w.1 /\ ix_table ix = table_name w.1.

(** [to_sql] refuses the write: the name of the table is that of a view
    or of an index, or a view depends on the table. *)
Definition refused (w : table_config * DataFrame)
    (rels : gmap (string * string) relation) : bool :=
  match rels !! write_key w with
  | None => false
  | Some (Table _) =>
      bool_decide (map_Exists (fun _ r => selects_from (write_key w) r) rels)
  | Some _ => true
  end.

(** The relations of a PostgreSQL database: every index is on a table of
    its schema. *)
Definition index_on_table (rels : gmap (string * string) relation)
    (key : string * string) (r : relation) : Prop :=
  match r with
  | Index ix =>
      match rels !! (key.1, ix_table ix) with
      | Some (Table _) => True
      | _ => False
      end
  | _ => True
  end.

Global Instance index_on_table_dec rels key r : Decision (index_on_table rels key r).
Proof.
  unfold index_on_table. destruct r; try apply _.
  destruct (rels !! (key.1, ix_table ix)) as [[ | | ]|]; apply _.
Defined.

Definition indexes_on_tables (st : store) : Prop :=
  map_Forall (index_on_table (st_relations st)) (st_relations st).

(** The names that an entry of the configuration uses in its schema: the
    name of its table and the names [idx_<table>_<column>] of its
    indexes. *)
Definition reserved (e : string * table_config) (name : string) : Prop :=
  name = table_name e.2 \/ Exists (fun col => name = index_name e.2 col) (indexes e.2).

Global Instance reserved_dec e name : Decision (reserved e name).
Proof. unfold reserved. apply _. Defined.

(** The index [ix] under the name [key] does not cross the
    configuration: when the name is reserved for an entry and the index is
    on a configured table, that table is the table of the entry. *)
Definition uncrossed (configs : list (string * table_config))
    (key : string * string) (r : relation) : Prop :=
  match r with
  | Index ix =>
      Forall (fun e : string * table_config =>
                key.1 = schema e.2 -> reserved e key.2 ->
                Forall (fun e' : string * table_config =>
                          schema e'.2 = schema e.2 -> table_name e'.2 = ix_table ix ->
                          table_name e'.2 = table_name e.2) configs) configs
  | _ => True
  end.

Global Instance uncrossed_dec configs key r : Decision (uncrossed configs key r).
Proof. unfold uncrossed. destruct r; apply _. Defined.

(** A target is well attached when none of its indexes crosses the
    configuration. *)
Definition well_attached (configs : list (string * table_config)) (st : store) : Prop :=
  map_Forall (uncrossed configs) (st_relations st).

(** What a write that [to_sql] accepted leaves: the table holds the
    frame, the indexes on it are the ones that the write claims, and every
    name that it claims is taken. *)
Record written (w : table_config * DataFrame)
    (rels : gmap (string * string) relation) : Prop := {
  written_table : rels !! write_key w = Some (Table w.2);
  written_own : forall key ix,
    rels !! key = Some (Index ix) -> hangs_on w key ix -> claims w key = Some ix;
  written_named : forall key, is_Some (claims w key) -> is_Some (rels !! key)
}.

(** What holds of the relations [rels] of the store once the writes
    [done] have been attempted on a target whose relations were
    [target_rels]. *)
Record settled (target_rels : gmap (string * string) relation)
    (done : list (table_config * DataFrame))
    (rels : gmap (string * string) relation) : Prop := {
  settled_indexes : map_Forall (index_on_table rels) rels;
  settled_views : forall key v,
    rels !! key = Some (View v) <-> target_rels !! key = Some (View v);
  settled_kept : forall key ix,
    rels !! key = Some (Index ix) ->
    target_rels !! key = Some (Index ix) \/
    exists w, w ∈ done /\ claims w key = Some ix;
  settled_done : forall w, w ∈ done -> refused w rels = true \/ written w rels
}.

(** A customers source of one row. *)
Definition customers_source : file_content :=
  Tokenised {| rt_len := 1;
               rt_columns := [ ("customer_id", ["06b8999e2fba1a1fbc88172c00ba8bc7"]);
                               ("customer_unique_id", ["861eff4711a542e4b93843c6dd7febb0"]);
                               ("customer_zip_code_prefix", ["14409"]);
                               ("customer_city", ["franca"]);
                               ("customer_state", ["SP"]) ] |}.

Definition two_sources : directory :=
  {[ "olist_customers_dataset.csv" := customers_source;
     "olist_sellers_dataset.csv" := sellers_source ]}.

(** A target in which the sellers table carries an index under a name of
    the customers table. *)
Definition crossed_target : store :=
  {| st_relations :=
       {[ ("raw_data", "sellers") := Table {| df_len := 0; df_columns := [] |};
          ("raw_data", "idx_customers_customer_state") :=
            Index {| ix_table := "sellers"; ix_column := "seller_state" |} ]};
     st_table_comments := ∅;
     st_column_comments := ∅ |}.

(** A target with an empty customers table that a view selects from, and
    an empty sellers table with an index of its own. *)
Definition viewed_target : store :=
  {| st_relations :=
       {[ ("raw_data", "customers") := Table {| df_len := 0; df_columns := [] |};
          ("analytics", "customer_summary") := View [("raw_data", "customers")];
          ("raw_data", "sellers") := Table {| df_len := 0; df_columns := [] |};
          ("raw_data", "sellers_by_city") :=
            Index {| ix_table := "sellers"; ix_column := "seller_city" |} ]};
     st_table_comments := ∅;
     st_column_comments := ∅ |}.

(** The outcome of the int conversion of an object column that
    [read_csv] made of the cells. *)
Definition int_outcome (cells : list string) (r : result Series) : Prop :=
  match r with
  | Ok s => exists l, s = SInt l /\ Forall2 owes_zero cells l
  | Raise e =>
      (e = IntCastingNaNError /\ Exists (fun c => infinite_cell c = true) cells) \/
      ((e = OverflowError \/ e = ValueError) /\
       Exists (fun c => wide_cell c = true) cells)
  end.

(** [replace('nan', None)] on one text. *)
Definition nan_to_none (t : string) : pyobj :=
  if (t =? "nan")%string then ONone else OStr t.


(* ===================================================================== *)
(** * Properties *)
(* ===================================================================== *)

(* ===================================================================== *)
(** ** Integers through float64 *)
(* ===================================================================== *)

Lemma round_half_even_unit n : round_half_even n 1 = n.
Proof.
  unfold round_half_even. rewrite Z.div_1_r, Z.mod_1_r. reflexivity.
Qed.

Lemma ilog2_ratio_unit a : 0 < a -> ilog2_ratio a 1 = Z.log2 a.
Proof.
  intros Ha. unfold ilog2_ratio. change (Z.log2 1) with 0. rewrite Z.sub_0_r.
  pose proof (Z.log2_nonneg a) as Hl.
  destruct (Z.leb_spec 0 (Z.log2 a)) as [_|?]; [|lia].
  pose proof (Z.log2_spec a Ha) as [Hlo _].
  destruct (Z.ltb_spec a (1 * 2 ^ Z.log2 a)); [lia | reflexivity].
Qed.

(** Below [2^53] the conversion of an integer to float64 is exact. *)
Lemma f64_of_Z_small z :
  Z.abs z < 2 ^ 53 ->
  exists m e, f64_of_Z z = Ffin m e /\ f64_trunc m e = z.
Proof.
  intros Hz. unfold f64_of_Z, f64_of_ratio.
  destruct (Z.eqb_spec z 0) as [->|Hnz].
  { exists 0, 0. split; reflexivity. }
  assert (Ha : 0 < Z.abs z) by lia.
  rewrite (ilog2_ratio_unit _ Ha).
  assert (HL : Z.log2 (Z.abs z) < 53) by (apply Z.log2_lt_pow2; lia).
  pose proof (Z.log2_nonneg (Z.abs z)) as HL0.
  rewrite Z.max_l by lia.
  set (L := Z.log2 (Z.abs z)) in *.
  destruct (Z.leb_spec 0 (L - 52)) as [He|He].
  - assert (L = 52) by lia. replace (L - 52) with 0 by lia.
    change (1 * 2 ^ 0) with 1. rewrite round_half_even_unit.
    fold L. rewrite Z.add_0_r.
    destruct (Z.leb_spec 1024 L); [lia|].
    eexists _, _. split; [reflexivity|].
    unfold f64_trunc. simpl. rewrite Z.mul_1_r. lia.
  - rewrite round_half_even_unit.
    assert (Hk : 0 < - (L - 52)) by lia.
    assert (Hlog : Z.log2 (Z.abs z * 2 ^ (- (L - 52))) = L + (- (L - 52))).
    { rewrite Z.log2_mul_pow2 by lia. fold L. lia. }
    rewrite Hlog.
    destruct (Z.leb_spec 1024 (L + - (L - 52) + (L - 52))); [lia|].
    eexists _, _. split; [reflexivity|].
    unfold f64_trunc.
    destruct (Z.leb_spec 0 (L - 52)); [lia|].
    rewrite Z.mul_assoc. rewrite Z.quot_mul by (apply Z.pow_nonzero; lia).
    lia.
Qed.

Lemma f64_of_Z_exact z :
  Z.abs z <= 2 ^ 53 ->
  exists m e, f64_of_Z z = Ffin m e /\ f64_trunc m e = z.
Proof.
  intros Hz.
  destruct (Z.eq_dec (Z.abs z) (2 ^ 53)) as [Heq|Hne].
  - destruct (Z.abs_eq_or_opp z) as [H|H]; rewrite H in Heq.
    + subst z. eexists _, _. split; vm_compute; reflexivity.
    + assert (z = - 2 ^ 53) as -> by lia.
      eexists _, _. split; vm_compute; reflexivity.
  - apply f64_of_Z_small. lia.
Qed.

(** An integer of magnitude at most [2^53] survives the round trip
    int -> float64 -> int64. *)
Lemma int_of_float_of_Z z :
  Z.abs z <= 2 ^ 53 ->
  f64_is_finite (f64_of_Z z) = true /\
  f64_is_nan (f64_of_Z z) = false /\
  int_of_float (f64_of_Z z) = z.
Proof.
  intros Hz. destruct (f64_of_Z_exact z Hz) as (m & e & -> & Ht).
  repeat split. simpl. unfold f64_to_int64. rewrite Ht.
  assert (in_int64 z = true) as ->; [|reflexivity].
  unfold in_int64, int64_min, int64_max.
  apply andb_true_iff; split; apply Z.leb_le.
  - assert (- 2 ^ 53 <= z) by lia. assert (- 2 ^ 63 <= - 2 ^ 53) by (vm_compute; discriminate). lia.
  - assert (z <= 2 ^ 53) by lia. assert (2 ^ 53 <= 2 ^ 63 - 1) by (vm_compute; discriminate). lia.
Qed.

(** The quotient rounded to the nearest integer is at most one above the
    quotient rounded down. *)
Lemma round_half_even_bound n d :
  n / d <= round_half_even n d <= n / d + 1.
Proof. unfold round_half_even. destruct (_ || _); lia. Qed.

(** The float64 of an integer of the 64-bit ranges is finite. *)
Lemma f64_of_Z_finite z :
  Z.abs z < 2 ^ 64 -> f64_is_finite (f64_of_Z z) = true.
Proof.
  intros Hz. unfold f64_of_Z, f64_of_ratio.
  destruct (Z.eqb_spec z 0) as [->|Hnz]; [reflexivity|].
  assert (Ha : 0 < Z.abs z) by lia.
  rewrite (ilog2_ratio_unit _ Ha).
  assert (HL : Z.log2 (Z.abs z) < 64) by (apply Z.log2_lt_pow2; lia).
  pose proof (Z.log2_nonneg (Z.abs z)) as HL0.
  rewrite Z.max_l by lia.
  set (L := Z.log2 (Z.abs z)) in *.
  match goal with |- f64_is_finite (if ?b then _ else _) = true =>
    assert (Hb : b = false); [|rewrite Hb; reflexivity] end.
  apply Z.leb_gt.
  destruct (Z.leb_spec 0 (L - 52)) as [He|He].
  - rewrite Z.mul_1_l.
    pose proof (round_half_even_bound (Z.abs z) (2 ^ (L - 52))) as [_ Hup].
    assert (Hq : Z.abs z / 2 ^ (L - 52) < 2 ^ 53).
    { apply Z.div_lt_upper_bound; [apply Z.pow_pos_nonneg; lia|].
      rewrite <- Z.pow_add_r by lia. replace (L - 52 + 53) with (Z.succ L) by lia.
      apply Z.log2_spec. exact Ha. }
    assert (Hm : Z.log2 (round_half_even (Z.abs z) (2 ^ (L - 52))) <= 53).
    { assert (Hpos : 0 < round_half_even (Z.abs z) (2 ^ (L - 52))).
      { pose proof (round_half_even_bound (Z.abs z) (2 ^ (L - 52))) as [Hlo _].
        assert (0 < Z.abs z / 2 ^ (L - 52)); [|lia].
        apply Z.div_str_pos. split; [apply Z.pow_pos_nonneg; lia|].
        transitivity (2 ^ L); [apply Z.pow_le_mono_r; lia | apply Z.log2_spec; exact Ha]. }
      assert (Z.log2 (round_half_even (Z.abs z) (2 ^ (L - 52))) < 54); [|lia].
      apply Z.log2_lt_pow2; [exact Hpos|].
      assert (2 ^ 53 < 2 ^ 54) by (vm_compute; reflexivity). lia. }
    lia.
  - rewrite round_half_even_unit.
    rewrite Z.log2_mul_pow2 by lia. fold L. lia.
Qed.

Lemma f64_of_Z_not_nan z : f64_is_nan (f64_of_Z z) = false.
Proof.
  unfold f64_of_Z, f64_of_ratio. destruct (z =? 0); [reflexivity|].
  destruct (1024 <=? _); reflexivity.
Qed.

(* ===================================================================== *)
(** ** Lists *)
(* ===================================================================== *)

Lemma Forall2_map_same {A B} (P : A -> B -> Prop) (f : A -> B) (l : list A) :
  Forall (fun a => P a (f a)) l -> Forall2 P l (map f l).
Proof. induction 1; simpl; constructor; assumption. Qed.

Lemma Exists_map_inv {A B} (P : B -> Prop) (f : A -> B) (l : list A) :
  Exists P (map f l) -> Exists (fun a => P (f a)) l.
Proof.
  induction l as [|a l IH]; simpl; intros H; inversion H; subst.
  - left. assumption.
  - right. auto.
Qed.

Lemma forallb_false_Exists {A} (p : A -> bool) (l : list A) :
  forallb p l = false -> Exists (fun a => p a = false) l.
Proof.
  induction l as [|a l IH]; simpl; [discriminate|].
  destruct (p a) eqn:Ha; simpl; intros H.
  - right. auto.
  - left. assumption.
Qed.

Lemma forallb_true_Forall {A} (p : A -> bool) (l : list A) :
  forallb p l = true -> Forall (fun a => p a = true) l.
Proof.
  induction l as [|a l IH]; simpl; [constructor|].
  intros H. apply andb_true_iff in H as [H1 H2]. constructor; auto.
Qed.

Lemma existsb_false_Forall {A} (p : A -> bool) (l : list A) :
  existsb p l = false -> Forall (fun a => p a = false) l.
Proof.
  induction l as [|a l IH]; simpl; [constructor|].
  intros H. apply orb_false_iff in H as [H1 H2]. constructor; auto.
Qed.

Lemma existsb_true_Exists {A} (p : A -> bool) (l : list A) :
  existsb p l = true -> Exists (fun a => p a = true) l.
Proof.
  induction l as [|a l IH]; simpl; [discriminate|].
  intros H. apply orb_true_iff in H as [H|H]; [left | right]; auto.
Qed.

Lemma Forall_filter_bool {A} (p q : A -> bool) (l : list A) :
  Forall (fun a => q a = true) (filter (fun a => p a) l) ->
  Forall (fun a => p a = false \/ q a = true) l.
Proof.
  induction l as [|a l IH]; [constructor|].
  rewrite filter_cons. destruct (decide (p a)) as [Hd|Hd].
  - intros H. inversion H; subst. constructor; auto.
  - intros H. constructor; auto.
    left. destruct (p a); [exfalso; apply Hd; exact I | reflexivity].
Qed.

Lemma Forall_impl2 {A} (P Q R : A -> Prop) (l : list A) :
  Forall P l -> Forall Q l -> (forall a, P a -> Q a -> R a) -> Forall R l.
Proof.
  intros HP. induction HP; intros HQ HR; inversion HQ; subst; constructor; auto.
Qed.

Lemma Forall2_map_eq {A B} (f : A -> B) (l : list A) (l' : list B) :
  Forall2 (fun a b => f a = b) l l' -> map f l = l'.
Proof. induction 1; simpl; congruence. Qed.

Lemma Forall2_Forall_l {A B} (P : A -> B -> Prop) (Q : A -> Prop) l l' :
  Forall2 P l l' -> Forall Q l -> Forall2 (fun a b => P a b /\ Q a) l l'.
Proof.
  induction 1; intros HQ; inversion HQ; subst; constructor; auto.
Qed.

Lemma Forall2_elem_l {A B} (P : A -> B -> Prop) l l' a :
  Forall2 P l l' -> a ∈ l -> exists b, P a b.
Proof.
  induction 1 as [|x y l l' Hxy H IH]; intros Hin.
  - inversion Hin.
  - apply elem_of_cons in Hin as [->|Hin]; eauto.
Qed.

(* ===================================================================== *)
(** ** What read_csv makes of a column *)
(* ===================================================================== *)

(** The int64 pass ends without an error exactly on columns of missing
    cells and integers of the signed range. *)
Lemma try_int64_done cells :
  try_int64 cells = Int64Done ->
  Forall (fun c => is_na c = true \/ exists z, str_to_int64 c = TokInt z) cells.
Proof.
  induction cells as [|c cells IH]; simpl; [constructor|].
  destruct (is_na c) eqn:Hna.
  - intros H. constructor; auto.
  - destruct (str_to_int64 c) as [z| |] eqn:Hc; try discriminate.
    intros H. constructor; eauto.
Qed.

Lemma read_sign_eq s :
  read_sign s =
  match s with
  | String a s' =>
      if (a =? "-")%char then (true, s')
      else if (a =? "+")%char then (false, s')
      else (false, s)
  | EmptyString => (false, s)
  end.
Proof.
  destruct s as [|a s']; [reflexivity|].
  destruct a as [[] [] [] [] [] [] [] []]; reflexivity.
Qed.

Lemma str_to_uint64_eq s :
  str_to_uint64 s =
  match ltrim s with
  | String a s' =>
      if (a =? "-")%char then UTokNegative
      else
        let '(v, n, rest) := span_digits (if (a =? "+")%char then s' else String a s') 0 0 in
        if n =? 0 then UTokInvalid
        else if uint64_max <? v then UTokOverflow
        else if blank rest then UTokInt v else UTokInvalid
  | EmptyString => UTokInvalid
  end.
Proof.
  unfold str_to_uint64. destruct (ltrim s) as [|a s']; [reflexivity|].
  destruct a as [[] [] [] [] [] [] [] []]; reflexivity.
Qed.

Lemma span_digits_nonneg s : forall acc n v n' rest,
  span_digits s acc n = (v, n', rest) -> 0 <= acc -> 0 <= v.
Proof.
  induction s as [|c s IH]; simpl; intros acc n v n' rest.
  - intros [= <- _ _]. auto.
  - destruct (is_digit c) eqn:Hd.
    + intros H Hacc. apply (IH _ _ _ _ _ H).
      unfold is_digit in Hd. unfold digit_val.
      apply andb_true_iff in Hd as [Hd _]. apply Nat.leb_le in Hd. lia.
    + intros [= <- _ _]. auto.
Qed.

(** A cell on which the int64 pass overflows: the uint64 pass notes its
    minus sign, or reads an integer above the signed range, or stops. *)
Lemma overflow_cell c :
  str_to_int64 c = TokOverflow ->
  str_to_uint64 c = UTokNegative \/ str_to_uint64 c = UTokOverflow \/
  str_to_uint64 c = UTokInvalid \/
  exists z, str_to_uint64 c = UTokInt z /\ int64_max < z.
Proof.
  rewrite str_to_uint64_eq. unfold str_to_int64. rewrite read_sign_eq.
  destruct (ltrim c) as [|a s].
  - simpl. discriminate.
  - destruct (a =? "-")%char; [auto|].
    assert (Hsame : (if (a =? "+")%char then (false, s) else (false, String a s))
                    = (false, if (a =? "+")%char then s else String a s))
      by (destruct (a =? "+")%char; reflexivity).
    rewrite Hsame.
    destruct (span_digits _ 0 0) as [[v n] rest] eqn:Hsp.
    destruct (n =? 0); [discriminate|]. simpl signed.
    destruct (in_int64 v) eqn:Hv; simpl negb.
    { destruct (blank rest); discriminate. }
    intros _. destruct (uint64_max <? v); [auto|].
    destruct (blank rest); [|auto].
    right. right. right. exists v. split; [reflexivity|].
    pose proof (span_digits_nonneg _ _ _ _ _ _ Hsp (Z.le_refl 0)) as Hnn.
    unfold in_int64 in Hv. apply andb_false_iff in Hv as [Hv|Hv].
    + apply Z.leb_gt in Hv. unfold int64_min in Hv.
      assert (- 2 ^ 63 < 0) by (vm_compute; reflexivity). lia.
    + apply Z.leb_gt in Hv. exact Hv.
Qed.

(** The uint64 pass: its state only grows, and the cells are unsigned
    integers when it has seen neither a minus sign nor a missing cell. *)
Lemma try_uint64_done cells : forall state state',
  try_uint64 cells state = UInt64Done state' ->
  (seen_uint state = true -> seen_uint state' = true) /\
  (seen_sint state = true -> seen_sint state' = true) /\
  (seen_null state = true -> seen_null state' = true) /\
  (seen_sint state' = false -> seen_null state' = false ->
   Forall (fun c => is_na c = false /\ exists z, str_to_uint64 c = UTokInt z) cells).
Proof.
  induction cells as [|c cells IH]; simpl; intros state state'.
  - intros [= <-]. repeat split; auto.
  - destruct (is_na c) eqn:Hna.
    + intros H. apply IH in H as (H0 & H1 & H2 & H3). cbn in *.
      repeat split; auto. intros Hs Hn. rewrite H2 in Hn by reflexivity. discriminate.
    + destruct (str_to_uint64 c) as [|z| |] eqn:Hc; try discriminate.
      * intros H. apply IH in H as (H0 & H1 & H2 & H3). cbn in *.
        repeat split; auto. intros Hs Hn. rewrite H1 in Hs by reflexivity. discriminate.
      * intros H. apply IH in H as (H0 & H1 & H2 & H3). cbn in *.
        repeat split; auto.
        -- intros Hu. apply H0. rewrite Hu. reflexivity.
        -- intros Hs Hn. constructor; eauto.
Qed.

(** The uint64 pass runs after an overflow of the int64 pass: when it
    ends it has seen an integer above the signed range or a minus sign. *)
Lemma try_uint64_after_overflow cells : forall state state',
  try_int64 cells = Int64Overflow ->
  try_uint64 cells state = UInt64Done state' ->
  seen_uint state' = true \/ seen_sint state' = true.
Proof.
  induction cells as [|c cells IH]; simpl; intros state state'; [discriminate|].
  destruct (is_na c); [apply IH|].
  destruct (str_to_int64 c) as [z| |] eqn:Hc; try discriminate.
  - intros H1. destruct (str_to_uint64 c); try discriminate; apply IH; exact H1.
  - intros _. destruct (overflow_cell c Hc) as [H|[H|[H|(z & H & Hz)]]]; rewrite H;
      try discriminate.
    + intros Hd. right. apply (try_uint64_done _ _ _ Hd). reflexivity.
    + intros Hd. left. apply (try_uint64_done _ _ _ Hd). cbn.
      apply orb_true_iff. right. apply Z.ltb_lt. exact Hz.
Qed.

Lemma try_double_case py cells :
  conflict_column cells = false -> column_case py cells (try_double py cells).
Proof.
  intros Hcf. unfold try_double.
  destruct (forallb (fun c => bool_decide (is_Some (csv_double py c))) _) eqn:Hd.
  - apply CaseDouble. apply forallb_true_Forall in Hd.
    apply (Forall_filter_bool (fun c => negb (is_na c))) in Hd.
    eapply Forall_impl; [exact Hd|]. intros c [H|H].
    + left. destruct (is_na c); [reflexivity | discriminate].
    + right. apply bool_decide_eq_true in H. exact H.
  - destruct (forallb (fun c => bool_decide (is_Some (csv_bool c))) _) eqn:Hb;
      [|apply CaseText; exact Hcf].
    apply forallb_true_Forall in Hb.
    apply (Forall_filter_bool (fun c => negb (is_na c))) in Hb.
    destruct (existsb is_na cells) eqn:Hna.
    + apply CaseBoolObj. eapply Forall_impl; [exact Hb|].
      intros c [H|H].
      * left. destruct (is_na c); [reflexivity | discriminate].
      * right. apply bool_decide_eq_true in H. exact H.
    + apply CaseBool. apply existsb_false_Forall in Hna.
      eapply Forall_impl2; [exact Hb | exact Hna |].
      intros c [H|H] Hc; split; auto.
      * rewrite Hc in H. discriminate.
      * apply bool_decide_eq_true in H. exact H.
Qed.

Lemma read_csv_column_case py cells : column_case py cells (read_csv_column py cells).
Proof.
  unfold read_csv_column. destruct cells as [|c0 cells0]; [apply CaseEmpty; reflexivity|].
  set (cells := c0 :: cells0).
  assert (Hcf : conflict_column cells =
                match try_int64 cells, try_uint64 cells no_uint_state with
                | Int64Overflow, UInt64Done state => uint64_conflict state
                | _, _ => false
                end) by reflexivity.
  fold no_uint_state.
  destruct (try_int64 cells) eqn:Hint.
  - apply try_int64_done in Hint.
    destruct (existsb is_na cells) eqn:Hna; [apply CaseUpcast; exact Hint|].
    apply CaseInt. apply existsb_false_Forall in Hna.
    eapply Forall_impl2; [exact Hint | exact Hna |].
    intros c [H|H] Hc; split; auto. congruence.
  - destruct (try_uint64 cells no_uint_state) as [state| |] eqn:Hu.
    + destruct (uint64_conflict state) eqn:Hc; [apply CaseVerbatim; exact Hcf|].
      destruct (seen_sint state) eqn:Hs; [apply CaseText; exact Hcf|].
      apply CaseUInt.
      destruct (try_uint64_after_overflow _ _ _ Hint Hu) as [Hseen|Hseen]; [|congruence].
      apply try_uint64_done in Hu as (_ & _ & _ & H).
      apply H; [exact Hs|].
      unfold uint64_conflict in Hc. rewrite Hseen, Hs in Hc. exact Hc.
    + apply CaseText. exact Hcf.
    + apply try_double_case. exact Hcf.
  - apply try_double_case. exact Hcf.
Qed.

Lemma read_csv_column_len py cells :
  series_len (read_csv_column py cells) = length cells.
Proof.
  destruct (read_csv_column_case py cells) as [->| | | | | | | |]; simpl;
    rewrite ?length_map; reflexivity.
Qed.

(* ===================================================================== *)
(** ** Declared int: to_numeric, fillna(0), astype(int) *)
(* ===================================================================== *)

Lemma mapM_Ok {A B} (f : A -> result B) (l : list A) (l' : list B) :
  mapM f l = Ok l' -> Forall2 (fun a b => f a = Ok b) l l'.
Proof.
  revert l'. induction l as [|a l IH]; simpl; intros l'.
  - intros [= <-]. constructor.
  - destruct (f a) as [b|e] eqn:Ha; simpl; [|discriminate].
    destruct (mapM f l) as [bs|e]; simpl; [|discriminate].
    intros [= <-]. constructor; auto.
Qed.

Lemma mapM_Raise {A B} (f : A -> result B) (l : list A) (e : exn) :
  mapM f l = Raise e -> Exists (fun a => f a = Raise e) l.
Proof.
  induction l as [|a l IH]; simpl; [discriminate|].
  destruct (f a) as [b|e'] eqn:Ha; simpl.
  - destruct (mapM f l) as [bs|e']; simpl; [discriminate|].
    intros [= ->]. right. auto.
  - intros [= ->]. left. exact Ha.
Qed.

(** The float path: every NaN becomes 0, and the cast raises exactly on an
    infinity. *)
Lemma astype_int_float (fl : list f64) :
  match astype_int (fillna_zero (SFloat fl)) with
  | Ok l => l = map (fun x => int_of_float (fill x)) fl
  | Raise e => e = IntCastingNaNError /\ Exists (fun x => is_infinite x = true) fl
  end.
Proof.
  simpl. fold fill. destruct (forallb f64_is_finite (map fill fl)) eqn:Hf.
  - rewrite map_map. reflexivity.
  - split; [reflexivity|].
    apply forallb_false_Exists in Hf. apply Exists_map_inv in Hf.
    eapply Exists_impl; [exact Hf|].
    intros [| |]; simpl; intros H; try discriminate; reflexivity.
Qed.

Lemma scanned_kinds (sc : list scanned) :
  existsb forces_float sc = false ->
  existsb is_ScInt sc = false ->
  existsb is_ScBool sc = false ->
  sc = [].
Proof.
  destruct sc as [|[| | |] sc]; simpl; try discriminate; reflexivity.
Qed.

(** A missing cell is no literal, no spelling of infinity, no boolean
    token and no integer of Python. *)
Lemma na_cell_text c :
  is_na c = true ->
  parse_literal c = None /\ parse_infinity c = None /\ csv_bool c = None /\
  python_int c = Raise ValueError.
Proof.
  intros H. unfold is_na, str_in in H. apply existsb_exists in H as (x & Hin & Hx).
  apply String.eqb_eq in Hx. subst x.
  assert (HF : Forall (fun c => parse_literal c = None /\ parse_infinity c = None /\
                               csv_bool c = None /\ python_int c = Raise ValueError)
                 na_values) by (repeat constructor).
  rewrite List.Forall_forall in HF. apply HF, Hin.
Qed.

(** The converters return finite values. *)
Lemma strtod_finite conv s x :
  strtod conv s = Some x -> f64_is_finite x = true /\ f64_is_nan x = false.
Proof.
  unfold strtod, short_integer. destruct (parse_literal s) as [[z|m k]|]; [| |discriminate].
  - destruct (_ && _) eqn:Hs.
    + intros [= <-]. apply andb_true_iff in Hs as [_ Hz]. apply Z.leb_le in Hz.
      destruct (int_of_float_of_Z z Hz) as (H1 & H2 & _). auto.
    + destruct (conv s) as [[m e]|]; simpl; [|discriminate]. intros [= <-]. auto.
  - destruct (conv s) as [[m' e]|]; simpl; [|discriminate]. intros [= <-]. auto.
Qed.

Lemma csv_double_infinite py c x :
  csv_double py c = Some x -> is_infinite x = true -> infinite_cell c = true.
Proof.
  unfold csv_double, infinite_cell. destruct (strtod _ c) as [y|] eqn:Hs.
  - intros [= <-] Hi. apply strtod_finite in Hs as [Hf _].
    destruct y; simpl in *; discriminate.
  - intros H _. apply bool_decide_eq_true. rewrite H. eauto.
Qed.

Lemma csv_double_not_nan py c x : csv_double py c = Some x -> f64_is_nan x = false.
Proof.
  unfold csv_double. destruct (strtod _ c) as [y|] eqn:Hs.
  - intros [= <-]. apply (strtod_finite _ _ _ Hs).
  - unfold parse_infinity. destruct (read_sign _) as [neg s1].
    destruct (_ || _); [|discriminate]. intros [= <-]. reflexivity.
Qed.

Lemma double_of_cell_infinite py c :
  is_infinite (double_of_cell py c) = true -> infinite_cell c = true.
Proof.
  unfold double_of_cell. destruct (is_na c); [discriminate|].
  destruct (csv_double py c) as [x|] eqn:Hc; [|discriminate].
  apply (csv_double_infinite _ _ _ Hc).
Qed.

Lemma int_token_range c z : str_to_int64 c = TokInt z -> in_int64 z = true.
Proof.
  unfold str_to_int64. destruct (read_sign _) as [neg s1].
  destruct (span_digits s1 0 0) as [[v n] rest].
  destruct (n =? 0); [discriminate|].
  destruct (in_int64 (signed neg v)) eqn:Hr; simpl; [|discriminate].
  destruct (blank rest); [|discriminate]. intros [= <-]. exact Hr.
Qed.

Lemma in_int64_abs z : in_int64 z = true -> Z.abs z < 2 ^ 64.
Proof.
  unfold in_int64, int64_min, int64_max. intros H.
  apply andb_true_iff in H as [H1 H2]. apply Z.leb_le in H1, H2.
  assert (2 ^ 63 < 2 ^ 64) by (vm_compute; reflexivity). lia.
Qed.

Lemma upcast_cell_finite c :
  (is_na c = true \/ exists z, str_to_int64 c = TokInt z) ->
  is_infinite (upcast_cell c) = false.
Proof.
  unfold upcast_cell. destruct (is_na c); [reflexivity|].
  intros [H|[z H]]; [discriminate|]. unfold int_of_cell. rewrite H.
  pose proof (f64_of_Z_finite z (in_int64_abs _ (int_token_range _ _ H))) as Hf.
  destruct (f64_of_Z z); simpl in *; congruence.
Qed.

(** What [to_numeric] makes of the element that [read_csv] made of a
    cell. *)
Lemma scan_zero_cell py c o :
  read_as c o -> zero_cell c ->
  scan_obj py o = ScNull \/ scan_obj py o = ScInt 0 (f64_of_Z 0).
Proof.
  intros [->|[[-> Hn]|(b & -> & Hn & Hb)]] Hz.
  - destruct Hz as [Hz| ->].
    + left. simpl. unfold scan_text, strtod.
      destruct (na_cell_text c Hz) as (-> & -> & _). reflexivity.
    + right. reflexivity.
  - left. reflexivity.
  - exfalso. destruct Hz as [Hz| ->]; [congruence|].
    destruct Hb as [? Hb]. discriminate.
Qed.

Lemma scan_text_infinite py s :
  is_infinite (float_of_scanned (scan_text py s)) = true -> infinite_cell s = true.
Proof.
  unfold scan_text, infinite_cell. destruct (strtod _ s) as [x|] eqn:Hs.
  - apply strtod_finite in Hs as [Hf _].
    assert (Hx : is_infinite x = false) by (destruct x; simpl in *; congruence).
    destruct (parse_literal s) as [[z|m k]|]; simpl; try congruence.
    destruct (_ && _); simpl; congruence.
  - destruct (parse_infinity s) as [x|]; simpl; [|discriminate].
    intros _. reflexivity.
Qed.

Lemma scan_infinite py c o :
  read_as c o -> is_infinite (float_of_scanned (scan_obj py o)) = true ->
  infinite_cell c = true.
Proof.
  intros [->|[[-> Hn]|(b & -> & Hn & Hb)]]; simpl.
  - apply scan_text_infinite.
  - discriminate.
  - destruct b; discriminate.
Qed.

Lemma scan_text_uint py s : is_uint (scan_text py s) = true -> wide_cell s = true.
Proof.
  unfold scan_text, wide_cell. destruct (strtod _ s) as [x|].
  - destruct (parse_literal s) as [[z|m k]|]; simpl; try discriminate.
    destruct (Z.leb_spec int64_min z), (Z.leb_spec z uint64_max); simpl; try discriminate.
    intros ->. reflexivity.
  - destruct (parse_infinity s); discriminate.
Qed.

Lemma scan_uint py c o :
  read_as c o -> is_uint (scan_obj py o) = true -> wide_cell c = true.
Proof.
  intros [->|[[-> Hn]|(b & -> & Hn & Hb)]]; simpl.
  - apply scan_text_uint.
  - discriminate.
  - discriminate.
Qed.

Lemma python_int_error s e :
  python_int s = Raise e -> e = OverflowError \/ e = ValueError.
Proof.
  unfold python_int. destruct (read_sign _) as [neg s1].
  destruct (py_digits s1 0 false) as [v|].
  - destruct (in_int64 _); [discriminate|]. intros [= <-]. auto.
  - intros [= <-]. auto.
Qed.

(** What [astype(int)] makes of such an element after [fillna(0)]. *)
Lemma int_of_filled c o :
  read_as c o ->
  match int_of_obj (fill_obj o) with
  | Ok z => owes_zero c z
  | Raise e => e = OverflowError \/ e = ValueError
  end.
Proof.
  intros [->|[[-> Hn]|(b & -> & Hn & Hb)]]; simpl.
  - destruct (python_int c) as [z|e] eqn:Hp; [|apply (python_int_error _ _ Hp)].
    intros [Hz| ->].
    + destruct (na_cell_text c Hz) as (_ & _ & _ & H). congruence.
    + vm_compute in Hp. congruence.
  - intros _. reflexivity.
  - intros [Hz| ->]; [congruence|]. destruct Hb as [? Hb]. discriminate.
Qed.

Lemma Forall2_Exists_l {A B} (P : A -> B -> Prop) (Q : B -> Prop) (R : A -> Prop) l l' :
  Forall2 P l l' -> (forall a b, P a b -> Q b -> R a) -> Exists Q l' -> Exists R l.
Proof.
  intros H HR. induction H as [|a b l l' Hab H IH]; intros HE; inversion HE; subst.
  - left. eauto.
  - right. auto.
Qed.

Lemma Forall2_map_r {A B C} (P : A -> C -> Prop) (f : B -> C) l l' :
  Forall2 (fun a b => P a (f b)) l l' -> Forall2 P l (map f l').
Proof. induction 1; simpl; constructor; auto. Qed.

Lemma Forall2_and_r {A B} (P : A -> B -> Prop) (Q : B -> Prop) l l' :
  Forall2 P l l' -> Forall Q l' -> Forall2 (fun a b => P a b /\ Q b) l l'.
Proof.
  induction 1; intros HQ; inversion HQ; subst; constructor; auto.
Qed.

Lemma Forall2_through {A B C} (P : A -> B -> Prop) (Q : B -> C -> Prop)
    (R : A -> C -> Prop) l l' l'' :
  Forall2 P l l' -> Forall2 Q l' l'' ->
  (forall a b c, P a b -> Q b c -> R a c) -> Forall2 R l l''.
Proof.
  intros H. revert l''. induction H as [|a b l l' Hab H IH]; intros l'' HQ HR;
    inversion HQ; subst; constructor; eauto.
Qed.

Lemma coerce_int_object py cells l :
  Forall2 read_as cells l -> int_outcome cells (coerce_int py (SObject l)).
Proof.
  intros Hr. unfold coerce_int, to_numeric_coerce.
  set (sc := map (scan_obj py) l).
  assert (Hsc : Forall2 (fun c k => exists o, read_as c o /\ k = scan_obj py o) cells sc).
  { subst sc. apply Forall2_map_r. eapply Forall2_impl; [exact Hr|]. eauto. }
  destruct (scan_conflict sc) eqn:Hcf.
  - (* returned as it came *)
    simpl. fold fill_obj.
    destruct (mapM int_of_obj (map fill_obj l)) as [zs|e] eqn:Hm; simpl.
    + exists zs. split; [reflexivity|].
      apply mapM_Ok in Hm.
      apply (Forall2_through read_as (fun o z => int_of_obj (fill_obj o) = Ok z) _
               cells l zs Hr).
      * clear -Hm. remember (map fill_obj l) as l' eqn:Hl. revert l Hl.
        induction Hm as [|o' z l' zs Ho Hm IH]; intros [|o l] Hl; try discriminate;
          constructor; injection Hl as -> ->; auto.
      * intros c o z Hc Ho. pose proof (int_of_filled c o Hc) as H.
        rewrite Ho in H. exact H.
    + right. split.
      * apply mapM_Raise in Hm. apply Exists_map_inv in Hm.
        apply Exists_exists in Hm as (o & Hin & Ho).
        destruct (proj1 (list_elem_of_lookup _ _) Hin) as [i Hi].
        destruct (Forall2_lookup_r _ _ _ _ _ Hr Hi) as (c & _ & Hc).
        pose proof (int_of_filled c o Hc) as H. rewrite Ho in H. exact H.
      * unfold scan_conflict in Hcf. apply andb_true_iff in Hcf as [Hu _].
        apply existsb_true_Exists in Hu.
        eapply (Forall2_Exists_l _ _ _ _ _ Hsc); [|exact Hu].
        intros c k (o & Ho & ->). apply scan_uint. exact Ho.
  - destruct (existsb forces_float sc) eqn:H1.
    + pose proof (astype_int_float (map float_of_scanned sc)) as H.
      destruct (astype_int _) as [zs|e]; simpl.
      * exists zs. split; [reflexivity|]. subst zs. rewrite map_map.
        apply Forall2_map_r. eapply Forall2_impl; [exact Hsc|].
        intros c k (o & Ho & ->) Hz.
        destruct (scan_zero_cell py c o Ho Hz) as [-> | ->]; reflexivity.
      * left. destruct H as [-> H]. split; [reflexivity|].
        apply Exists_map_inv in H.
        eapply (Forall2_Exists_l _ _ _ _ _ Hsc); [|exact H].
        intros c k (o & Ho & ->). apply scan_infinite. exact Ho.
    + apply existsb_false_Forall in H1.
      assert (Hint : forall f : scanned -> Z,
                 (forall x, f (ScInt 0 x) = 0) ->
                 Forall2 owes_zero cells (map f sc)).
      { intros f Hf. apply Forall2_map_r.
        apply (Forall2_and_r _ _ _ _ Hsc) in H1.
        eapply Forall2_impl; [exact H1|].
        intros c k [(o & Ho & ->) Hk] Hz.
        destruct (scan_zero_cell py c o Ho Hz) as [H|H]; rewrite H in *;
          [discriminate | apply Hf]. }
      destruct (existsb is_ScInt sc) eqn:H2.
      * destruct (existsb is_uint sc); simpl.
        -- eexists. split; [reflexivity|]. rewrite map_map. apply Hint.
           intros x. reflexivity.
        -- eexists. split; [reflexivity|]. apply Hint. intros x. reflexivity.
      * destruct (existsb is_ScBool sc) eqn:H3; simpl.
        -- eexists. split; [reflexivity|]. rewrite map_map. apply Hint.
           intros x. reflexivity.
        -- exists []. split; [reflexivity|].
           apply existsb_true_Exists || idtac.
           assert (sc = []) as Hnil.
           { apply scanned_kinds; [|exact H2|exact H3].
             apply not_true_is_false. intros Ht. apply existsb_true_Exists in Ht.
             apply Exists_exists in Ht as (k & Hin & Hk).
             rewrite Forall_forall in H1. rewrite (H1 k Hin) in Hk. discriminate. }
           rewrite Hnil in Hsc. inversion Hsc. constructor.
Qed.

(** The outcome of reading a column and converting it as a declared int
    column, cell by cell. *)
Lemma load_int_column_cells py (cells : list string) :
  int_outcome cells (load_int_column py cells).
Proof.
  unfold load_int_column.
  destruct (read_csv_column_case py cells) as [->|Hc|Hc|Hc|Hc|Hc|Hc|Hc|Hc].
  - (* no rows *)
    simpl. exists []. split; [reflexivity | constructor].
  - (* int64 *)
    simpl. eexists. split; [reflexivity|].
    apply Forall2_map_same. eapply Forall_impl; [exact Hc|].
    intros c [Hn _] [Hz| ->]; [congruence | reflexivity].
  - (* int64 with missing cells: float64 *)
    unfold coerce_int. cbn [to_numeric_coerce].
    pose proof (astype_int_float (map upcast_cell cells)) as H.
    destruct (astype_int _) as [zs|e]; simpl.
    + exists zs. split; [reflexivity|]. subst zs. rewrite map_map.
      apply Forall2_map_same, Forall_forall. intros c _ [Hz| ->].
      * unfold upcast_cell. rewrite Hz. reflexivity.
      * reflexivity.
    + exfalso. destruct H as [_ H]. apply Exists_map_inv in H.
      apply Exists_exists in H as (c & Hin & H).
      rewrite Forall_forall in Hc.
      rewrite (upcast_cell_finite c (Hc c Hin)) in H. discriminate.
  - (* uint64 *)
    simpl. eexists. split; [reflexivity|]. rewrite map_map.
    apply Forall2_map_same. eapply Forall_impl; [exact Hc|].
    intros c [Hn _] [Hz| ->]; [congruence | reflexivity].
  - (* float64 *)
    unfold coerce_int. cbn [to_numeric_coerce].
    pose proof (astype_int_float (map (double_of_cell py) cells)) as H.
    destruct (astype_int _) as [zs|e]; simpl.
    + exists zs. split; [reflexivity|]. subst zs. rewrite map_map.
      apply Forall2_map_same, Forall_forall. intros c _ [Hz| ->].
      * unfold double_of_cell. rewrite Hz. reflexivity.
      * reflexivity.
    + left. destruct H as [-> H]. split; [reflexivity|].
      apply Exists_map_inv in H.
      eapply Exists_impl; [exact H|]. intros c. apply double_of_cell_infinite.
  - (* booleans with missing cells *)
    apply coerce_int_object. apply Forall2_map_same.
    eapply Forall_impl; [exact Hc|]. intros c H. unfold bool_obj_of_cell, read_as.
    destruct (is_na c) eqn:Hn; [auto|]. right. right.
    destruct H as [H|H]; [congruence|]. eauto.
  - (* bool *)
    simpl. eexists. split; [reflexivity|]. rewrite map_map.
    apply Forall2_map_same. eapply Forall_impl; [exact Hc|].
    intros c [Hn [b Hb]] [Hz| ->]; [congruence | discriminate].
  - (* text *)
    apply coerce_int_object. apply Forall2_map_same, Forall_forall.
    intros c _. unfold text_of_cell, read_as. destruct (is_na c); auto.
  - (* text with its missing cells *)
    apply coerce_int_object. apply Forall2_map_same, Forall_forall.
    intros c _. left. reflexivity.
Qed.

(* ===================================================================== *)
(** ** Declared int columns (claims C1 and C9) *)
(* ===================================================================== *)

(** The scenario of the specification: [payment_installments] holding
    "3", "N/A", "5" becomes 3, 0, 5. *)
Example payment_installments_scenario (py : pylib) :
  load_int_column py ["3"; "N/A"; "5"] = Ok (SInt [3; 0; 5]).
Proof. reflexivity. Qed.

(** C1 — claim: for every column declared int, coercion returns a
    sequence of the same length in which unparseable values are 0 and valid
    integers are unchanged.  The code does so on ordinary cells (the
    scenario above) but not on every column: a cell that spells an
    infinity passes [to_numeric] and [fillna(0)] and makes [astype(int)]
    raise, so no sequence is returned and the table of the column is
    reported as failed; and an integer beyond [2^53] that shares its column
    with a missing cell goes through float64 and comes back changed. *)
Theorem C1_int_column_infinity_raises (py : pylib) :
  load_int_column py ["3"; "inf"; "5"] = Raise IntCastingNaNError /\
  failed_loads
    (load_csv_files py {[ "olist_order_payments_dataset.csv" := payments_source ]}
       empty_store)
  = [ "olist_customers_dataset.csv"; "olist_geolocation_dataset.csv";
      "olist_orders_dataset.csv"; "olist_order_items_dataset.csv";
      "olist_order_payments_dataset.csv"; "olist_order_reviews_dataset.csv";
      "olist_products_dataset.csv"; "olist_sellers_dataset.csv";
      "product_category_name_translation.csv" ] /\
  load_int_column py ["9007199254740993"; "N/A"] = Ok (SInt [9007199254740992; 0]).
Proof. repeat split; vm_compute; reflexivity. Qed.


(* ===================================================================== *)
(** ** Declared string columns (claims C2 and C6) *)
(* ===================================================================== *)

(** C2 — claim: a zero-padded identifier of a declared string column is
    loaded as the same text.  The code reads the source without a [dtype]
    argument, so a column whose cells are all digits is stored as int64 by
    [read_csv] before [astype(str)] runs: "01310" is loaded as "1310",
    against the comment "Keep as string to preserve leading zeros" of the
    configuration. *)
Theorem C2_zero_padded_identifier_loses_zero (py : pylib) :
  load_string_column py ["01310"] = SObject [OStr "1310"] /\
  match st_tables
          (db (load_csv_files py {[ "olist_sellers_dataset.csv" := sellers_source ]}
                 empty_store))
        !! ("raw_data", "sellers") with
  | Some stored => df_get stored "seller_zip_code_prefix"
  | None => None
  end = Some (SObject [OStr "1310"]).
Proof. repeat split; vm_compute; reflexivity. Qed.

Lemma astype_str_len py s : length (astype_str py s) = series_len s.
Proof. destruct s; simpl; apply length_map. Qed.

Lemma string_of_Z_not_nan z : string_of_Z z <> "nan".
Proof.
  unfold string_of_Z. destruct (Z.to_int z) as [d|d]; [|discriminate].
  destruct d; discriminate.
Qed.

Lemma string_of_bool_not_nan b : string_of_bool b <> "nan".
Proof. destruct b; discriminate. Qed.

Lemma na_cell_not_nan c : is_na c = false -> c <> "nan".
Proof. intros H ->. discriminate. Qed.

Lemma nan_to_none_text t : t <> "nan" -> nan_to_none t = OStr t.
Proof.
  intros H. unfold nan_to_none. destruct (String.eqb_spec t "nan"); [contradiction|].
  reflexivity.
Qed.

Lemma nan_to_none_clean t : nan_to_none t <> OStr "nan".
Proof.
  unfold nan_to_none. destruct (String.eqb_spec t "nan"); [discriminate|]. congruence.
Qed.

(** The float of a cell that is present is no NaN, and its text is not
    the text nan when the text of a finite float is not. *)
Lemma string_of_float_not_nan py x :
  (forall m e, float_repr py m e <> "nan") ->
  f64_is_nan x = false -> string_of_float py x <> "nan".
Proof.
  intros Hrepr. destruct x as [|[]|m e]; simpl; try discriminate. intros _. apply Hrepr.
Qed.

Lemma upcast_cell_not_nan c : is_na c = false -> f64_is_nan (upcast_cell c) = false.
Proof. intros H. unfold upcast_cell. rewrite H. apply f64_of_Z_not_nan. Qed.

Lemma double_of_cell_not_nan py c :
  is_na c = false -> is_Some (csv_double py c) ->
  f64_is_nan (double_of_cell py c) = false.
Proof.
  intros H [x Hx]. unfold double_of_cell. rewrite H, Hx.
  apply (csv_double_not_nan _ _ _ Hx).
Qed.



(* ===================================================================== *)
(** ** The load loop (claim C3) *)
(* ===================================================================== *)

(** The null profile always succeeds: its counts are numpy integers. *)
Lemma null_profile_ok df : exists p, null_profile df = Ok p.
Proof.
  unfold null_profile. generalize (df_columns df) at 1. intros cols.
  induction (filter _ cols) as [|[col s] l IH]; simpl; [eauto|].
  destruct IH as [p ->]. simpl. eauto.
Qed.

Lemma load_table_prepare py content config st :
  load_table py content config st =
  (df <- prepare py content config ;; write_table config df st).
Proof.
  unfold load_table, prepare. destruct (read_csv py content _) as [df|]; [|reflexivity].
  simpl. destruct (coerce_frame py config df) as [df'|]; [|reflexivity].
  simpl. destruct (null_profile_ok df') as [p ->]. reflexivity.
Qed.

(** One step of the loop: the file of the entry joins the failed loads,
    or its table the successful ones; nothing else changes in the lists,
    and a missing file is a failed load. *)
Lemma load_step_lists py files st entry :
  let st' := load_step py files st entry in
  (successful_loads st' = successful_loads st ++ [table_name entry.2] /\
   failed_loads st' = failed_loads st /\ is_Some (files !! entry.1)) \/
  (successful_loads st' = successful_loads st /\
   failed_loads st' = failed_loads st ++ [entry.1]).
Proof.
  destruct entry as [csv_file config]. unfold load_step. cbn [fst snd].
  destruct (files !! csv_file) as [content|]; [|right; split; reflexivity].
  destruct (load_table py content config (db st)); [left | right]; cbn; eauto.
Qed.

(** The lists after the loop, entry by entry. *)
Lemma load_loop_lists py files configs : forall st,
  let st' := fold_left (load_step py files) configs st in
  exists loaded failed,
    successful_loads st' = successful_loads st ++ map (fun e => table_name e.2) loaded /\
    failed_loads st' = failed_loads st ++ map fst failed /\
    loaded ++ failed ≡ₚ configs /\
    Forall (fun e => is_Some (files !! e.1)) loaded.
Proof.
  induction configs as [|entry configs IH]; intros st; cbn [fold_left].
  - exists [], []. rewrite !app_nil_r. repeat split; constructor.
  - destruct (IH (load_step py files st entry)) as (loaded & failed & H1 & H2 & Hp & Hf).
    cbv zeta. rewrite H1, H2.
    destruct (load_step_lists py files st entry) as [(-> & -> & Hs)|(-> & ->)].
    + exists (entry :: loaded), failed. rewrite <- app_assoc. repeat split.
      * simpl. rewrite Hp. reflexivity.
      * constructor; assumption.
    + exists loaded, (entry :: failed). rewrite <- app_assoc. repeat split.
      * rewrite <- Permutation_middle. rewrite Hp. reflexivity.
      * assumption.
Qed.

Lemma map_injective_on {A B} (f : A -> B) (l : list A) a b :
  NoDup (map f l) -> a ∈ l -> b ∈ l -> f a = f b -> a = b.
Proof.
  induction l as [|x l IH]; simpl; intros Hnd Ha Hb Hf; [inversion Ha|].
  apply NoDup_cons in Hnd as [Hx Hnd].
  apply elem_of_cons in Ha as [->|Ha]; apply elem_of_cons in Hb as [->|Hb]; auto.
  - exfalso. apply Hx. rewrite Hf. apply (list_elem_of_fmap_2 f). exact Hb.
  - exfalso. apply Hx. rewrite <- Hf. apply (list_elem_of_fmap_2 f). exact Ha.
Qed.

(** No two entries of the configuration name the same table, and none
    the same file. *)
Lemma table_names_distinct :
  NoDup (map (fun e : string * table_config => (schema e.2, table_name e.2)) table_configs).
Proof. apply (bool_decide_unpack _). vm_compute. exact I. Qed.

Lemma table_name_distinct e e' :
  e ∈ table_configs -> e' ∈ table_configs ->
  table_name e.2 = table_name e'.2 -> e = e'.
Proof.
  intros He He' Hn.
  assert (Hs : forall x, x ∈ table_configs -> schema x.2 = "raw_data").
  { apply Forall_forall. repeat constructor. }
  eapply (map_injective_on _ _ _ _ table_names_distinct He He').
  simpl. rewrite (Hs _ He), (Hs _ He'), Hn. reflexivity.
Qed.

Lemma configured_files_distinct : NoDup (map fst table_configs).
Proof. apply (bool_decide_unpack _). vm_compute. exact I. Qed.

Lemma load_csv_files_split py files target :
  let st := load_csv_files py files target in
  exists loaded failed,
    successful_loads st = map (fun e => table_name e.2) loaded /\
    failed_loads st = map fst failed /\
    loaded ++ failed ≡ₚ table_configs /\
    Forall (fun e => is_Some (files !! e.1)) loaded.
Proof.
  exact (load_loop_lists py files table_configs
           {| db := target; successful_loads := []; failed_loads := [] |}).
Qed.

(** Every entry of the configuration ends in exactly one of the two
    lists, and an entry whose file is missing in the failed loads. *)
Lemma load_csv_files_lists py files target (e : string * table_config) :
  let st := load_csv_files py files target in
  e ∈ table_configs ->
  (e.1 ∈ failed_loads st <-> table_name e.2 ∉ successful_loads st) /\
  (files !! e.1 = None -> e.1 ∈ failed_loads st).
Proof.
  intros st He.
  destruct (load_csv_files_split py files target)
    as (loaded & failed & H1 & H2 & Hp & Hf).
  fold st in H1, H2. clearbody st. rewrite H1, H2.
  assert (Hin : forall x, x ∈ loaded \/ x ∈ failed <-> x ∈ table_configs).
  { intros x. rewrite <- Hp, elem_of_app. reflexivity. }
  assert (Hnd : NoDup (loaded ++ failed)).
  { rewrite Hp. eapply NoDup_fmap_1. exact configured_files_distinct. }
  apply NoDup_app in Hnd as (_ & Hdisj & _).
  assert (Hl : table_name e.2 ∈ map (fun e => table_name e.2) loaded <-> e ∈ loaded).
  { split.
    - intros H. apply list_elem_of_fmap in H as (x & Hx & Hxl).
      assert (x = e) as <-; [|exact Hxl].
      apply table_name_distinct; [apply Hin; auto | exact He | congruence].
    - intros H. apply (list_elem_of_fmap_2 (fun e => table_name e.2)). exact H. }
  assert (Hfl : e.1 ∈ map fst failed <-> e ∈ failed).
  { split.
    - intros H. apply list_elem_of_fmap in H as (x & Hx & Hxl).
      assert (x = e) as <-; [|exact Hxl].
      apply (map_injective_on fst table_configs); [exact configured_files_distinct| |exact He|].
      + apply Hin. auto.
      + congruence.
    - intros H. apply (list_elem_of_fmap_2 fst). exact H. }
  rewrite Hl, Hfl. split.
  - split.
    + intros H H'. exact (Hdisj e H' H).
    + intros H. destruct (proj2 (Hin e) He) as [H'|H']; [contradiction | exact H'].
  - intros Hnone. destruct (proj2 (Hin e) He) as [H'|H']; [|exact H'].
    rewrite Forall_forall in Hf. destruct (Hf e H') as [x Hx]. congruence.
Qed.

(** C3 (as amended) — a run that cannot connect or cannot create its
    schemas exits with status 1 before any load is attempted, and leaves
    the store as it was.  When the connection and the schema creation
    succeed, a table whose source file is missing is added to the failed
    loads and not to the successful ones, the loop goes on to every other
    table (each ends in exactly one of the two lists), and the process
    exits with status 0 as soon as one table loads; it exits non-zero
    exactly when no table at all could be loaded. *)
Theorem C3_missing_file_fails_only_its_table (py : pylib) (w : world) :
  (connect_ok w = false \/ schemas_ok w = false ->
   exit_status py w = 1 /\ load (main py w) = None /\ final (main py w) = target w) /\
  (connect_ok w = true -> schemas_ok w = true ->
   let st := load_csv_files py (files w) (target w) in
   load (main py w) = Some st /\
   (forall csv_file config,
       (csv_file, config) ∈ table_configs -> files w !! csv_file = None ->
       csv_file ∈ failed_loads st /\ table_name config ∉ successful_loads st) /\
   (forall csv_file config,
       (csv_file, config) ∈ table_configs ->
       csv_file ∈ failed_loads st <-> table_name config ∉ successful_loads st) /\
   (forall t, t ∈ successful_loads st -> exit_status py w = 0) /\
   (exit_status py w <> 0 <-> successful_loads st = [])).
Proof.
  split.
  - intros [H|H]; unfold exit_status, main; rewrite H; cbn [negb].
    + repeat split.
    + destruct (negb (connect_ok w)); repeat split.
  - intros Hc Hs st.
    assert (Hmain : load (main py w) = Some st /\
                    exit_status py w = if loaded_any st then 0 else 1).
    { unfold exit_status, main. rewrite Hc, Hs. cbn [negb]. fold st.
      destruct (loaded_any st); split; reflexivity. }
    destruct Hmain as [Hload Hexit].
    split; [exact Hload|]. split; [|split; [|split]].
    + intros csv_file config Hin Hnone.
      destruct (load_csv_files_lists py (files w) (target w) (csv_file, config) Hin)
        as [Hiff Hmiss].
      fold st in Hiff, Hmiss. cbn [fst snd] in Hiff, Hmiss.
      split; [apply Hmiss; exact Hnone|]. apply Hiff, Hmiss, Hnone.
    + intros csv_file config Hin.
      apply (load_csv_files_lists py (files w) (target w) (csv_file, config) Hin).
    + intros t Ht. rewrite Hexit. unfold loaded_any.
      destruct (successful_loads st); [inversion Ht | reflexivity].
    + rewrite Hexit. unfold loaded_any. destruct (successful_loads st).
      * split; [reflexivity | discriminate].
      * split; [intros H; contradiction | discriminate].
Qed.

Lemma C3_missing_file_fails_only_its_table_witness :
  (connect_ok world_without_connection = false \/
   schemas_ok world_without_connection = false) /\
  exit_status bare_lib world_without_connection = 1 /\
  connect_ok world_with_sellers = true /\
  schemas_ok world_with_sellers = true /\
  successful_loads
    (load_csv_files bare_lib (files world_with_sellers) (target world_with_sellers))
    = ["sellers"] /\
  (exit_status bare_lib world_with_sellers <> 0 <->
   successful_loads
     (load_csv_files bare_lib (files world_with_sellers) (target world_with_sellers)) = []).
Proof.
  split; [left; reflexivity|].
  split; [apply (C3_missing_file_fails_only_its_table bare_lib world_without_connection);
          left; reflexivity|].
  split; [reflexivity|]. split; [reflexivity|]. split; [vm_compute; reflexivity|].
  apply (C3_missing_file_fails_only_its_table bare_lib world_with_sellers);
    reflexivity.
Defined.

(** C3, the claim as stated, fails: with the connection and the schemas in
    place and every source file missing, each table fails on its own and
    the process exits with status 1. *)
Lemma C3_counterexample :
  connect_ok world_without_files = true /\
  schemas_ok world_without_files = true /\
  successful_loads
    (load_csv_files bare_lib (files world_without_files) (target world_without_files))
    = [] /\
  exit_status bare_lib world_without_files = 1.
Proof. repeat split; vm_compute; reflexivity. Qed.

(* ===================================================================== *)
(** ** The conversion of a frame, column by column (claim C7) *)
(* ===================================================================== *)

Lemma col_get_set cols col s col' :
  col_get (col_set cols col s) col' =
  if (col =? col')%string
  then match col_get cols col with Some _ => Some s | None => None end
  else col_get cols col'.
Proof.
  induction cols as [|[name old] cols IH]; cbn [col_set col_get].
  - destruct (col =? col')%string; reflexivity.
  - destruct (String.eqb_spec name col) as [->|Hne]; cbn [col_get].
    + destruct (col =? col')%string; reflexivity.
    + rewrite IH. destruct (String.eqb_spec col col') as [Heq|Hne']; [|reflexivity].
      subst col'. destruct (String.eqb_spec name col); [contradiction|reflexivity].
Qed.

Lemma col_set_same cols col s : col_get cols col = Some s -> col_set cols col s = cols.
Proof.
  induction cols as [|[name old] cols IH]; simpl; [reflexivity|].
  destruct (name =? col)%string; [intros [= ->]; reflexivity|].
  intros H. rewrite IH by exact H. reflexivity.
Qed.

Lemma df_set_same df col s : df_get df col = Some s -> df_set df col s = df.
Proof.
  destruct df as [n cols]. unfold df_get, df_set. simpl. intros H.
  rewrite col_set_same by exact H. reflexivity.
Qed.

Lemma col_set_names cols col s : map fst (col_set cols col s) = map fst cols.
Proof.
  induction cols as [|[name old] cols IH]; simpl; [reflexivity|].
  destruct (name =? col)%string; simpl; [reflexivity|]. rewrite IH. reflexivity.
Qed.

Lemma df_get_set df col s col' :
  df_get (df_set df col s) col' =
  if (col =? col')%string
  then match df_get df col with Some _ => Some s | None => None end
  else df_get df col'.
Proof. unfold df_get, df_set. simpl. apply col_get_set. Qed.

(** Only the int conversion can raise. *)
Lemma converted_raise py config col dtype s e :
  converted py config col dtype s = Raise e ->
  dtype = "int" /\ coerce_int py s = Raise e.
Proof.
  unfold converted. destruct (String.eqb_spec dtype "string"); [discriminate|].
  destruct (String.eqb_spec dtype "int") as [->|]; [auto|].
  destruct (dtype =? "float")%string; [discriminate|].
  destruct (dtype =? "datetime")%string; [|discriminate].
  destruct (negb _); discriminate.
Qed.

(** The body of the conversion loop assigns to the column what
    [converted] gives. *)
Lemma coerce_column_converted py config col dtype df :
  coerce_column py config (col, dtype) df =
  match df_get df col with
  | None => Ok df
  | Some s => s' <- converted py config col dtype s ;; Ok (df_set df col s')
  end.
Proof.
  unfold coerce_column, converted. destruct (df_get df col) as [s|] eqn:Hs; [|reflexivity].
  destruct (dtype =? "string")%string; [reflexivity|].
  destruct (dtype =? "int")%string; [reflexivity|].
  destruct (dtype =? "float")%string; [reflexivity|].
  destruct (dtype =? "datetime")%string.
  - destruct (negb _); [reflexivity|]. simpl. rewrite df_set_same by exact Hs. reflexivity.
  - simpl. rewrite df_set_same by exact Hs. reflexivity.
Qed.

(** A column that the frame does not have is not there after a step of
    the loop either. *)
Lemma coerce_column_absent py config entry df df' col :
  coerce_column py config entry df = Ok df' ->
  df_get df col = None -> df_get df' col = None.
Proof.
  destruct entry as [c d]. rewrite coerce_column_converted.
  destruct (df_get df c) as [s|] eqn:Hs; [|intros [= <-]; auto].
  destruct (converted py config c d s) as [s'|]; [|discriminate].
  cbn [rbind]. intros [= <-] Hnone. rewrite df_get_set.
  destruct (String.eqb_spec c col) as [->|]; [|exact Hnone]. congruence.
Qed.

(** What the conversion loop makes of a frame when no column is declared
    twice: every declared column that the frame has is converted once,
    from the column as it was read; nothing else changes. *)
Lemma coerce_frame_columns py config entries : forall df,
  NoDup (map fst entries) ->
  match foldM (coerce_column py config) entries df with
  | Ok df' =>
      df_names df' = df_names df /\ df_len df' = df_len df /\
      (forall col dtype s, (col, dtype) ∈ entries -> df_get df col = Some s ->
         exists s', converted py config col dtype s = Ok s' /\ df_get df' col = Some s') /\
      (forall col, col ∉ map fst entries -> df_get df' col = df_get df col) /\
      (forall col, df_get df col = None -> df_get df' col = None)
  | Raise e =>
      exists col dtype s, (col, dtype) ∈ entries /\ df_get df col = Some s /\
                          converted py config col dtype s = Raise e
  end.
Proof.
  induction entries as [|[c d] entries IH]; intros df Hnd; cbn [foldM].
  - repeat split; try reflexivity; [|auto]. intros col dtype s H. inversion H.
  - cbn [map fst] in Hnd. apply NoDup_cons in Hnd as [Hc Hnd].
    rewrite coerce_column_converted.
    destruct (df_get df c) as [s|] eqn:Hs.
    + destruct (converted py config c d s) as [s'|e] eqn:Hconv; cbn [rbind].
      * specialize (IH (df_set df c s') Hnd).
        assert (Hother : forall col, col <> c ->
                  df_get (df_set df c s') col = df_get df col).
        { intros col Hne. rewrite df_get_set.
          destruct (String.eqb_spec c col); [congruence|reflexivity]. }
        assert (Hself : df_get (df_set df c s') c = Some s').
        { rewrite df_get_set, String.eqb_refl, Hs. reflexivity. }
        destruct (foldM _ entries _) as [df'|e].
        -- destruct IH as (Hn & Hl & Hdecl & Hrest & Hnone).
           split; [rewrite Hn; unfold df_names, df_set; simpl; apply col_set_names|].
           split; [rewrite Hl; reflexivity|]. split; [|split].
           ++ intros col dtype s0 Hin Hget. apply elem_of_cons in Hin as [[= -> ->]|Hin].
              ** rewrite Hs in Hget. injection Hget as <-. exists s'. split; [exact Hconv|].
                 rewrite Hrest by exact Hc. exact Hself.
              ** assert (Hne : col <> c).
                 { intros ->. apply Hc. apply (list_elem_of_fmap_2 fst) in Hin. exact Hin. }
                 apply (Hdecl col dtype s0 Hin). rewrite Hother by exact Hne. exact Hget.
           ++ intros col Hnot. rewrite Hrest.
              ** apply Hother. intros ->. apply Hnot. left.
              ** intros Hin. apply Hnot. right. exact Hin.
           ++ intros col Hget. apply Hnone. rewrite df_get_set.
              destruct (String.eqb_spec c col) as [<-|]; [rewrite Hs in Hget; discriminate|].
              exact Hget.
        -- destruct IH as (col & dtype & s0 & Hin & Hget & Hr).
           assert (Hne : col <> c).
           { intros ->. apply Hc. apply (list_elem_of_fmap_2 fst) in Hin. exact Hin. }
           exists col, dtype, s0. split; [right; exact Hin|].
           split; [rewrite <- Hother by exact Hne; exact Hget | exact Hr].
      * exists c, d, s. split; [apply list_elem_of_here|]. split; assumption.
    + cbn [rbind]. specialize (IH df Hnd). destruct (foldM _ entries df) as [df'|e].
      * destruct IH as (Hn & Hl & Hdecl & Hrest & Hnone).
        split; [exact Hn|]. split; [exact Hl|]. split; [|split].
        -- intros col dtype s0 Hin Hget. apply elem_of_cons in Hin as [[= -> ->]|Hin].
           ++ congruence.
           ++ apply (Hdecl col dtype s0 Hin Hget).
        -- intros col Hnot. apply Hrest. intros Hin. apply Hnot. right. exact Hin.
        -- exact Hnone.
      * destruct IH as (col & dtype & s0 & Hin & Hget & Hr).
        exists col, dtype, s0. split; [right; exact Hin|]. split; assumption.
Qed.

(** In the configuration no table declares a column twice, and the
    declared columns that are read as dates are the ones declared
    [datetime]. *)
Lemma configured_dtypes_distinct e :
  e ∈ table_configs -> NoDup (map fst (dtypes e.2)).
Proof.
  revert e. apply Forall_forall.
  repeat constructor; apply (bool_decide_unpack _); vm_compute; exact I.
Qed.

Lemma str_in_elem s l : str_in s l = true <-> s ∈ l.
Proof.
  unfold str_in. rewrite existsb_exists. split.
  - intros (x & Hin & Heq). apply String.eqb_eq in Heq as ->.
    apply list_elem_of_In. exact Hin.
  - intros H. exists s. split; [apply list_elem_of_In; exact H | apply String.eqb_refl].
Qed.

Lemma configured_dates e d :
  e ∈ table_configs -> d ∈ dtypes e.2 ->
  (d.1 ∈ date_columns e.2 <-> d.2 = "datetime").
Proof.
  intros He Hd.
  assert (H : forallb (fun e : string * table_config =>
                forallb (fun d : string * string =>
                           Bool.eqb (str_in d.1 (date_columns e.2))
                                    (d.2 =? "datetime")%string)
                        (dtypes e.2)) table_configs = true)
    by (vm_compute; reflexivity).
  rewrite forallb_forall in H. apply list_elem_of_In in He. specialize (H e He).
  rewrite forallb_forall in H. apply list_elem_of_In in Hd. specialize (H d Hd).
  apply Bool.eqb_prop in H. rewrite <- str_in_elem, H. apply String.eqb_eq.
Qed.

(** Reading: a date column that the header lacks makes [read_csv] raise,
    and the frame has the columns of the header. *)
Lemma read_csv_missing_date py t dates col :
  col ∈ dates -> col ∉ header t ->
  read_csv py (Tokenised t) dates = Raise MissingDateColumn.
Proof.
  intros Hd Hh. unfold read_csv.
  destruct (forallb _ dates) eqn:Hall; [|reflexivity].
  exfalso. apply Hh. rewrite forallb_forall in Hall.
  apply str_in_elem. apply Hall. apply list_elem_of_In. exact Hd.
Qed.

Lemma col_get_absent {A} (f : string -> A -> Series) (cols : list (string * A)) col :
  col ∉ map fst cols ->
  col_get (map (fun '(name, a) => (name, f name a)) cols) col = None.
Proof.
  induction cols as [|[name a] cols IH]; simpl; intros Hnot; [reflexivity|].
  destruct (String.eqb_spec name col) as [->|Hne].
  - exfalso. apply Hnot. left.
  - apply IH. intros H. apply Hnot. right. exact H.
Qed.

Lemma read_csv_absent py t dates df col :
  read_csv py (Tokenised t) dates = Ok df -> col ∉ header t -> df_get df col = None.
Proof.
  unfold read_csv. destruct (forallb _ dates); [|discriminate].
  intros [= <-] Hnot. unfold df_get. cbn [df_columns].
  apply (col_get_absent (fun name cells => if str_in name dates
                                           then read_date_column py cells
                                           else read_csv_column py cells)).
  exact Hnot.
Qed.

(** The conversion loop passes over the declaration of a column that the
    frame does not have. *)
Lemma coerce_loop_undeclare py config col entries : forall df,
  df_get df col = None ->
  foldM (coerce_column py config) (filter (fun entry => entry.1 <> col) entries) df
  = foldM (coerce_column py config) entries df.
Proof.
  induction entries as [|[c d] entries IH]; intros df Hnone; [reflexivity|].
  rewrite filter_cons. cbn [fst]. destruct (decide (c <> col)) as [Hne|Heq].
  - cbn [foldM]. destruct (coerce_column py config (c, d) df) as [df'|] eqn:Hstep;
      [|reflexivity].
    cbn [rbind]. apply IH. eapply coerce_column_absent; eassumption.
  - apply dec_stable in Heq. subst c. cbn [foldM].
    rewrite coerce_column_converted, Hnone. cbn [rbind]. apply IH. exact Hnone.
Qed.

Lemma load_table_undeclare py t config col st :
  col ∉ header t ->
  load_table py (Tokenised t) (undeclare col config) st
  = load_table py (Tokenised t) config st.
Proof.
  intros Hnot. unfold load_table. cbn [undeclare date_columns].
  destruct (read_csv py (Tokenised t) (date_columns config)) as [df|] eqn:Hread;
    [|reflexivity].
  cbn [rbind]. unfold coerce_frame at 1. cbn [undeclare dtypes].
  change (foldM (coerce_column py (undeclare col config)))
    with (foldM (coerce_column py config)).
  rewrite coerce_loop_undeclare by (eapply read_csv_absent; eassumption).
  reflexivity.
Qed.

(** The failed loads only grow, and an entry whose load raises whatever
    the store joins them. *)
Lemma load_step_failed py files st entry x :
  x ∈ failed_loads st -> x ∈ failed_loads (load_step py files st entry).
Proof.
  intros H. destruct (load_step_lists py files st entry) as [(_ & -> & _)|(_ & ->)].
  - exact H.
  - apply elem_of_app. left. exact H.
Qed.

Lemma load_loop_failed py files e configs : forall st,
  (forall content st0, files !! e.1 = Some content ->
                       exists x, load_table py content e.2 st0 = Raise x) ->
  e.1 ∈ failed_loads st \/ e ∈ configs ->
  e.1 ∈ failed_loads (fold_left (load_step py files) configs st).
Proof.
  induction configs as [|entry configs IH]; intros st Hraise [Hin|Hin]; cbn [fold_left].
  - exact Hin.
  - inversion Hin.
  - apply IH; [exact Hraise|]. left. apply load_step_failed. exact Hin.
  - apply IH; [exact Hraise|]. apply elem_of_cons in Hin as [<-|Hin]; [left | right; exact Hin].
    destruct e as [csv_file config]. unfold load_step. cbn [fst snd] in *.
    destruct (files !! csv_file) as [content|] eqn:Hfile.
    + destruct (Hraise content (db st) eq_refl) as [x ->]. cbn.
      apply elem_of_app. right. left.
    + cbn. apply elem_of_app. right. left.
Qed.

Lemma load_csv_files_failed py files target e :
  (forall content st0, files !! e.1 = Some content ->
                       exists x, load_table py content e.2 st0 = Raise x) ->
  e ∈ table_configs ->
  e.1 ∈ failed_loads (load_csv_files py files target).
Proof.
  intros Hraise Hin.
  exact (load_loop_failed py files e table_configs
           {| db := target; successful_loads := []; failed_loads := [] |}
           Hraise (or_intror Hin)).
Qed.

Lemma sellers_configured : ("olist_sellers_dataset.csv", sellers_config) ∈ table_configs.
Proof. apply (list_elem_of_lookup_2 _ 7). reflexivity. Qed.

Lemma orders_configured : ("olist_orders_dataset.csv", orders_config) ∈ table_configs.
Proof. apply (list_elem_of_lookup_2 _ 2). reflexivity. Qed.

(** C7 (as amended) — a declared column that is entirely absent from the
    source fails the table exactly when it is one of the table's date
    columns, which in the configuration are the columns declared
    [datetime]: [read_csv] raises on its [parse_dates] argument, whatever
    the store, and the file joins the failed loads.  A declared column of
    any other type that is absent is skipped: the table is loaded exactly
    as it would be were the column not declared.  At the cell level the
    conversion of a frame raises only through the int conversion of a
    declared int column that the frame has. *)
Theorem C7_absent_column_is_skipped (py : pylib) (files : directory) (target : store)
    (csv_file : string) (config : table_config) (t : raw_table) (col dtype : string) :
  (csv_file, config) ∈ table_configs ->
  files !! csv_file = Some (Tokenised t) ->
  (col, dtype) ∈ dtypes config ->
  col ∉ header t ->
  let st := load_csv_files py files target in
  (col ∈ date_columns config <-> dtype = "datetime") /\
  (dtype = "datetime" ->
     (forall st0, load_table py (Tokenised t) config st0 = Raise MissingDateColumn) /\
     csv_file ∈ failed_loads st /\ table_name config ∉ successful_loads st) /\
  (dtype <> "datetime" ->
     forall st0, load_table py (Tokenised t) config st0
                 = load_table py (Tokenised t) (undeclare col config) st0) /\
  (forall df e, coerce_frame py config df = Raise e ->
     exists c s, (c, "int") ∈ dtypes config /\ df_get df c = Some s /\
                 coerce_int py s = Raise e).
Proof.
  intros Hcfg Hfile Hdecl Habsent st.
  pose proof (configured_dates (csv_file, config) (col, dtype) Hcfg Hdecl) as Hdates.
  cbn [fst snd] in Hdates.
  split; [exact Hdates|]. split; [|split].
  - intros Hdt. apply Hdates in Hdt.
    assert (Hraise : forall st0,
               load_table py (Tokenised t) config st0 = Raise MissingDateColumn).
    { intros st0. unfold load_table.
      rewrite (read_csv_missing_date py t (date_columns config) col Hdt Habsent).
      reflexivity. }
    split; [exact Hraise|].
    assert (Hfailed : csv_file ∈ failed_loads st).
    { apply (load_csv_files_failed py files target (csv_file, config)); [|exact Hcfg].
      cbn [fst snd]. intros content st0 Hc. rewrite Hfile in Hc. injection Hc as <-.
      eauto. }
    split; [exact Hfailed|].
    apply (load_csv_files_lists py files target (csv_file, config) Hcfg). exact Hfailed.
  - intros _ st0. symmetry. apply load_table_undeclare. exact Habsent.
  - intros df e Hraise.
    pose proof (coerce_frame_columns py config (dtypes config) df
                  (configured_dtypes_distinct (csv_file, config) Hcfg)) as H.
    unfold coerce_frame in Hraise. rewrite Hraise in H.
    destruct H as (c & d & s & Hin & Hget & Hconv).
    apply converted_raise in Hconv as [-> Hr]. eauto.
Qed.

Lemma C7_absent_column_is_skipped_witness :
  load_table bare_lib (Tokenised orders_without_estimate) orders_config empty_store
  = Raise MissingDateColumn /\
  "olist_orders_dataset.csv" ∈ failed_loads
     (load_csv_files bare_lib incomplete_sources empty_store) /\
  load_table bare_lib (Tokenised sellers_without_state) sellers_config empty_store
  = load_table bare_lib (Tokenised sellers_without_state)
      (undeclare "seller_state" sellers_config) empty_store.
Proof.
  assert (Ho : ("order_estimated_delivery_date", "datetime") ∈ dtypes orders_config)
    by (apply (list_elem_of_lookup_2 _ 7); reflexivity).
  assert (Ho' : "order_estimated_delivery_date" ∉ header orders_without_estimate)
    by (apply (bool_decide_eq_false_1 _); vm_compute; reflexivity).
  assert (Hs : ("seller_state", "string") ∈ dtypes sellers_config)
    by (apply (list_elem_of_lookup_2 _ 3); reflexivity).
  assert (Hs' : "seller_state" ∉ header sellers_without_state)
    by (apply (bool_decide_eq_false_1 _); vm_compute; reflexivity).
  destruct (C7_absent_column_is_skipped bare_lib incomplete_sources empty_store
              "olist_orders_dataset.csv" orders_config orders_without_estimate
              "order_estimated_delivery_date" "datetime"
              orders_configured eq_refl Ho Ho') as (_ & Horders & _).
  destruct (Horders eq_refl) as (Hraise & Hfailed & _).
  destruct (C7_absent_column_is_skipped bare_lib incomplete_sources empty_store
              "olist_sellers_dataset.csv" sellers_config sellers_without_state
              "seller_state" "string"
              sellers_configured eq_refl Hs Hs') as (_ & _ & Hsellers & _).
  split; [apply Hraise|]. split; [exact Hfailed|].
  apply Hsellers. discriminate.
Defined.

(** C7, the claim as stated, fails twice.  A sellers source without the
    declared column [seller_state] is loaded: the table is among the
    successful loads, with the three columns of the source.  And a
    payments source with an infinite number of installments fails at the
    cell level: the int conversion raises and the file joins the failed
    loads. *)
Lemma C7_counterexample :
  (("seller_state", "string") ∈ dtypes sellers_config) /\
  ("seller_state" ∉ header sellers_without_state) /\
  prepare bare_lib (Tokenised sellers_without_state) sellers_config
  = Ok {| df_len := 1;
          df_columns := [ ("seller_id", SObject [OStr "3442f8959a84dea7ee197c632cb2df15"]);
                          ("seller_zip_code_prefix", SObject [OStr "13023"]);
                          ("seller_city", SObject [OStr "campinas"]) ] |} /\
  successful_loads (load_csv_files bare_lib incomplete_sources empty_store) = ["sellers"] /\
  failed_loads
    (load_csv_files bare_lib {[ "olist_order_payments_dataset.csv" := payments_source ]}
       empty_store)
  = map fst table_configs.
Proof.
  split; [apply (list_elem_of_lookup_2 _ 3); reflexivity|].
  split; [apply (bool_decide_eq_false_1 _); vm_compute; reflexivity|].
  repeat split; vm_compute; reflexivity.
Qed.

(* ===================================================================== *)
(** ** The type inference of the analysis (claims C4 and C5) *)
(* ===================================================================== *)

Lemma suggested_type_object py l :
  suggested_type py (SObject l) = first_match py (SObject l).
Proof. reflexivity. Qed.

Lemma to_datetime_raises_not_spec py l :
  to_datetime_raises_not py l = true <-> Forall (timestamp_value py) l.
Proof.
  unfold to_datetime_raises_not. induction l as [|v l IH]; simpl.
  - split; [constructor | reflexivity].
  - rewrite andb_true_iff, IH, Forall_cons. apply and_iff_compat_r.
    unfold timestamp_value.
    destruct v as [z|x|b|s|ts|]; try (split; [discriminate | intros (t' & [=] & _)]).
    rewrite bool_decide_eq_true. split; [eauto | intros (t' & [= ->] & H); exact H].
Qed.

Lemma to_numeric_raises_not_spec py l :
  to_numeric_raises_not py l = true <-> Forall (numeric_value py) l.
Proof.
  unfold to_numeric_raises_not. induction l as [|v l IH]; simpl.
  - split; [constructor | reflexivity].
  - rewrite andb_true_iff, IH, Forall_cons. apply and_iff_compat_r.
    destruct v; simpl; try tauto.
    destruct (strtod (numeric_strtod py) s) as [x|].
    + destruct (parse_literal s) as [[z|m k]|]; try tauto.
      rewrite andb_true_iff, !Z.leb_le. reflexivity.
    + apply bool_decide_eq_true.
Qed.

(** C4 (as amended) — the inference follows the ordered first-match
    algorithm on every column stored as int64, float64 or text: numeric
    storage is numeric; for text a strict timestamp parse of all sampled
    values comes first (one failure disqualifies it), then a strict numeric
    parse, and string is the answer only if both fail.  A column of any
    other storage (booleans, timestamps, uint64) is labelled with the name
    of its storage type. *)
Theorem C4_first_match_by_storage (py : pylib) (s : Series) :
  match s with
  | SInt _ | SFloat _ =>
      suggested_type py s = "numeric" /\ first_match py s = "numeric"
  | SObject _ =>
      suggested_type py s = first_match py s /\
      (suggested_type py s = "datetime" <-> Forall (timestamp_value py) (sample s)) /\
      (suggested_type py s = "numeric" <->
         ~ Forall (timestamp_value py) (sample s) /\ Forall (numeric_value py) (sample s)) /\
      (suggested_type py s = "string" <->
         ~ Forall (timestamp_value py) (sample s) /\
         ~ Forall (numeric_value py) (sample s))
  | SBool _ | SDatetime _ | SUInt _ =>
      suggested_type py s = dtype_name s
  end.
Proof.
  destruct s as [l|l|l|l|l|l]; try (split; reflexivity); try reflexivity.
  split; [reflexivity|]. rewrite suggested_type_object. unfold first_match.
  cbn [numeric_storage].
  rewrite <- to_datetime_raises_not_spec, <- to_numeric_raises_not_spec.
  destruct (to_datetime_raises_not py _); destruct (to_numeric_raises_not py _);
    repeat split; try discriminate; try tauto; try congruence;
    intros [H1 H2]; try congruence; exfalso; auto.
Qed.

(** C4, the claim as stated, fails on a column of booleans and on a
    column of integers above the signed 64-bit range: the first-match
    algorithm answers numeric (booleans are no timestamps and pass the
    numeric parse; uint64 is a numeric machine type), the code answers
    with the storage names bool and uint64. *)
Lemma C4_counterexample :
  read_csv_column bare_lib ["True"; "False"] = SBool [true; false] /\
  first_match bare_lib (SBool [true; false]) = "numeric" /\
  suggested_type bare_lib (SBool [true; false]) = "bool" /\
  read_csv_column bare_lib ["9223372036854775808"; "1"]
  = SUInt [9223372036854775808; 1] /\
  first_match bare_lib (SUInt [9223372036854775808; 1]) = "numeric" /\
  suggested_type bare_lib (SUInt [9223372036854775808; 1]) = "uint64".
Proof. repeat split; vm_compute; reflexivity. Qed.

Lemma try_int64_all_missing cells :
  Forall (fun c => is_na c = true) cells -> try_int64 cells = Int64Done.
Proof. induction 1 as [|c cells Hc H IH]; simpl; [reflexivity|]. rewrite Hc. exact IH. Qed.

Lemma read_csv_column_all_missing py c cells :
  Forall (fun c => is_na c = true) (c :: cells) ->
  read_csv_column py (c :: cells) = SFloat (map upcast_cell (c :: cells)).
Proof.
  intros H. unfold read_csv_column. rewrite (try_int64_all_missing _ H).
  inversion H; subst. cbn [existsb]. rewrite H2. reflexivity.
Qed.

Lemma dropna_all_missing cells :
  Forall (fun c => is_na c = true) cells ->
  dropna (SFloat (map upcast_cell cells)) = [].
Proof.
  unfold dropna. simpl. induction 1 as [|c cells Hc H IH]; [reflexivity|].
  simpl. unfold upcast_cell at 1. rewrite Hc. simpl.
  rewrite filter_cons_False by (exact id). exact IH.
Qed.

(** C5 (as amended) — the inference is total and never fails; on the
    column of a source it answers string, numeric or datetime, or one of
    the storage names bool and uint64.  A column without any value present
    has an empty sample list and is classified datetime when the source has
    no rows (the strict timestamp parse of an empty sample succeeds) and
    numeric when it has rows (the column is stored as float64). *)
Theorem C5_inference_total (py : pylib) (cells : list string) :
  infer py cells ∈ ["string"; "numeric"; "datetime"; "bool"; "uint64"] /\
  if forallb is_na cells then
    sample_values (analyze_column py (read_csv_column py cells)) = [] /\
    infer py cells = match cells with [] => "datetime" | _ => "numeric" end
  else True.
Proof.
  split.
  - unfold infer.
    destruct (read_csv_column_case py cells) as [_|_|_|_|_|_|_|_|_];
      try (rewrite suggested_type_object; unfold first_match; cbn [numeric_storage];
           destruct (to_datetime_raises_not py _); [set_solver|];
           destruct (to_numeric_raises_not py _); set_solver).
    + change (suggested_type py (SInt (map int_of_cell cells))) with "numeric". set_solver.
    + change (suggested_type py (SFloat (map upcast_cell cells))) with "numeric". set_solver.
    + change (suggested_type py (SUInt (map uint_of_cell cells))) with "uint64". set_solver.
    + change (suggested_type py (SFloat (map (double_of_cell py) cells))) with "numeric".
      set_solver.
    + change (suggested_type py (SBool (map bool_of_cell cells))) with "bool". set_solver.
  - destruct (forallb is_na cells) eqn:H; [|exact I].
    apply forallb_true_Forall in H. destruct cells as [|c cells]; [split; reflexivity|].
    unfold infer. rewrite (read_csv_column_all_missing _ _ _ H).
    split; [|reflexivity].
    unfold analyze_column. cbn [sample_values]. rewrite (dropna_all_missing _ H).
    destruct (negb _); reflexivity.
Qed.

(** C5, the claim as stated, fails: the column of a source without rows
    is classified datetime, a column of missing cells numeric, and a column
    of booleans and one of integers above the signed 64-bit range get a
    fourth and a fifth label. *)
Lemma C5_counterexample :
  infer bare_lib [] = "datetime" /\
  sample_values (analyze_column bare_lib (read_csv_column bare_lib [])) = [] /\
  infer bare_lib [EmptyString; EmptyString] = "numeric" /\
  infer bare_lib ["True"; "False"] = "bool" /\
  infer bare_lib ["9223372036854775808"; "1"] = "uint64".
Proof. repeat split; vm_compute; reflexivity. Qed.

(* ===================================================================== *)
(** ** The detailed report (claim C10) *)
(* ===================================================================== *)

Lemma truediv_numpy a b : is_numpy a = true -> exists q, truediv a b = Ok q.
Proof. intros H. unfold truediv. rewrite H. simpl. eauto. Qed.

Lemma print_columns_ok info cols :
  Forall (fun c => is_numpy (null_count c.2) = true) cols ->
  exists out, mapM (print_column info) cols = Ok out.
Proof.
  induction 1 as [|[name c] cols Hc H IH]; simpl; [eauto|].
  destruct (truediv_numpy (null_count c) (total_rows info) Hc) as [q ->].
  destruct IH as [out ->]. simpl. eauto.
Qed.

Lemma print_file_ok py name content :
  exists out, print_file (name, analyze_file py name content) = Ok out.
Proof.
  unfold print_file, analyze_file. destruct (read_csv py content []) as [df|e]; [|eauto].
  destruct (print_columns_ok
              {| file_name := name;
                 total_rows := PyInt (Z.of_nat (df_len df));
                 total_columns := PyInt (Z.of_nat (length (df_columns df)));
                 columns := map (fun '(n, s) => (n, analyze_column py s)) (df_columns df) |}
              (map (fun '(n, s) => (n, analyze_column py s)) (df_columns df)))
    as [out Hout].
  { apply Forall_map, Forall_forall. intros [n s] _. reflexivity. }
  cbn [columns]. rewrite Hout. simpl. eauto.
Qed.

Lemma print_detailed_analysis_ok py listing :
  exists out, print_detailed_analysis (analyze_csv_files py listing) = Ok out.
Proof.
  unfold print_detailed_analysis, analyze_csv_files.
  generalize (filter (fun entry : string * file_content => Is_true (ends_with ".csv" entry.1)) listing).
  intros l. cut (exists blocks, mapM print_file
                   (map (fun '(name, content) => (name, analyze_file py name content)) l)
                 = Ok blocks).
  { intros [blocks ->]. simpl. eauto. }
  induction l as [|[name content] l IH]; simpl; [eauto|].
  destruct (print_file_ok py name content) as [out Hout].
  unfold print_file in Hout. rewrite Hout. destruct IH as [blocks ->]. simpl. eauto.
Qed.

Lemma read_csv_plain py t :
  read_csv py (Tokenised t) [] =
  Ok {| df_len := rt_len t;
        df_columns := map (fun col => (col.1, read_csv_column py col.2)) (rt_columns t) |}.
Proof.
  unfold read_csv. cbn [forallb]. do 2 f_equal.
  apply map_ext. intros [n cells]. reflexivity.
Qed.

Lemma print_columns_header_only py info cols :
  total_rows info = PyInt 0 ->
  Forall (fun col : string * list string => col.2 = []) cols ->
  mapM (print_column info)
    (map (fun col => let '(n, s) := (col.1, read_csv_column py col.2) in
                     (n, analyze_column py s)) cols)
  = Ok (map header_only_line cols).
Proof.
  intros H0. induction 1 as [|[n cells] cols Hc H IH]; [reflexivity|].
  simpl in Hc. subst cells. cbn [map mapM]. rewrite IH.
  unfold print_column at 1. cbn [fst snd]. rewrite H0. reflexivity.
Qed.

(** C10 (as amended) — rendering the detailed analysis of a source with a
    header and no row does not raise: [null_count] is a numpy integer, so
    [null_count / total_rows] with [total_rows = 0] is numpy's division and
    evaluates to NaN; every column of the source is printed, with NaN as
    its percentage.  The renderer returns on every result of the
    analysis. *)
Theorem C10_header_only_source_is_printed (py : pylib) (name : string) (t : raw_table)
    (listing : list (string * file_content)) :
  rt_len t = 0%nat ->
  Forall (fun col => col.2 = []) (rt_columns t) ->
  print_file (name, analyze_file py name (Tokenised t))
  = Ok (PrintFile name (PyInt 0) (PyInt (Z.of_nat (length (rt_columns t))))
          :: map header_only_line (rt_columns t)) /\
  exists out, print_detailed_analysis (analyze_csv_files py listing) = Ok out.
Proof.
  intros Hlen Hcols. split; [|apply print_detailed_analysis_ok].
  unfold print_file, analyze_file. rewrite read_csv_plain.
  cbn [df_len df_columns columns total_rows total_columns].
  rewrite Hlen, !length_map, map_map.
  rewrite print_columns_header_only; [reflexivity | reflexivity | exact Hcols].
Qed.

Lemma C10_header_only_source_is_printed_witness :
  print_file
    ("olist_orders_dataset.csv",
     analyze_file bare_lib "olist_orders_dataset.csv"
       (Tokenised {| rt_len := 0;
                     rt_columns := [ ("order_id", []); ("order_status", []) ] |}))
  = Ok [ PrintFile "olist_orders_dataset.csv" (PyInt 0) (PyInt 2);
         header_only_line ("order_id", []);
         header_only_line ("order_status", []) ] /\
  exists out,
    print_detailed_analysis (analyze_csv_files bare_lib header_only_listing) = Ok out.
Proof.
  apply (C10_header_only_source_is_printed bare_lib "olist_orders_dataset.csv"
           {| rt_len := 0; rt_columns := [ ("order_id", []); ("order_status", []) ] |}
           header_only_listing).
  - reflexivity.
  - repeat constructor.
Defined.

(** C10, the claim as stated, fails: the profile of a source with a header
    and no row has [total_rows] equal to 0, and the renderer prints its
    entry instead of raising a division by zero. *)
Lemma C10_counterexample :
  (snd <$> analyze_csv_files bare_lib header_only_listing)
  = [ Analysed
        {| file_name := "olist_orders_dataset.csv";
           total_rows := PyInt 0;
           total_columns := PyInt 2;
           columns := [ ("order_id", analyze_column bare_lib (SObject []));
                        ("order_status", analyze_column bare_lib (SObject [])) ] |} ] /\
  print_detailed_analysis (analyze_csv_files bare_lib header_only_listing)
  = Ok [ PrintFile "olist_orders_dataset.csv" (PyInt 0) (PyInt 2);
         PrintColumn "order_id" "object" "datetime" (NpInt64 0) (NpFloat64 Fnan)
           (PyInt 0) [];
         PrintColumn "order_status" "object" "datetime" (NpInt64 0) (NpFloat64 Fnan)
           (PyInt 0) [] ] /\
  truediv (PyInt 0) (PyInt 0) = Raise ZeroDivisionError.
Proof. repeat split; vm_compute; reflexivity. Qed.

(* ===================================================================== *)
(** ** Writes to the store (claim C8) *)
(* ===================================================================== *)

Lemma claims_in_Some config df cols key ix :
  claims_in config df cols key = Some ix ->
  key.1 = schema config /\ ix_table ix = table_name config /\
  exists col, col ∈ cols /\ key = (schema config, index_name config col) /\
              ix = {| ix_table := table_name config; ix_column := col |}.
Proof.
  induction cols as [|col cols IH]; simpl; [discriminate|].
  destruct (df_has df col && bool_decide _) eqn:Hc.
  - intros [= <-]. apply andb_true_iff in Hc as [_ Hk].
    apply bool_decide_eq_true in Hk. subst key. repeat split.
    exists col. repeat split. left.
  - intros H. destruct (IH H) as (H1 & H2 & col' & Hin & H3 & H4).
    repeat split; try assumption. exists col'. repeat split; try assumption.
    right. exact Hin.
Qed.

Lemma claims_hangs w key ix : claims w key = Some ix -> hangs_on w key ix.
Proof.
  intros H. apply claims_in_Some in H as (H1 & H2 & _). split; assumption.
Qed.

Lemma hangs_on_same w w' key ix :
  hangs_on w key ix -> hangs_on w' key ix -> write_key w = write_key w'.
Proof. unfold hangs_on, write_key. intros [H1 H2] [H3 H4]. congruence. Qed.

(** The relations after the creation of the indexes of a table: a name
    that is taken keeps its relation, a free one gets the index that the
    write claims for it. *)
Lemma create_index_step_lookup config df st col key :
  st_relations (create_index_step config df st col) !! key =
    match st_relations st !! key with
    | Some r => Some r
    | None => Index <$> claims_in config df [col] key
    end.
Proof.
  unfold create_index_step, create_index_if_not_exists. cbn [claims_in].
  destruct (df_has df col); cbn [andb].
  2:{ destruct (st_relations st !! key); reflexivity. }
  destruct (st_relations st !! (schema config, index_name config col)) as [old|] eqn:Hold.
  - destruct (st_relations st !! key) eqn:Hk; [reflexivity|].
    case_bool_decide as Hd; [|reflexivity]. subst key. congruence.
  - cbn [st_relations]. case_bool_decide as Hd.
    + subst key. rewrite lookup_insert_eq, Hold. reflexivity.
    + rewrite lookup_insert_ne by exact Hd.
      destruct (st_relations st !! key); reflexivity.
Qed.

Lemma create_indexes_lookup config df cols : forall st key,
  st_relations (fold_left (create_index_step config df) cols st) !! key =
    match st_relations st !! key with
    | Some r => Some r
    | None => Index <$> claims_in config df cols key
    end.
Proof.
  induction cols as [|col cols IH]; intros st key.
  - simpl. destruct (st_relations st !! key); reflexivity.
  - cbn [fold_left]. rewrite IH, create_index_step_lookup.
    destruct (st_relations st !! key); [reflexivity|].
    cbn [claims_in]. destruct (df_has df col && bool_decide _); reflexivity.
Qed.

(** A refused write leaves the store as it was. *)
Lemma write_entry_refused st w :
  refused w (st_relations st) = true -> write_entry st w = st.
Proof.
  unfold refused, write_entry, write_table, to_sql, write_key, has_dependent_view.
  destruct (st_relations st !! (schema w.1, table_name w.1)) as [[df|ix|v]|];
    try reflexivity; [|discriminate].
  intros ->. reflexivity.
Qed.

Lemma index_on_hangs w key ix :
  index_on (schema w.1) (table_name w.1) (key, Index ix) <-> hangs_on w key ix.
Proof. reflexivity. Qed.

(** An accepted write, relation by relation: the table holds the frame;
    the indexes on the table are dropped with it; then a free name that
    the write claims gets its index. *)
Lemma write_entry_lookup st w key :
  refused w (st_relations st) = false ->
  indexes_on_tables st ->
  st_relations (write_entry st w) !! key =
    if decide (key = write_key w) then Some (Table w.2)
    else match st_relations st !! key with
         | Some (Index ix) =>
             if decide (hangs_on w key ix) then Index <$> claims w key
             else Some (Index ix)
         | Some r => Some r
         | None => Index <$> claims w key
         end.
Proof.
  intros Hacc Hwf.
  unfold refused, write_key in Hacc.
  unfold write_entry, write_table, to_sql, has_dependent_view.
  destruct (st_relations st !! (schema w.1, table_name w.1)) as [[df|ix|v]|] eqn:Hkey;
    try discriminate.
  - rewrite Hacc. cbn [rbind]. unfold create_indexes. rewrite create_indexes_lookup.
    cbn [create_table drop_table st_relations]. unfold write_key.
    destruct (decide (key = (schema w.1, table_name w.1))) as [->|Hne].
    { rewrite lookup_insert_eq. reflexivity. }
    rewrite lookup_insert_ne by congruence. rewrite lookup_delete_ne by congruence.
    destruct (st_relations st !! key) as [r|] eqn:Hk.
    + destruct (decide (index_on (schema w.1) (table_name w.1) (key, r))) as [Hon|Hoff].
      * assert (filter (fun entry => ~ index_on (schema w.1) (table_name w.1) entry)
                  (st_relations st) !! key = None) as ->.
        { apply map_lookup_filter_None. right. intros x Hx Hn.
          rewrite Hk in Hx. injection Hx as <-. exact (Hn Hon). }
        destruct r as [df'|ix|v]; try contradiction.
        rewrite decide_True by exact Hon. reflexivity.
      * assert (filter (fun entry => ~ index_on (schema w.1) (table_name w.1) entry)
                  (st_relations st) !! key = Some r) as ->.
        { apply map_lookup_filter_Some. split; assumption. }
        destruct r as [df'|ix|v]; try reflexivity.
        rewrite decide_False by exact Hoff. reflexivity.
    + assert (filter (fun entry => ~ index_on (schema w.1) (table_name w.1) entry)
                (st_relations st) !! key = None) as ->.
      { apply map_lookup_filter_None. left. exact Hk. }
      reflexivity.
  - cbn [rbind]. unfold create_indexes. rewrite create_indexes_lookup.
    cbn [create_table st_relations]. unfold write_key.
    destruct (decide (key = (schema w.1, table_name w.1))) as [->|Hne].
    { rewrite lookup_insert_eq. reflexivity. }
    rewrite lookup_insert_ne by congruence.
    destruct (st_relations st !! key) as [[df'|ix|v]|] eqn:Hk; try reflexivity.
    rewrite decide_False; [reflexivity|].
    intros [Hs Ht]. specialize (Hwf key (Index ix) Hk). cbn in Hwf.
    rewrite Hs, Ht, Hkey in Hwf. exact Hwf.
Qed.

(** Whether a write is refused depends on the relation under the name of
    its table and on the views. *)
Lemma refused_same (w : table_config * DataFrame) (rels rels' : gmap (string * string) relation) :
  (forall key v, rels' !! key = Some (View v) <-> rels !! key = Some (View v)) ->
  (match rels !! write_key w, rels' !! write_key w with
   | None, None => True
   | Some (Table _), Some (Table _) => True
   | Some (Index _), Some (Index _) => True
   | Some (View _), Some (View _) => True
   | _, _ => False
   end) ->
  refused w rels' = refused w rels.
Proof.
  intros Hv Hk. unfold refused.
  destruct (rels !! write_key w) as [[df|ix|v]|], (rels' !! write_key w) as [[df'|ix'|v']|];
    try contradiction; try reflexivity.
  apply bool_decide_ext. unfold map_Exists. split.
  - intros (n & r & Hn & Hs). destruct r as [?|?|v]; try contradiction.
    exists n, (View v). split; [apply Hv; exact Hn | exact Hs].
  - intros (n & r & Hn & Hs). destruct r as [?|?|v]; try contradiction.
    exists n, (View v). split; [apply Hv; exact Hn | exact Hs].
Qed.

Section Rerun.

(** The writes that a run attempts, on distinct tables, and the
    relations of the target before the run. *)
Variable ws : list (table_config * DataFrame).
Variable target_rels : gmap (string * string) relation.

Hypothesis distinct_tables : NoDup (map write_key ws).

(** No write claims the name of a table that is written. *)
Hypothesis names_apart :
  forall w w' key, w ∈ ws -> w' ∈ ws -> is_Some (claims w key) -> key <> write_key w'.

(** An index of the target under the name of a written table, or under
    a name that a write claims, is on the table of that write or on no
    written table. *)
Hypothesis attached :
  forall w key ix,
    w ∈ ws -> key = write_key w \/ is_Some (claims w key) ->
    target_rels !! key = Some (Index ix) ->
    hangs_on w key ix \/ forall w', w' ∈ ws -> ~ hangs_on w' key ix.

Lemma split_distinct done w rest w' :
  ws = done ++ w :: rest -> w' ∈ done -> write_key w' <> write_key w.
Proof.
  intros Hws Hin Heq. pose proof distinct_tables as Hnd.
  rewrite Hws, map_app in Hnd. apply NoDup_app in Hnd as (_ & Hnd & _).
  apply (Hnd (write_key w')).
  - apply (list_elem_of_fmap_2 write_key). exact Hin.
  - rewrite Heq. simpl. left.
Qed.

(** An index on its own name: impossible where every index is on a
    table. *)
Lemma index_not_on_itself (rels : gmap (string * string) relation) w ix :
  map_Forall (index_on_table rels) rels ->
  rels !! write_key w = Some (Index ix) -> ~ hangs_on w (write_key w) ix.
Proof.
  intros Hwf Hk [Hs Ht]. specialize (Hwf _ _ Hk). cbn in Hwf.
  rewrite Ht in Hwf. unfold write_key in Hk. rewrite Hk in Hwf. exact Hwf.
Qed.

Lemma settled_step done w rest st :
  ws = done ++ w :: rest ->
  settled target_rels done (st_relations st) ->
  settled target_rels (done ++ [w]) (st_relations (write_entry st w)).
Proof.
  intros Hws [Hwf Hviews Hkept Hdone].
  assert (Hw : w ∈ ws) by (rewrite Hws; apply elem_of_app; right; left).
  assert (Hin_ws : forall w', w' ∈ done -> w' ∈ ws)
    by (intros w' H; rewrite Hws; apply elem_of_app; left; exact H).
  destruct (refused w (st_relations st)) eqn:Href.
  { rewrite write_entry_refused by exact Href. split; try assumption.
    - intros key ix Hk. destruct (Hkept key ix Hk) as [H|(w' & Hin & Hc)]; [auto|].
      right. exists w'. split; [apply elem_of_app; left; exact Hin | exact Hc].
    - intros w' Hin. apply elem_of_app in Hin as [Hin|Hin]; [auto|].
      apply list_elem_of_singleton in Hin as ->. left. exact Href. }
  pose proof (fun key => write_entry_lookup st w key Href Hwf) as Hlook.
  set (rels := st_relations st) in *.
  set (rels' := st_relations (write_entry st w)) in *.
  assert (Hkey : rels' !! write_key w = Some (Table w.2)).
  { rewrite Hlook. rewrite decide_True by reflexivity. reflexivity. }
  assert (Hnotview : forall v, rels !! write_key w <> Some (View v)).
  { intros v Hv. unfold refused in Href. rewrite Hv in Href. discriminate. }
  (* an index of the store under a name of a write that is done or
     current is not dropped by the current write *)
  assert (Hstay : forall w' key ix,
             w' ∈ done -> key = write_key w' \/ is_Some (claims w' key) ->
             rels !! key = Some (Index ix) -> ~ hangs_on w key ix).
  { intros w' key ix Hin Hname Hk Hh.
    destruct (Hkept key ix Hk) as [Ht|(w'' & Hin'' & Hc)].
    - destruct (attached w' key ix (Hin_ws w' Hin) Hname Ht) as [Hh'|Hno].
      + apply (split_distinct done w rest w' Hws Hin).
        apply (hangs_on_same w' w key ix Hh' Hh).
      + apply (Hno w Hw Hh).
    - apply (split_distinct done w rest w'' Hws Hin'').
      apply (hangs_on_same w'' w key ix); [apply claims_hangs; exact Hc | exact Hh]. }
  split.
  - (* every index is on a table *)
    intros key r Hk. destruct r as [df|ix|v]; try exact I. cbn.
    assert (Hcl : claims w key = Some ix -> rels' !! (key.1, ix_table ix) = Some (Table w.2)).
    { intros Hc. apply claims_hangs in Hc as [Hs Ht]. rewrite Hs, Ht. exact Hkey. }
    rewrite Hlook in Hk. destruct (decide (key = write_key w)); [discriminate|].
    destruct (rels !! key) as [[df0|ix0|v0]|] eqn:Hk0; try discriminate.
    + destruct (decide (hangs_on w key ix0)) as [Hh|Hh].
      * destruct (claims w key) as [ix1|] eqn:Hc; [|discriminate].
        injection Hk as <-. rewrite (Hcl eq_refl). exact I.
      * injection Hk as <-. pose proof (Hwf key (Index ix0) Hk0) as Ht. cbn in Ht.
        destruct (rels !! (key.1, ix_table ix0)) as [[df1| |]|] eqn:Ht0; try contradiction.
        rewrite Hlook. rewrite decide_False.
        -- rewrite Ht0. exact I.
        -- intros Heq. apply Hh. unfold write_key in Heq. injection Heq as H1 H2.
           split; assumption.
    + destruct (claims w key) as [ix1|] eqn:Hc; [|discriminate].
      injection Hk as <-. rewrite (Hcl eq_refl). exact I.
  - (* the views are those of the target *)
    intros key v. rewrite <- Hviews, Hlook.
    destruct (decide (key = write_key w)) as [->|Hne].
    { split; [discriminate | intros H; destruct (Hnotview v H)]. }
    destruct (rels !! key) as [[df0|ix0|v0]|]; try reflexivity.
    + destruct (decide (hangs_on w key ix0)); [|reflexivity].
      destruct (claims w key); split; discriminate.
    + destruct (claims w key); split; discriminate.
  - (* every index is of the target or claimed *)
    intros key ix Hk. rewrite Hlook in Hk.
    assert (Hcl : Index <$> claims w key = Some (Index ix) ->
                  exists w', w' ∈ done ++ [w] /\ claims w' key = Some ix).
    { intros H. exists w. split; [apply elem_of_app; right; left|].
      destruct (claims w key); [injection H as ->; reflexivity | discriminate]. }
    destruct (decide (key = write_key w)); [discriminate|].
    destruct (rels !! key) as [[df0|ix0|v0]|] eqn:Hk0; try discriminate; [|auto].
    destruct (decide (hangs_on w key ix0)); [auto|].
    injection Hk as <-. destruct (Hkept key ix0 Hk0) as [H|(w' & Hin & Hc)]; [auto|].
    right. exists w'. split; [apply elem_of_app; left; exact Hin | exact Hc].
  - (* every write that is done was refused or holds *)
    intros w' Hin. apply elem_of_app in Hin as [Hin|Hin].
    + assert (Hne : write_key w' <> write_key w)
        by (apply (split_distinct done w rest w' Hws Hin)).
      destruct (Hdone w' Hin) as [Hr|[Ht Hown Hnamed]].
      * left. rewrite <- Hr. apply refused_same.
        -- intros key v. rewrite Hviews. rewrite Hlook.
           destruct (decide (key = write_key w)) as [->|Hne'].
           { rewrite <- Hviews.
             split; [discriminate | intros H; destruct (Hnotview v H)]. }
           rewrite <- Hviews.
           destruct (rels !! key) as [[df0|ix0|v0]|]; try reflexivity.
           ++ destruct (decide (hangs_on w key ix0)); [|reflexivity].
              destruct (claims w key); split; discriminate.
           ++ destruct (claims w key); split; discriminate.
        -- rewrite Hlook. rewrite decide_False by exact Hne.
           destruct (rels !! write_key w') as [[df0|ix0|v0]|] eqn:Hk0; try exact I.
           ++ rewrite decide_False; [exact I|].
              apply (Hstay w' (write_key w') ix0 Hin); [left; reflexivity | exact Hk0].
           ++ unfold refused in Hr. rewrite Hk0 in Hr. discriminate.
      * right. split.
        -- rewrite Hlook. rewrite decide_False by exact Hne. rewrite Ht. reflexivity.
        -- intros key ix Hk Hh. rewrite Hlook in Hk.
           assert (Hcl : Index <$> claims w key = Some (Index ix) -> False).
           { intros H. destruct (claims w key) as [ix1|] eqn:Hc; [|discriminate].
             injection H as ->. apply Hne.
             apply (hangs_on_same w' w key ix Hh). apply claims_hangs. exact Hc. }
           destruct (decide (key = write_key w)); [discriminate|].
           destruct (rels !! key) as [[df0|ix0|v0]|] eqn:Hk0; try discriminate.
           ++ destruct (decide (hangs_on w key ix0)); [destruct (Hcl Hk)|].
              injection Hk as <-. apply (Hown key ix0 Hk0 Hh).
           ++ destruct (Hcl Hk).
        -- intros key Hc. destruct (Hnamed key Hc) as [r Hk0]. rewrite Hlook.
           rewrite decide_False by (apply (names_apart w' w key (Hin_ws w' Hin) Hw Hc)).
           rewrite Hk0. destruct r as [df0|ix0|v0]; eauto.
           rewrite decide_False; [eauto|].
           apply (Hstay w' key ix0 Hin); [right; exact Hc | exact Hk0].
    + apply list_elem_of_singleton in Hin as ->. right. split.
      * exact Hkey.
      * intros key ix Hk Hh. rewrite Hlook in Hk.
        destruct (decide (key = write_key w)); [discriminate|].
        destruct (rels !! key) as [[df0|ix0|v0]|] eqn:Hk0; try discriminate.
        -- destruct (decide (hangs_on w key ix0)) as [Hh0|Hh0].
           ++ destruct (claims w key); [injection Hk as ->; reflexivity | discriminate].
           ++ injection Hk as <-. contradiction.
        -- destruct (claims w key); [injection Hk as ->; reflexivity | discriminate].
      * intros key [ix Hc]. rewrite Hlook. rewrite Hc.
        destruct (decide (key = write_key w)); [eauto|].
        destruct (rels !! key) as [[df0|ix0|v0]|]; eauto.
        destruct (decide (hangs_on w key ix0)); eauto.
Qed.

Lemma settled_run rest : forall done st,
  ws = done ++ rest ->
  settled target_rels done (st_relations st) ->
  settled target_rels ws (st_relations (fold_left write_entry rest st)).
Proof.
  induction rest as [|w rest IH]; intros done st Hws Hs; simpl.
  - rewrite app_nil_r in Hws. subst done. exact Hs.
  - apply (IH (done ++ [w])).
    + rewrite <- app_assoc. exact Hws.
    + apply (settled_step done w rest); assumption.
Qed.

Lemma settled_start :
  map_Forall (index_on_table target_rels) target_rels ->
  settled target_rels [] target_rels.
Proof.
  intros Hwf. split.
  - exact Hwf.
  - reflexivity.
  - auto.
  - intros w Hin. inversion Hin.
Qed.

(** Once all writes have been attempted, attempting one of them again
    changes no relation. *)
Lemma settled_fixed st w :
  settled target_rels ws (st_relations st) -> w ∈ ws ->
  st_relations (write_entry st w) = st_relations st.
Proof.
  intros [Hwf Hviews Hkept Hdone] Hin.
  destruct (refused w (st_relations st)) eqn:Href.
  { rewrite write_entry_refused by exact Href. reflexivity. }
  destruct (Hdone w Hin) as [Hr|[Ht Hown Hnamed]]; [congruence|].
  apply map_eq. intros key. rewrite (write_entry_lookup st w key Href Hwf).
  destruct (decide (key = write_key w)) as [->|Hne]; [symmetry; exact Ht|].
  destruct (st_relations st !! key) as [[df0|ix0|v0]|] eqn:Hk; try reflexivity.
  - destruct (decide (hangs_on w key ix0)) as [Hh|Hh]; [|reflexivity].
    rewrite (Hown key ix0 Hk Hh). reflexivity.
  - destruct (claims w key) as [ix|] eqn:Hc; [|reflexivity].
    destruct (Hnamed key) as [r Hr']; [eauto|]. congruence.
Qed.

Lemma rerun_fixed rest : forall st,
  (forall w, w ∈ rest -> w ∈ ws) ->
  settled target_rels ws (st_relations st) ->
  st_relations (fold_left write_entry rest st) = st_relations st.
Proof.
  induction rest as [|w rest IH]; intros st Hsub Hs; [reflexivity|].
  cbn [fold_left].
  assert (Hfix : st_relations (write_entry st w) = st_relations st)
    by (apply settled_fixed; [exact Hs | apply Hsub; left]).
  rewrite IH.
  - exact Hfix.
  - intros w' H. apply Hsub. right. exact H.
  - rewrite Hfix. exact Hs.
Qed.

End Rerun.

(** The store after the load loop: the writes of the plan attempted in
    order. *)
Lemma load_step_db py files st e :
  db (load_step py files st e) =
  match loads py files e with
  | Some df => write_entry (db st) (e.2, df)
  | None => db st
  end.
Proof.
  destruct e as [csv_file config]. unfold load_step, loads, write_entry. cbn [fst snd].
  destruct (files !! csv_file) as [content|]; [|reflexivity].
  rewrite load_table_prepare.
  destruct (prepare py content config) as [df|]; [|reflexivity].
  cbn [rbind]. destruct (write_table config df (db st)); reflexivity.
Qed.

Lemma load_loop_db py files configs : forall st,
  db (fold_left (load_step py files) configs st)
  = fold_left write_entry (plan py files configs) (db st).
Proof.
  induction configs as [|e configs IH]; intros st; [reflexivity|].
  cbn [fold_left plan]. rewrite IH, load_step_db.
  destruct (loads py files e); reflexivity.
Qed.

Lemma load_csv_files_db py files target :
  db (load_csv_files py files target)
  = fold_left write_entry (plan py files table_configs) target.
Proof.
  exact (load_loop_db py files table_configs
           {| db := target; successful_loads := []; failed_loads := [] |}).
Qed.

Lemma plan_elem py files configs w :
  w ∈ plan py files configs <->
  exists e, e ∈ configs /\ w.1 = e.2 /\ loads py files e = Some w.2.
Proof.
  induction configs as [|e configs IH]; simpl.
  - split; [intros H; inversion H | intros (e & H & _); inversion H].
  - destruct (loads py files e) as [df|] eqn:Hl.
    + rewrite elem_of_cons, IH. split.
      * intros [->|(e' & Hin & H1 & H2)].
        -- exists e. repeat split; [left | exact Hl].
        -- exists e'. repeat split; [right; exact Hin | exact H1 | exact H2].
      * intros (e' & Hin & H1 & H2). apply elem_of_cons in Hin as [->|Hin].
        -- left. destruct w as [c d]. simpl in *. congruence.
        -- right. eauto.
    + rewrite IH. split.
      * intros (e' & Hin & H1 & H2). exists e'. repeat split; [right; exact Hin | exact H1 | exact H2].
      * intros (e' & Hin & H1 & H2). apply elem_of_cons in Hin as [->|Hin]; [congruence | eauto].
Qed.

Lemma plan_keys_sublist py files configs :
  map write_key (plan py files configs)
    `sublist_of` map (fun e : string * table_config => (schema e.2, table_name e.2)) configs.
Proof.
  induction configs as [|e configs IH]; simpl; [constructor|].
  destruct (loads py files e); simpl.
  - apply sublist_skip. exact IH.
  - apply sublist_cons. exact IH.
Qed.

(** In the configuration no index name [idx_<table>_<column>] is the
    name of a table. *)
Lemma configured_names_apart e e' col :
  e ∈ table_configs -> e' ∈ table_configs -> col ∈ indexes e.2 ->
  (schema e.2, index_name e.2 col) <> (schema e'.2, table_name e'.2).
Proof.
  intros He He' Hcol.
  assert (H : forallb (fun e : string * table_config =>
                forallb (fun col =>
                  forallb (fun e' : string * table_config =>
                             negb (index_name e.2 col =? table_name e'.2)%string)
                          table_configs) (indexes e.2)) table_configs = true)
    by (vm_compute; reflexivity).
  rewrite forallb_forall in H. apply list_elem_of_In in He. specialize (H e He).
  rewrite forallb_forall in H. apply list_elem_of_In in Hcol. specialize (H col Hcol).
  rewrite forallb_forall in H. apply list_elem_of_In in He'. specialize (H e' He').
  apply negb_true_iff, String.eqb_neq in H. congruence.
Qed.

Lemma plan_names_apart py files w w' key :
  w ∈ plan py files table_configs -> w' ∈ plan py files table_configs ->
  is_Some (claims w key) -> key <> write_key w'.
Proof.
  intros Hw Hw' [ix Hc].
  apply claims_in_Some in Hc as (_ & _ & col & Hcol & -> & _).
  apply plan_elem in Hw as (e & He & Hw & _).
  apply plan_elem in Hw' as (e' & He' & Hw' & _).
  unfold write_key. rewrite Hw in *. rewrite Hw'.
  apply configured_names_apart; assumption.
Qed.

Lemma plan_attached py files configs st w key ix :
  well_attached configs st ->
  w ∈ plan py files configs ->
  key = write_key w \/ is_Some (claims w key) ->
  st_relations st !! key = Some (Index ix) ->
  hangs_on w key ix \/ forall w', w' ∈ plan py files configs -> ~ hangs_on w' key ix.
Proof.
  intros Hwa Hin Hname Hk.
  apply plan_elem in Hin as (e & He & Hw & _).
  assert (Hres : key.1 = schema e.2 /\ reserved e key.2).
  { destruct Hname as [->|[ix0 Hc]].
    - unfold write_key. rewrite Hw. split; [reflexivity | left; reflexivity].
    - apply claims_in_Some in Hc as (_ & _ & col & Hcol & -> & _). rewrite Hw in *.
      split; [reflexivity|]. right. apply Exists_exists. exists col.
      split; [exact Hcol | reflexivity]. }
  destruct Hres as [Hs Hres].
  destruct (decide (ix_table ix = table_name w.1)) as [Heq|Hne].
  - left. split; [rewrite Hw; exact Hs | exact Heq].
  - right. intros w' Hin' [Hs' Ht']. apply Hne.
    apply plan_elem in Hin' as (e' & He' & Hw' & _).
    specialize (Hwa key (Index ix) Hk). cbn in Hwa.
    rewrite Forall_forall in Hwa. specialize (Hwa e He Hs Hres).
    rewrite Forall_forall in Hwa. rewrite Hw' in *. rewrite Hw.
    rewrite Ht'. apply (Hwa e' He'); congruence.
Qed.

(** After a run from a target in which every index is on a table, the
    relations are settled. *)
Lemma load_csv_files_settled py files st :
  indexes_on_tables st -> well_attached table_configs st ->
  settled (st_relations st) (plan py files table_configs)
    (st_relations (db (load_csv_files py files st))).
Proof.
  intros Hwf Hwa. rewrite load_csv_files_db.
  apply (settled_run _ _) with (done := []).
  - eapply sublist_NoDup; [exact table_names_distinct | apply plan_keys_sublist].
  - intros w w' key. apply plan_names_apart.
  - intros w key ix. apply plan_attached. exact Hwa.
  - reflexivity.
  - apply settled_start. exact Hwf.
Qed.

(** The second of two runs in succession leaves the relations as the
    first left them. *)
Lemma load_twice_same_relations py files st :
  indexes_on_tables st -> well_attached table_configs st ->
  st_relations (db (load_csv_files py files (db (load_csv_files py files st))))
  = st_relations (db (load_csv_files py files st)).
Proof.
  intros Hwf Hwa. pose proof (load_csv_files_settled py files st Hwf Hwa) as Hs.
  rewrite (load_csv_files_db py files (db (load_csv_files py files st))).
  apply (rerun_fixed _ _ _ _ (fun w H => H) Hs).
Qed.

(** A write leaves the tables under other names alone, and an accepted
    write leaves its table with the frame. *)
Lemma to_sql_other_table df name sch st st' key :
  to_sql df name sch st = Ok st' -> key <> (sch, name) ->
  st_relations st' !! key ≫= as_table = st_relations st !! key ≫= as_table.
Proof.
  unfold to_sql. intros H Hne.
  destruct (st_relations st !! (sch, name)) as [[df0|ix0|v0]|]; try discriminate.
  - destruct (has_dependent_view (sch, name) st); [discriminate|]. injection H as <-.
    cbn [create_table drop_table st_relations].
    rewrite lookup_insert_ne by congruence. rewrite lookup_delete_ne by congruence.
    destruct (st_relations st !! key) as [r|] eqn:Hk.
    + destruct (decide (index_on sch name (key, r))) as [Hon|Hoff].
      * assert (filter (fun entry => ~ index_on sch name entry)
                  (st_relations st) !! key = None) as ->.
        { apply map_lookup_filter_None. right. intros x Hx Hn.
          rewrite Hk in Hx. injection Hx as <-. exact (Hn Hon). }
        destruct r; try contradiction. reflexivity.
      * assert (filter (fun entry => ~ index_on sch name entry)
                  (st_relations st) !! key = Some r) as ->; [|reflexivity].
        apply map_lookup_filter_Some. split; assumption.
    + assert (filter (fun entry => ~ index_on sch name entry)
                (st_relations st) !! key = None) as ->; [|reflexivity].
      apply map_lookup_filter_None. left. exact Hk.
  - injection H as <-. cbn [create_table st_relations].
    rewrite lookup_insert_ne by congruence. reflexivity.
Qed.

Lemma create_indexes_tables config df st key :
  st_relations (create_indexes config df st) !! key ≫= as_table
  = st_relations st !! key ≫= as_table.
Proof.
  unfold create_indexes. rewrite create_indexes_lookup.
  destruct (st_relations st !! key); [reflexivity|].
  destruct (claims_in config df (indexes config) key); reflexivity.
Qed.

Lemma write_entry_other_table st w key :
  key <> write_key w -> st_tables (write_entry st w) !! key = st_tables st !! key.
Proof.
  intros Hne. unfold st_tables. rewrite !lookup_omap.
  unfold write_entry, write_table.
  destruct (to_sql w.2 (table_name w.1) (schema w.1) st) as [st0|] eqn:Hsql; [|reflexivity].
  cbn [rbind]. rewrite create_indexes_tables.
  apply (to_sql_other_table _ _ _ _ _ _ Hsql). exact Hne.
Qed.

Lemma write_table_ok_table config df st st' :
  write_table config df st = Ok st' ->
  st_tables st' !! (schema config, table_name config) = Some df.
Proof.
  unfold write_table.
  destruct (to_sql df (table_name config) (schema config) st) as [st0|] eqn:Hsql;
    [|discriminate].
  cbn [rbind]. intros [= <-]. unfold st_tables. rewrite lookup_omap, create_indexes_tables.
  unfold to_sql in Hsql.
  destruct (st_relations st !! (schema config, table_name config)) as [[df0|ix0|v0]|];
    try discriminate.
  - destruct (has_dependent_view _ st); [discriminate|]. injection Hsql as <-.
    cbn [create_table st_relations]. rewrite lookup_insert_eq. reflexivity.
  - injection Hsql as <-.
    cbn [create_table st_relations]. rewrite lookup_insert_eq. reflexivity.
Qed.

(** The step of an entry, seen from the table of another entry or of the
    same. *)
Lemma load_step_other_table py files st x key :
  key <> (schema x.2, table_name x.2) ->
  st_tables (db (load_step py files st x)) !! key = st_tables (db st) !! key.
Proof.
  intros Hne. rewrite load_step_db. destruct (loads py files x) as [df|]; [|reflexivity].
  apply write_entry_other_table. exact Hne.
Qed.

Lemma load_step_own_table py files st e df :
  loads py files e = Some df ->
  let st' := load_step py files st e in
  (successful_loads st' = successful_loads st ++ [table_name e.2] /\
   failed_loads st' = failed_loads st /\
   st_tables (db st') !! (schema e.2, table_name e.2) = Some df) \/
  (successful_loads st' = successful_loads st /\
   failed_loads st' = failed_loads st ++ [e.1] /\ db st' = db st).
Proof.
  destruct e as [csv_file config]. unfold loads, load_step. cbn [fst snd].
  destruct (files !! csv_file) as [content|]; [|discriminate].
  rewrite load_table_prepare.
  destruct (prepare py content config) as [df'|]; [|discriminate].
  intros [= ->]. cbn [rbind].
  destruct (write_table config df (db st)) as [db'|] eqn:Hw; cbn.
  - left. repeat split. apply (write_table_ok_table _ _ _ _ Hw).
  - right. repeat split.
Qed.

(** Through the loop: the table of an entry that is among the successful
    loads holds its frame, and the table of an entry that is not holds
    what it held before. *)
Lemma load_loop_tables py files target e configs : forall st,
  (forall x, x ∈ configs ->
     x = e \/ (table_name x.2 <> table_name e.2 /\
               (schema x.2, table_name x.2) <> (schema e.2, table_name e.2))) ->
  (forall df, loads py files e = Some df ->
     table_name e.2 ∈ successful_loads st ->
     st_tables (db st) !! (schema e.2, table_name e.2) = Some df) ->
  (table_name e.2 ∉ successful_loads st ->
     st_tables (db st) !! (schema e.2, table_name e.2)
     = st_tables target !! (schema e.2, table_name e.2)) ->
  let st' := fold_left (load_step py files) configs st in
  (forall df, loads py files e = Some df ->
     table_name e.2 ∈ successful_loads st' ->
     st_tables (db st') !! (schema e.2, table_name e.2) = Some df) /\
  (table_name e.2 ∉ successful_loads st' ->
     st_tables (db st') !! (schema e.2, table_name e.2)
     = st_tables target !! (schema e.2, table_name e.2)).
Proof.
  induction configs as [|x configs IH]; intros st Hcfg Hin Hout; cbn [fold_left];
    [split; assumption|].
  apply IH; [intros y Hy; apply Hcfg; right; exact Hy | |].
  - intros df Hl Hs.
    destruct (Hcfg x) as [->|[Hname Hkey]]; [left| |].
    + destruct (load_step_own_table py files st e df Hl) as [(_ & _ & Ht)|(Hs' & _ & Hdb)].
      * exact Ht.
      * rewrite Hdb. apply (Hin df Hl). rewrite <- Hs'. exact Hs.
    + rewrite load_step_other_table by congruence. apply (Hin df Hl).
      destruct (load_step_lists py files st x) as [(Hs' & _)|(Hs' & _)];
        rewrite Hs' in Hs; [|exact Hs].
      apply elem_of_app in Hs as [Hs|Hs]; [exact Hs|].
      apply list_elem_of_singleton in Hs. congruence.
  - intros Hs.
    destruct (Hcfg x) as [->|[Hname Hkey]]; [left| |].
    + destruct (loads py files e) as [df|] eqn:Hl.
      * destruct (load_step_own_table py files st e df Hl) as [(Hs' & _)|(Hs' & _ & Hdb)].
        -- exfalso. apply Hs. rewrite Hs'. apply elem_of_app. right. left.
        -- rewrite Hdb. apply Hout. rewrite <- Hs'. exact Hs.
      * rewrite load_step_db, Hl. apply Hout.
        destruct (load_step_lists py files st e) as [(Hs' & _)|(Hs' & _)];
          rewrite Hs' in Hs; [|exact Hs].
        intros H. apply Hs. apply elem_of_app. left. exact H.
    + rewrite load_step_other_table by congruence. apply Hout.
      destruct (load_step_lists py files st x) as [(Hs' & _)|(Hs' & _)];
        rewrite Hs' in Hs; [|exact Hs].
      intros H. apply Hs. apply elem_of_app. left. exact H.
Qed.

Lemma load_csv_files_tables py files target e :
  e ∈ table_configs ->
  let st := load_csv_files py files target in
  (forall df, loads py files e = Some df ->
     table_name e.2 ∈ successful_loads st ->
     st_tables (db st) !! (schema e.2, table_name e.2) = Some df) /\
  (table_name e.2 ∉ successful_loads st ->
     st_tables (db st) !! (schema e.2, table_name e.2)
     = st_tables target !! (schema e.2, table_name e.2)).
Proof.
  intros He.
  refine (load_loop_tables py files target e table_configs
            {| db := target; successful_loads := []; failed_loads := [] |} _ _ _).
  - intros x Hx. destruct (decide (table_name x.2 = table_name e.2)) as [Heq|Hne].
    + left. apply table_name_distinct; assumption.
    + right. split; [exact Hne | congruence].
  - intros df _ H. inversion H.
  - reflexivity.
Qed.

Lemma st_indexes_lookup st key ix :
  st_indexes st !! key = Some ix <-> st_relations st !! key = Some (Index ix).
Proof.
  unfold st_indexes. rewrite lookup_omap.
  destruct (st_relations st !! key) as [[df|ix'|v]|]; cbn;
    split; intros H; try discriminate; congruence.
Qed.




(** On the target with a view the customers table is not replaced and
    keeps its rows, the sellers table is, and its old index goes with
    it. *)
Lemma viewed_target_run :
  let once := load_csv_files bare_lib two_sources viewed_target in
  successful_loads once = ["sellers"] /\
  "olist_customers_dataset.csv" ∈ failed_loads once /\
  select_count "raw_data" "customers" (db once) = Some 0%nat /\
  select_count "raw_data" "sellers" (db once) = Some 1%nat /\
  st_indexes (db once) !! ("raw_data", "sellers_by_city") = None /\
  st_indexes (db once) !! ("raw_data", "idx_sellers_seller_state")
  = Some {| ix_table := "sellers"; ix_column := "seller_state" |}.
Proof.
  cbv zeta. split; [vm_compute; reflexivity|].
  split; [apply (bool_decide_unpack _); vm_compute; exact I|].
  repeat split; vm_compute; reflexivity.
Qed.
